(** * Spawner: provider dispatcher and the AWS cluster / node-group engine

    A shallow embedding of [pkg/service/service.go] (the provider
    dispatcher of package [service] and the EKS controller of package
    [aws]) together with the properties of its specification.

    Conventions of the embedding:
    - a Go pointer that may be nil is an [option]; a Go [(value, error)]
      pair is a pair of options, exactly as the code hands it around;
    - a run-time panic (nil dereference, failed type assertion, index out
      of range) is the outcome [Panic];
    - every call that leaves the process (the AWS SDK, and the helpers of
      the package that are not part of this file of the repository) goes
      through a [Vendor] and is recorded, with its answer, in a trace;
    - a Go map that is ranged over is given as the list of its entries in
      the order the [range] statement visits them. *)

From stdpp Require Import gmap strings list fin_maps.
From Stdlib Require Import ZArith Ascii.

Local Open Scope Z_scope.

(* ===================================================================== *)
(** ** Go values: errors, formatting, integers *)
(* ===================================================================== *)

Module Go.

(** The [error] values that occur in the two packages. *)
Inductive error : Type :=
| AwsError (code message : string)   (* awserr.Error, returned by the SDK *)
| ERR_NODEGROUP_EXIST                (* errors.New("nodegroup already exist") *)
| ERR_NO_NODEGROUP                   (* errors.New("no nodegroup exist in cluster") *)
| Errorf (msg : string).             (* fmt.Errorf and any other error value *)

#[global] Instance error_eq_dec : EqDecision error.
Proof. solve_decision. Defined.

(** [err.Error()] *)
Definition Error (e : error) : string :=
  match e with
  | AwsError code message => code +:+ ": " +:+ message
  | ERR_NODEGROUP_EXIST => "nodegroup already exist"
  | ERR_NO_NODEGROUP => "no nodegroup exist in cluster"
  | Errorf msg => msg
  end.

(** [errors.Is(err, target)] for the two sentinels: nothing in the
    package wraps an error, so the chain has length one. *)
Definition Is (err target : error) : bool := bool_decide (err = target).

(** [err.(awserr.Error).Code()]: [None] when the assertion fails. *)
Definition awserr_Code (e : error) : option string :=
  match e with
  | AwsError code _ => Some code
  | _ => None
  end.

(** [fmt.Sprintf] restricted to the [%s] verb, the only one the two
    formats that are rendered here use. *)
Fixpoint Sprintf (format : string) (args : list string) : string :=
  match format with
  | EmptyString => EmptyString
  | String "%"%char (String "s"%char rest) =>
      match args with
      | a :: args' => a +:+ Sprintf rest args'
      | [] => "%!s(MISSING)" +:+ Sprintf rest []
      end
  | String c rest => String c (Sprintf rest args)
  end.

(** [int32(x)] of an [int64]: the low 32 bits, two's complement. *)
Definition int32 (x : Z) : Z := (x + 2 ^ 31) mod 2 ^ 32 - 2 ^ 31.

(** The result of running a piece of Go code. *)
Inductive outcome (A : Type) : Type :=
| Done (a : A)
| Panic (why : string).
Arguments Done {A} a.
Arguments Panic {A} why.

(** Code that may panic and that acts on a state [S]. *)
Definition M (S A : Type) : Type := S -> outcome A * S.

Definition ret {S A} (a : A) : M S A := fun s => (Done a, s).

Definition bind {S A B} (m : M S A) (k : A -> M S B) : M S B :=
  fun s =>
    match m s with
    | (Done a, s') => k a s'
    | (Panic why, s') => (Panic why, s')
    end.

Definition panic {S A} (why : string) : M S A := fun s => (Panic why, s).

Definition nil_dereference : string :=
  "invalid memory address or nil pointer dereference".

End Go.

Import Go.

Notation "x <- m ;; k" := (bind m (fun x => k))
  (at level 100, m at next level, right associativity).
Notation "m ;; k" := (bind m (fun _ => k))
  (at level 100, right associativity).

(* ===================================================================== *)
(** ** The wire types (package [pb] / [proto]) *)
(* ===================================================================== *)

Module NodeSpec.
(** [Labels] is the map [map[string]string] of the request, as the list
    of its entries in the order a [range] over it visits them. *)
Record t : Type := mk {
  Name : string;
  Instance : string;
  DiskSize : Z;
  GpuEnabled : bool;
  Labels : list (string * string);
}.
End NodeSpec.

Module ClusterSpec.
Record t : Type := mk { Name : string; NodeSpec : list NodeSpec.t }.
End ClusterSpec.

Module ClusterRequest.
Record t : Type := mk {
  Provider : string; Region : string; AccountName : string;
  ClusterName : string;
}.
End ClusterRequest.

Module ClusterResponse.
Record t : Type := mk { ClusterName : string }.
End ClusterResponse.

Module GetClustersRequest.
Record t : Type := mk {
  Provider : string; Region : string; AccountName : string;
}.
End GetClustersRequest.

Module GetClustersResponse.
Record t : Type := mk { Clusters : list ClusterSpec.t }.
End GetClustersResponse.

Module ClusterStatusRequest.
Record t : Type := mk {
  Provider : string; Region : string; AccountName : string;
  ClusterName : string;
}.
End ClusterStatusRequest.

Module ClusterStatusResponse.
Record t : Type := mk { Status : string; Error : string }.
End ClusterStatusResponse.

Module NodeSpawnRequest.
Record t : Type := mk {
  Provider : string; Region : string; AccountName : string;
  ClusterName : string;
  NodeSpec : option NodeSpec.t;       (* *pb.NodeSpec *)
}.
End NodeSpawnRequest.

Module NodeSpawnResponse.
Record t : Type := mk { }.
End NodeSpawnResponse.

Module ClusterDeleteRequest.
Record t : Type := mk {
  Provider : string; Region : string; AccountName : string;
  ClusterName : string;
}.
End ClusterDeleteRequest.

Module ClusterDeleteResponse.
Record t : Type := mk { Error : string }.
End ClusterDeleteResponse.

Module NodeDeleteRequest.
Record t : Type := mk {
  Provider : string; Region : string; AccountName : string;
  ClusterName : string; NodeGroupName : string;
}.
End NodeDeleteRequest.

Module NodeDeleteResponse.
Record t : Type := mk { Error : string }.
End NodeDeleteResponse.

Module GetTokenRequest.
Record t : Type := mk {
  Provider : string; Region : string; AccountName : string;
  ClusterName : string;
}.
End GetTokenRequest.

Module GetTokenResponse.
Record t : Type := mk { Token : string; CaData : string; Endpoint : string }.
End GetTokenResponse.

(** The requests of the operations whose controller code is not in this
    file of the repository: the dispatcher reads their [Provider] only. *)
Module OtherRequest.
Record t : Type := mk { Provider : string; payload : string }.
End OtherRequest.

Module OtherResponse.
Record t : Type := mk { payload : string }.
End OtherResponse.

(* ===================================================================== *)
(** ** Package [service]: the provider dispatcher *)
(* ===================================================================== *)

Module Service.

Definition ProviderNotFound : string :=
  "provider not found, must be one of ['aws', 'azure'], got %s".

(** The methods of the [Controller] interface that [spawnerService]
    forwards to. *)
Inductive method : Type :=
| CreateCluster | GetCluster | GetClusters | AddToken | GetToken
| ClusterStatus | AddNode | DeleteCluster | DeleteNode
| CreateVolume | DeleteVolume | CreateSnapshot | CreateSnapshotAndDelete
| GetWorkspacesCost | GetKubeConfig | TagNodeInstance.

Definition Request (m : method) : Type :=
  match m with
  | CreateCluster => ClusterRequest.t
  | GetClusters => GetClustersRequest.t
  | GetToken => GetTokenRequest.t
  | ClusterStatus => ClusterStatusRequest.t
  | AddNode => NodeSpawnRequest.t
  | DeleteCluster => ClusterDeleteRequest.t
  | DeleteNode => NodeDeleteRequest.t
  | _ => OtherRequest.t
  end.

Definition Response (m : method) : Type :=
  match m with
  | CreateCluster => ClusterResponse.t
  | GetClusters => GetClustersResponse.t
  | GetToken => GetTokenResponse.t
  | ClusterStatus => ClusterStatusResponse.t
  | AddNode => NodeSpawnResponse.t
  | DeleteCluster => ClusterDeleteResponse.t
  | DeleteNode => NodeDeleteResponse.t
  | _ => OtherResponse.t
  end.

(** [req.Provider] *)
Definition Provider {m : method} : Request m -> string :=
  match m with
  | CreateCluster => ClusterRequest.Provider
  | GetClusters => GetClustersRequest.Provider
  | GetToken => GetTokenRequest.Provider
  | ClusterStatus => ClusterStatusRequest.Provider
  | AddNode => NodeSpawnRequest.Provider
  | DeleteCluster => ClusterDeleteRequest.Provider
  | DeleteNode => NodeDeleteRequest.Provider
  | _ => OtherRequest.Provider
  end.

Section Dispatch.
(** [S] is whatever the controllers act on. *)
Context {S : Type}.

(** A value of the interface [Controller]: one function per method,
    each returning the Go pair [(response, error)]. *)
Definition Controller : Type :=
  forall m : method, Request m -> M S (option (Response m) * option error).

Record spawnerService : Type := {
  awsController : Controller;
  azureController : Controller;
  gcpController : Controller;
}.

Definition controller (s : spawnerService) (provider : string)
  : option Controller * option error :=
  if String.eqb provider "aws" then (Some (awsController s), None)
  else if String.eqb provider "azure" then (Some (azureController s), None)
  else if String.eqb provider "gcp" then (Some (gcpController s), None)
  else (None, Some (Errorf (Sprintf ProviderNotFound [provider]))).

(** The body every forwarding method of [spawnerService] has:
    [provider, err := s.controller(req.Provider); if err != nil
    { return nil, err }; return provider.<m>(ctx, req)]. *)
Definition serve (s : spawnerService) (m : method) (req : Request m)
  : M S (option (Response m) * option error) :=
  let '(provider, err) := controller s (Provider req) in
  match err with
  | Some e => ret (None, Some e)
  | None =>
      match provider with
      | Some c => c m req
      | None => panic nil_dereference
      end
  end.
End Dispatch.

End Service.

(* ===================================================================== *)
(** ** The vendor: SDK shapes, calls and their trace *)
(* ===================================================================== *)

(** [eks.Cluster]; [SubnetIds] is [ResourcesVpcConfig.SubnetIds]. The
    fields the SDK always fills in a successful answer are plain values. *)
Module Cluster.
Record t : Type := mk {
  Name : string; Status : string; SubnetIds : list string;
}.
End Cluster.

(** [eks.Nodegroup]. [InstanceTypes] is a slice that may be nil,
    [DiskSize] a pointer that may be nil; [Labels] lists the entries of
    the map in the order a [range] visits them. *)
Module Nodegroup.
Record t : Type := mk {
  NodegroupName : string;
  Status : string;
  AmiType : option string;
  CapacityType : option string;
  NodeRole : option string;
  ReleaseVersion : option string;
  InstanceTypes : option (list string);
  DiskSize : option Z;
  Labels : list (string * string);
  Subnets : list string;
}.
End Nodegroup.

(** [iam.Role] *)
Module Role.
Record t : Type := mk { RoleName : string; Arn : option string }.
End Role.

Module NodegroupScalingConfig.
Record t : Type := mk { DesiredSize : Z; MinSize : Z; MaxSize : Z }.
End NodegroupScalingConfig.

(** [eks.CreateNodegroupInput]. [Labels] holds, for every key, the string
    its pointer leads to when the input is handed to the SDK. *)
Module CreateNodegroupInput.
Record t : Type := mk {
  AmiType : option string;
  CapacityType : option string;
  NodeRole : option string;
  InstanceTypes : list string;
  ClusterName : string;
  DiskSize : Z;
  NodegroupName : string;
  ReleaseVersion : option string;
  Labels : gmap string string;
  Subnets : list string;
  ScalingConfig : NodegroupScalingConfig.t;
}.
End CreateNodegroupInput.

(** [rest.Config] as far as [GetToken] reads it. *)
Module KubeConfig.
Record t : Type := mk { BearerToken : string; CAData : string; Host : string }.
End KubeConfig.

(** What [NewSession] hands back: clients bound to a region and account. *)
Module Session.
Record t : Type := mk { region : string; accountName : string }.
End Session.

(** An SDK call answers with its output or with an error. The SDK
    allocates the output struct before it sends the request and returns
    it also on failure, with no field set: [pair_of] is the Go pair of
    the payload pointer inside that struct and the error. *)
Inductive result (T : Type) : Type :=
| Ok (t : T)
| Err (e : error).
Arguments Ok {T} t.
Arguments Err {T} e.

Definition pair_of {T} (r : result T) : option T * option error :=
  match r with
  | Ok t => (Some t, None)
  | Err e => (None, Some e)
  end.

(** The far side of every call, acting on its own state [W]. The entries
    marked (helper) are functions of package [aws] that live in other
    files: they are taken as they are called, with the Go values they
    return left free. The others are calls of the SDK clients. *)
Record Vendor (W : Type) : Type := {
  v_NewSession : string -> string -> W -> option error * W;  (* helper *)
  v_DescribeCluster : Session.t -> string -> W -> result Cluster.t * W;
  v_createClusterInternal :                                   (* helper *)
    Session.t -> string -> ClusterRequest.t -> W ->
    (option Cluster.t * option error) * W;
  v_ListClusters : Session.t -> W -> result (list string) * W;
  v_ListNodegroups : Session.t -> string -> W -> result (list string) * W;
  v_DescribeNodegroup :
    Session.t -> string -> string -> W -> result Nodegroup.t * W;
  v_CreateNodegroup :
    Session.t -> option CreateNodegroupInput.t -> W -> result Nodegroup.t * W;
  v_DeleteCluster : Session.t -> string -> W -> result Cluster.t * W;
  v_DeleteNodegroup :
    Session.t -> string -> string -> W -> result Nodegroup.t * W;
  v_GetRole : Session.t -> string -> W -> result Role.t * W;
  v_CreateRole :
    Session.t -> string -> string -> string -> W -> result Role.t * W;
  v_attachPolicy :                                            (* helper *)
    Session.t -> string -> string -> W -> option error * W;
  v_getKubeConfig :                                           (* helper *)
    Session.t -> option Cluster.t -> W ->
    (option KubeConfig.t * option error) * W;
}.
Arguments v_NewSession {W} _.
Arguments v_DescribeCluster {W} _.
Arguments v_createClusterInternal {W} _.
Arguments v_ListClusters {W} _.
Arguments v_ListNodegroups {W} _.
Arguments v_DescribeNodegroup {W} _.
Arguments v_CreateNodegroup {W} _.
Arguments v_DeleteCluster {W} _.
Arguments v_DeleteNodegroup {W} _.
Arguments v_GetRole {W} _.
Arguments v_CreateRole {W} _.
Arguments v_attachPolicy {W} _.
Arguments v_getKubeConfig {W} _.

Inductive level : Type := LDebug | LInfo | LError.

(** One entry of the trace: a call with the answer it got, or a line
    handed to the logger (level, first argument, remaining arguments). *)
Inductive event : Type :=
| ENewSession (region accountName : string) (r : option error)
| EDescribeCluster (s : Session.t) (name : string) (r : result Cluster.t)
| ECreateCluster (s : Session.t) (name : string) (req : ClusterRequest.t)
    (r : option Cluster.t * option error)
| EListClusters (s : Session.t) (r : result (list string))
| EListNodegroups (s : Session.t) (cluster : string) (r : result (list string))
| EDescribeNodegroup (s : Session.t) (cluster nodegroup : string)
    (r : result Nodegroup.t)
| ECreateNodegroup (s : Session.t) (input : option CreateNodegroupInput.t)
    (r : result Nodegroup.t)
| EDeleteCluster (s : Session.t) (name : string) (r : result Cluster.t)
| EDeleteNodegroup (s : Session.t) (cluster nodegroup : string)
    (r : result Nodegroup.t)
| EGetRole (s : Session.t) (name : string) (r : result Role.t)
| ECreateRole (s : Session.t) (name description doc : string)
    (r : result Role.t)
| EAttachPolicy (s : Session.t) (role arn : string) (r : option error)
| EGetKubeConfig (s : Session.t) (cluster : option Cluster.t)
    (r : option KubeConfig.t * option error)
| ELog (l : level) (msg : string) (args : list string).

Record state (W : Type) : Type := mkState {
  world : W;
  trace : list event;
}.
Arguments mkState {W} _ _.
Arguments world {W} _.
Arguments trace {W} _.

(** Issue a call: run it on the vendor's state, append it to the trace. *)
Definition invoke {W T} (f : W -> T * W) (ev : T -> event) : M (state W) T :=
  fun st =>
    let '(r, w') := f (world st) in
    (Done r, mkState w' (trace st ++ [ev r])).

Definition log {W} (l : level) (msg : string) (args : list string)
  : M (state W) unit :=
  fun st => (Done tt, mkState (world st) (trace st ++ [ELog l msg args])).

(* ===================================================================== *)
(** ** String cells: the pointers stored in a label map *)
(* ===================================================================== *)

(** The label map of a node-group request is a [map[string]*string]. Its
    values are addresses, so two keys may lead to one cell and a later
    write to a cell shows under every key that holds its address. *)
Module Cells.

Definition loc : Type := nat.

(** Cell [p] of a heap [h] holds [h !! p]. *)
Definition heap : Type := list string.

Definition new (s : string) (h : heap) : loc * heap := (length h, h ++ [s]).

Definition store (p : loc) (s : string) (h : heap) : heap := <[p := s]> h.

Definition load (h : heap) (p : loc) : option string := h !! p.

(** What the SDK reads when it serialises the map: every key with the
    string behind its pointer. *)
Definition resolve (h : heap) (m : gmap string loc) : gmap string string :=
  omap (load h) m.

End Cells.

(** How a [for k, v := range] statement declares [v]. Up to Go 1.21 (and
    in every module whose go.mod names a version below 1.22) the loop has
    one variable [v], assigned on each iteration, so [&v] is one address;
    from Go 1.22 each iteration has a variable of its own. The package
    predates 1.22 (it builds on aws-sdk-go v1 and github.com/pkg/errors). *)
Inductive range_variable : Type :=
| OnePerLoop
| OnePerIteration.

(* ===================================================================== *)
(** ** Package [aws]: the EKS controller *)
(* ===================================================================== *)

(** The label constants of package [constants], which is not part of the
    source at hand. *)
Record Constants : Type := {
  CREATOR_LABEL : string;
  SPAWNER_SERVICE_LABEL : string;
  NODE_NAME_LABEL : string;
  NODE_LABEL_SELECTOR_LABEL : string;
  INSTANCE_LABEL : string;
}.

Module AWS.

Definition AWS_CLUSTER_ROLE_NAME : string := "netbook-AWS-ServiceRoleForEKS-BADBEEF".
Definition AWS_NODE_GROUP_ROLE_NAME : string := "netbook-AWS-NodeGroupInstanceRole-CAFE".
Definition EKS_WORKER_NODE_POLICY_ARN : string :=
  "arn:aws:iam::aws:policy/AmazonEKSWorkerNodePolicy".
Definition EKS_EC2_CONTAINER_RO_POLICY_ARN : string :=
  "arn:aws:iam::aws:policy/AmazonEC2ContainerRegistryReadOnly".
Definition EKS_CNI_POLICY_ARN : string :=
  "arn:aws:iam::aws:policy/AmazonEKS_CNI_Policy".
(** A piece of text between double quotes. *)
Definition quoted (s : string) : string :=
  String (ascii_of_nat 34) s +:+ String (ascii_of_nat 34) EmptyString.

Definition EC2_ASSUME_ROLE_DOC : string :=
  "{" +:+ quoted "Version" +:+ ":" +:+ quoted "2012-10-17" +:+ ","
  +:+ quoted "Statement" +:+ ":[{" +:+ quoted "Effect" +:+ ":"
  +:+ quoted "Allow" +:+ "," +:+ quoted "Principal" +:+ ":{"
  +:+ quoted "Service" +:+ ":[" +:+ quoted "ec2.amazonaws.com" +:+ "]},"
  +:+ quoted "Action" +:+ ":[" +:+ quoted "sts:AssumeRole" +:+ "]}]}".

(** [eks.ErrCodeResourceNotFoundException] and [iam.ErrCodeNoSuchEntityException] *)
Definition ErrCodeResourceNotFoundException : string := "ResourceNotFoundException".
Definition ErrCodeNoSuchEntityException : string := "NoSuchEntity".

Import Cells.

(** *** Label maps *)

Section Labels.
Context (K : Constants).

(** The composite literal both builders start from. [pName] and
    [pInstance] are [&nodeSpec.Name] and [&nodeSpec.Instance]. *)
Definition system_labels (nodeSpec : NodeSpec.t) (h : heap)
  : gmap string loc * heap :=
  let '(pCreator, h) := new (SPAWNER_SERVICE_LABEL K) h in
  let '(pName, h) := new (NodeSpec.Name nodeSpec) h in
  let '(pInstance, h) := new (NodeSpec.Instance nodeSpec) h in
  let '(pType, h) := new "nodegroup" h in
  (<["type" := pType]>
     (<[INSTANCE_LABEL K := pInstance]>
        (<[NODE_LABEL_SELECTOR_LABEL K := pName]>
           (<[NODE_NAME_LABEL K := pName]>
              (<[CREATOR_LABEL K := pCreator]> ∅)))), h).

(** [for k, v := range defaultNode.Labels { labels[k] = v }]: [v] is
    already a pointer, into the SDK's answer, and is copied. Nothing
    writes those cells, so each is entered here as a cell of its own. *)
Fixpoint copy_donor_labels (entries : list (string * string))
    (labels : gmap string loc) (h : heap) : gmap string loc * heap :=
  match entries with
  | [] => (labels, h)
  | (k, s) :: rest =>
      let '(p, h) := new s h in
      copy_donor_labels rest (<[k := p]> labels) h
  end.

(** [for k, v := range nodeSpec.Labels { labels[k] = &v }] with one
    variable [v] for the loop, at address [pv]. *)
Fixpoint range_shared (pv : loc) (entries : list (string * string))
    (labels : gmap string loc) (h : heap) : gmap string loc * heap :=
  match entries with
  | [] => (labels, h)
  | (k, s) :: rest =>
      let h := store pv s h in
      range_shared pv rest (<[k := pv]> labels) h
  end.

(** The same loop with a variable per iteration. *)
Fixpoint range_fresh (entries : list (string * string))
    (labels : gmap string loc) (h : heap) : gmap string loc * heap :=
  match entries with
  | [] => (labels, h)
  | (k, s) :: rest =>
      let '(pv, h) := new s h in
      range_fresh rest (<[k := pv]> labels) h
  end.

Definition set_caller_labels (rv : range_variable)
    (entries : list (string * string))
    (labels : gmap string loc) (h : heap) : gmap string loc * heap :=
  match rv with
  | OnePerLoop =>
      let '(pv, h) := new EmptyString h in
      range_shared pv entries labels h
  | OnePerIteration => range_fresh entries labels h
  end.

(** The [labels] of [getNewNodeGroupSpecFromCluster] (lines 766-774). *)
Definition labels_from_cluster (rv : range_variable) (nodeSpec : NodeSpec.t)
  : gmap string string :=
  let '(labels, h) := system_labels nodeSpec [] in
  let '(labels, h) := set_caller_labels rv (NodeSpec.Labels nodeSpec) labels h in
  resolve h labels.

(** The [labels] of [getNodeSpecFromDefault] (lines 807-820). *)
Definition labels_from_default (rv : range_variable)
    (defaultNode : Nodegroup.t) (nodeSpec : NodeSpec.t) : gmap string string :=
  let '(labels, h) := system_labels nodeSpec [] in
  let '(labels, h) := copy_donor_labels (Nodegroup.Labels defaultNode) labels h in
  let '(labels, h) := set_caller_labels rv (NodeSpec.Labels nodeSpec) labels h in
  resolve h labels.

Definition fixed_scaling : NodegroupScalingConfig.t :=
  NodegroupScalingConfig.mk 1 1 1.

Definition getNodeSpecFromDefault (rv : range_variable)
    (defaultNode : Nodegroup.t) (clusterName : string) (nodeSpec : NodeSpec.t)
  : CreateNodegroupInput.t :=
  let diskSize := NodeSpec.DiskSize nodeSpec in
  let labels := labels_from_default rv defaultNode nodeSpec in
  {| CreateNodegroupInput.AmiType := Nodegroup.AmiType defaultNode;
     CreateNodegroupInput.CapacityType := Nodegroup.CapacityType defaultNode;
     CreateNodegroupInput.NodeRole := Nodegroup.NodeRole defaultNode;
     CreateNodegroupInput.InstanceTypes := [NodeSpec.Instance nodeSpec];
     CreateNodegroupInput.ClusterName := clusterName;
     CreateNodegroupInput.DiskSize := diskSize;
     CreateNodegroupInput.NodegroupName := NodeSpec.Name nodeSpec;
     CreateNodegroupInput.ReleaseVersion := Nodegroup.ReleaseVersion defaultNode;
     CreateNodegroupInput.Labels := labels;
     CreateNodegroupInput.Subnets := Nodegroup.Subnets defaultNode;
     CreateNodegroupInput.ScalingConfig := fixed_scaling |}.

End Labels.

(** *** The controller *)

(** Lines 479-482 of [CreateCluster]: the name given, or the default. *)
Definition cluster_name_of (req : ClusterRequest.t) : string :=
  if Nat.eqb (String.length (ClusterRequest.ClusterName req)) 0
  then Sprintf "%s-%s" [ClusterRequest.Provider req; ClusterRequest.Region req]
  else ClusterRequest.ClusterName req.

Section Engine.
Context {W : Type} (V : Vendor W) (K : Constants) (rv : range_variable).

(** Dereference of a pointer. *)
Definition deref {A} (p : option A) : M (state W) A :=
  match p with
  | Some a => ret a
  | None => panic nil_dereference
  end.

Definition NewSession (region accountName : string)
  : M (state W) (option Session.t * option error) :=
  r <- invoke (v_NewSession V region accountName)
         (ENewSession region accountName);;
  ret (match r with
       | Some e => (None, Some e)
       | None => (Some (Session.mk region accountName), None)
       end).

(** [getClusterSpec]: [return resp.Cluster, err]. *)
Definition getClusterSpec (session : Session.t) (name : string)
  : M (state W) (option Cluster.t * option error) :=
  r <- invoke (v_DescribeCluster V session name)
         (EDescribeCluster session name);;
  ret (pair_of r).

Definition createClusterInternal (session : Session.t) (clusterName : string)
    (req : ClusterRequest.t)
  : M (state W) (option Cluster.t * option error) :=
  invoke (v_createClusterInternal V session clusterName req)
    (ECreateCluster session clusterName req).

Definition CreateCluster (req : ClusterRequest.t)
  : M (state W) (option ClusterResponse.t * option error) :=
  let clusterName := cluster_name_of req in
  let region := ClusterRequest.Region req in
  let accountName := ClusterRequest.AccountName req in
  r <- NewSession region accountName;;
  let '(session, err) := r in
  match err with
  | Some e => ret (None, Some e)
  | None =>
      session <- deref session;;
      log LDebug "checking cluster status for '%s', region '%s'"
        [clusterName; region];;
      r <- getClusterSpec session clusterName;;
      let '(cluster, err) := r in
      (* lines 513-515: [*cluster.Name] *)
      let response (cluster : option Cluster.t) :=
        c <- deref cluster;;
        ret (Some (ClusterResponse.mk (Cluster.Name c)), None) in
      match err with
      | Some e =>
          match awserr_Code e with
          | None => panic "interface conversion: error is not awserr.Error"
          | Some code =>
              if String.eqb code ErrCodeResourceNotFoundException then
                (log LDebug "cluster '%s' does not exist, creating ..."
                   [clusterName];;
                 r <- createClusterInternal session clusterName req;;
                 let '(cluster, err) := r in
                 match err with
                 | Some e =>
                     log LError "failed to create clsuter '%s' %s"
                       [clusterName; Go.Error e];;
                     ret (None, Some e)
                 | None =>
                     log LInfo "cluster '%s' is creating state, it might take some time, please check AWS console for status"
                       [clusterName];;
                     response cluster
                 end)
              else response cluster
          end
      | None =>
          log LInfo "cluster '%s', already exist" [clusterName];;
          response cluster
      end
  end.

(** The inner loop of [GetClusters] (lines 634-653). *)
Fixpoint nodegroup_details (session : Session.t) (cluster : string)
    (names : list string) (nodes : list NodeSpec.t)
  : M (state W) (list NodeSpec.t) :=
  match names with
  | [] => ret nodes
  | cNodeGroup :: rest =>
      r <- invoke (v_DescribeNodegroup V session cluster cNodeGroup)
             (EDescribeNodegroup session cluster cNodeGroup);;
      let '(nodegroup, err) := pair_of r in
      match err with
      | Some _ => log LError "failed to fetch nodegroups details " [cNodeGroup]
      | None => ret tt
      end;;
      let node := NodeSpec.mk cNodeGroup EmptyString 0 false [] in
      (* [nodeGroupDetails.Nodegroup.InstanceTypes] *)
      ng <- deref nodegroup;;
      node <- match Nodegroup.InstanceTypes ng with
              | None => ret node
              | Some [] => panic "index out of range [0] with length 0"
              | Some (i :: _) =>
                  ret (NodeSpec.mk cNodeGroup i 0 false [])
              end;;
      let node :=
        match Nodegroup.DiskSize ng with
        | None => node
        | Some d =>
            NodeSpec.mk (NodeSpec.Name node) (NodeSpec.Instance node)
              (int32 d) false []
        end in
      nodegroup_details session cluster rest (nodes ++ [node])
  end.

(** The outer loop of [GetClusters] (lines 624-659). *)
Fixpoint cluster_details (session : Session.t) (clusters : list string)
    (acc : list ClusterSpec.t) : M (state W) (list ClusterSpec.t) :=
  match clusters with
  | [] => ret acc
  | cluster :: rest =>
      r <- invoke (v_ListNodegroups V session cluster)
             (EListNodegroups session cluster);;
      let '(nodegroups, err) := pair_of r in
      match err with
      | Some e => log LError "failed to fetch nodegroups %s" [Go.Error e]
      | None => ret tt
      end;;
      nodes <- nodegroup_details session cluster (default [] nodegroups) [];;
      cluster_details session rest (acc ++ [ClusterSpec.mk cluster nodes])
  end.

Definition GetClusters (req : GetClustersRequest.t)
  : M (state W) (option GetClustersResponse.t * option error) :=
  let region := GetClustersRequest.Region req in
  let accountName := GetClustersRequest.AccountName req in
  r <- NewSession region accountName;;
  let '(session, err) := r in
  match err with
  | Some e => ret (None, Some e)
  | None =>
      session <- deref session;;
      r <- invoke (v_ListClusters V session) (EListClusters session);;
      let '(clusters, err) := pair_of r in
      match err with
      | Some e =>
          log LError "failed to list clusters" [Go.Error e];;
          ret (Some (GetClustersResponse.mk []), Some e)
      | None =>
          specs <- cluster_details session (default [] clusters) [];;
          ret (Some (GetClustersResponse.mk specs), None)
      end
  end.

Definition ClusterStatus (req : ClusterStatusRequest.t)
  : M (state W) (option ClusterStatusResponse.t * option error) :=
  let region := ClusterStatusRequest.Region req in
  let clusterName := ClusterStatusRequest.ClusterName req in
  r <- NewSession region (ClusterStatusRequest.AccountName req);;
  let '(session, err) := r in
  match err with
  | Some e => ret (None, Some e)
  | None =>
      session <- deref session;;
      log LDebug "fetching cluster status for '%s', region '%s'"
        [clusterName; region];;
      r <- getClusterSpec session clusterName;;
      let '(cluster, err) := r in
      match err with
      | Some e =>
          log LError "failed to fetch cluster status" [Go.Error e];;
          ret (Some (ClusterStatusResponse.mk EmptyString (Go.Error e)), Some e)
      | None =>
          c <- deref cluster;;
          ret (Some (ClusterStatusResponse.mk (Cluster.Status c) EmptyString),
               err)
      end
  end.

(** The loop of [getDefaultNode] (lines 705-709): is [nodeName] one of
    the listed names? *)
Fixpoint name_listed (nodeName : string) (nodegroups : list string) : bool :=
  match nodegroups with
  | [] => false
  | nodeGroup :: rest =>
      if String.eqb nodeGroup nodeName then true else name_listed nodeName rest
  end.

Definition getDefaultNode (session : Session.t) (clusterName nodeName : string)
  : M (state W) (option Nodegroup.t * option error) :=
  r <- invoke (v_ListNodegroups V session clusterName)
         (EListNodegroups session clusterName);;
  let '(nodegroups, err) := pair_of r in
  match err with
  | Some e =>
      log LError "failed to fetch nodegroups: %s" [Go.Error e];;
      ret (None, Some e)
  | None =>
      let nodegroups := default [] nodegroups in
      if Nat.eqb (length nodegroups) 0 then ret (None, Some ERR_NO_NODEGROUP)
      else if name_listed nodeName nodegroups
      then ret (None, Some ERR_NODEGROUP_EXIST)
      else
        match nodegroups with
        | [] => panic "index out of range [0] with length 0"
        | first :: _ =>
            r <- invoke (v_DescribeNodegroup V session clusterName first)
                   (EDescribeNodegroup session clusterName first);;
            ret (pair_of r)
        end
  end.

(** Modelled from the spec: [createRoleOrGetExisting] is defined in
    another file of package [aws]. Section 4.3: it looks up the role by
    name; if found, returns it with wasCreated=false and does not touch
    policies; if not found, creates it with the given trust document and
    returns wasCreated=true. Any other failure is handed back (section 7). *)
Definition createRoleOrGetExisting (session : Session.t)
    (roleName description doc : string)
  : M (state W) (option Role.t * bool * option error) :=
  r <- invoke (v_GetRole V session roleName) (EGetRole session roleName);;
  match r with
  | Ok role => ret (Some role, false, None)
  | Err e =>
      if bool_decide (awserr_Code e = Some ErrCodeNoSuchEntityException) then
        r <- invoke (v_CreateRole V session roleName description doc)
               (ECreateRole session roleName description doc);;
        match r with
        | Ok role => ret (Some role, true, None)
        | Err e => ret (None, false, Some e)
        end
      else ret (None, false, Some e)
  end.

Definition attachPolicy (session : Session.t) (roleName policyARN : string)
  : M (state W) (option error) :=
  invoke (v_attachPolicy V session roleName policyARN)
    (EAttachPolicy session roleName policyARN).

(** Lines 740-762: the three attachments, stopping at the first that
    fails; the result is the error the function returns with, if any. *)
Definition attach_node_policies (session : Session.t) (nodeRole : option Role.t)
  : M (state W) (option error) :=
  role <- deref nodeRole;;
  err <- attachPolicy session (Role.RoleName role) EKS_WORKER_NODE_POLICY_ARN;;
  match err with
  | Some e =>
      log LError "failed to attach policy '%s' to role '%s' %w"
        [EKS_WORKER_NODE_POLICY_ARN; AWS_NODE_GROUP_ROLE_NAME; Go.Error e];;
      ret (Some e)
  | None =>
      role <- deref nodeRole;;
      err <- attachPolicy session (Role.RoleName role)
               EKS_EC2_CONTAINER_RO_POLICY_ARN;;
      match err with
      | Some e =>
          log LError "failed to attach policy '%s' to role '%s' %w"
            [EKS_EC2_CONTAINER_RO_POLICY_ARN; AWS_NODE_GROUP_ROLE_NAME;
             Go.Error e];;
          ret (Some e)
      | None =>
          role <- deref nodeRole;;
          err <- attachPolicy session (Role.RoleName role) EKS_CNI_POLICY_ARN;;
          match err with
          | Some e =>
              log LError "failed to attach policy '%s' to role '%s' %w"
                [EKS_CNI_POLICY_ARN; AWS_NODE_GROUP_ROLE_NAME; Go.Error e];;
              ret (Some e)
          | None => ret None
          end
      end
  end.

Definition getNewNodeGroupSpecFromCluster (session : Session.t)
    (clusterName : string) (nodeSpec : NodeSpec.t)
  : M (state W) (option CreateNodegroupInput.t * option error) :=
  r <- getClusterSpec session clusterName;;
  let '(cluster, err) := r in
  match err with
  | Some e => ret (None, Some e)
  | None =>
      let roleName := AWS_NODE_GROUP_ROLE_NAME in
      r <- createRoleOrGetExisting session roleName
             "node group instance policy role" EC2_ASSUME_ROLE_DOC;;
      let '(nodeRole, newRole, err) := r in
      match err with
      | Some e =>
          log LError "failed to create node group role '%s' %w"
            [AWS_NODE_GROUP_ROLE_NAME; Go.Error e];;
          ret (None, Some e)
      | None =>
          err <- (if newRole : bool then attach_node_policies session nodeRole
                  else ret None);;
          match err with
          | Some e => ret (None, Some e)
          | None =>
              let diskSize := NodeSpec.DiskSize nodeSpec in
              let labels := labels_from_cluster K rv nodeSpec in
              let amiType :=
                if NodeSpec.GpuEnabled nodeSpec then "AL2_x86_64_GPU"
                else "AL2_x86_64" in
              role <- deref nodeRole;;
              c <- deref cluster;;
              ret (Some
                     {| CreateNodegroupInput.AmiType := Some amiType;
                        CreateNodegroupInput.CapacityType := Some "ON_DEMAND";
                        CreateNodegroupInput.NodeRole := Role.Arn role;
                        CreateNodegroupInput.InstanceTypes :=
                          [NodeSpec.Instance nodeSpec];
                        CreateNodegroupInput.ClusterName := clusterName;
                        CreateNodegroupInput.DiskSize := diskSize;
                        CreateNodegroupInput.NodegroupName :=
                          NodeSpec.Name nodeSpec;
                        CreateNodegroupInput.ReleaseVersion := None;
                        CreateNodegroupInput.Labels := labels;
                        CreateNodegroupInput.Subnets := Cluster.SubnetIds c;
                        CreateNodegroupInput.ScalingConfig := fixed_scaling |},
                   None)
          end
      end
  end.

(** Lines 858-877 of [AddNode]: either the function returns here
    ([inl]) or it goes on to the create call with this input ([inr]). *)
Definition choose_input (session : Session.t) (clusterName : string)
    (nodeSpec : NodeSpec.t)
    (defaultNode : option Nodegroup.t) (err : option error)
  : M (state W) ((option NodeSpawnResponse.t * option error)
                 + option CreateNodegroupInput.t) :=
  match err with
  | Some e =>
      if Is e ERR_NODEGROUP_EXIST then
        (log LError "nodegroup '%s' already exist in cluster '%s'"
           [NodeSpec.Name nodeSpec; clusterName];;
         ret (inl (None, Some e)))
      else if Is e ERR_NO_NODEGROUP then
        (log LInfo "default nodegroup not found in cluster '%s', creating NodegroupRequest from cluster config "
           [clusterName];;
         r <- getNewNodeGroupSpecFromCluster session clusterName nodeSpec;;
         let '(newNodeGroupInput, err) := r in
         match err with
         | Some e => ret (inl (None, Some e))
         | None => ret (inr newNodeGroupInput)
         end)
      else ret (inr None)
  | None =>
      d <- deref defaultNode;;
      log LInfo "found default nodegroup '%s' in cluster '%s', creating NodegroupRequest from default node config"
        [Nodegroup.NodegroupName d; clusterName];;
      ret (inr (Some (getNodeSpecFromDefault K rv d clusterName nodeSpec)))
  end.

Definition AddNode (req : NodeSpawnRequest.t)
  : M (state W) (option NodeSpawnResponse.t * option error) :=
  let clusterName := NodeSpawnRequest.ClusterName req in
  let region := NodeSpawnRequest.Region req in
  let nodeSpec := NodeSpawnRequest.NodeSpec req in
  r <- NewSession region (NodeSpawnRequest.AccountName req);;
  let '(session, err) := r in
  match err with
  | Some e => ret (None, Some e)
  | None =>
      session <- deref session;;
      log LInfo "querying default nodes on cluster '%s' in region '%s'"
        [clusterName; region];;
      nodeSpec <- deref nodeSpec;;
      r <- getDefaultNode session clusterName (NodeSpec.Name nodeSpec);;
      let '(defaultNode, err) := r in
      chosen <- choose_input session clusterName nodeSpec defaultNode err;;
      match chosen with
      | inl returned => ret returned
      | inr newNodeGroupInput =>
          out <- invoke (v_CreateNodegroup V session newNodeGroupInput)
                   (ECreateNodegroup session newNodeGroupInput);;
          match out with
          | Err e =>
              log LError "failed to add a node '%s': %w"
                [NodeSpec.Name nodeSpec; Go.Error e];;
              ret (None, Some e)
          | Ok ng =>
              log LInfo "creating nodegroup '%s' on cluster '%s', Status : %s, it might take some time. Please check AWS console."
                [NodeSpec.Name nodeSpec; clusterName; Nodegroup.Status ng];;
              ret (Some NodeSpawnResponse.mk, None)
          end
      end
  end.

Definition DeleteCluster (req : ClusterDeleteRequest.t)
  : M (state W) (option ClusterDeleteResponse.t * option error) :=
  let clusterName := ClusterDeleteRequest.ClusterName req in
  let region := ClusterDeleteRequest.Region req in
  r <- NewSession region (ClusterDeleteRequest.AccountName req);;
  let '(session, err) := r in
  match err with
  | Some e => ret (None, Some e)
  | None =>
      session <- deref session;;
      deleteOut <- invoke (v_DeleteCluster V session clusterName)
                     (EDeleteCluster session clusterName);;
      match deleteOut with
      | Err e =>
          log LError "failed to delete cluster '%s': %s"
            [clusterName; Go.Error e];;
          ret (Some (ClusterDeleteResponse.mk (Go.Error e)), Some e)
      | Ok c =>
          log LInfo "requested cluster '%s' to be deleted, Status :%s. It might take some time, check AWS console for more."
            [clusterName; Cluster.Status c];;
          ret (Some (ClusterDeleteResponse.mk EmptyString), None)
      end
  end.

Definition DeleteNode (req : NodeDeleteRequest.t)
  : M (state W) (option NodeDeleteResponse.t * option error) :=
  let clusterName := NodeDeleteRequest.ClusterName req in
  let nodeName := NodeDeleteRequest.NodeGroupName req in
  let region := NodeDeleteRequest.Region req in
  r <- NewSession region (NodeDeleteRequest.AccountName req);;
  let '(session, err) := r in
  match err with
  | Some e => ret (None, Some e)
  | None =>
      session <- deref session;;
      nodeDeleteOut <- invoke (v_DeleteNodegroup V session clusterName nodeName)
                         (EDeleteNodegroup session clusterName nodeName);;
      match nodeDeleteOut with
      | Err e =>
          log LError "failed to delete nodegroup '%s': %s"
            [nodeName; Go.Error e];;
          ret (Some (NodeDeleteResponse.mk (Go.Error e)), Some e)
      | Ok ng =>
          log LInfo "requested nodegroup '%s' to be deleted, Status %s. It might take some time, check AWS console for more."
            [nodeName; Nodegroup.Status ng];;
          ret (Some (NodeDeleteResponse.mk EmptyString), None)
      end
  end.

(** [GetToken]: the error of the describe call is assigned to [err] and
    overwritten by the next statement before anything reads it. *)
Definition GetToken (req : GetTokenRequest.t)
  : M (state W) (option GetTokenResponse.t * option error) :=
  let region := GetTokenRequest.Region req in
  let clusterName := GetTokenRequest.ClusterName req in
  r <- NewSession region (GetTokenRequest.AccountName req);;
  let '(session, err) := r in
  match err with
  | Some e => ret (None, Some e)
  | None =>
      session <- deref session;;
      log LDebug "fetching cluster status for '%s', region '%s'"
        [clusterName; region];;
      r <- getClusterSpec session clusterName;;
      let '(cluster, _) := r in
      r <- invoke (v_getKubeConfig V session cluster)
             (EGetKubeConfig session cluster);;
      let '(kubeConfig, err) := r in
      match err with
      | Some e =>
          log LError "failed to get k8s %s" [Go.Error e];;
          ret (None, Some e)
      | None =>
          kc <- deref kubeConfig;;
          ret (Some (GetTokenResponse.mk (KubeConfig.BearerToken kc)
                       (KubeConfig.CAData kc) (KubeConfig.Host kc)), None)
      end
  end.

End Engine.

End AWS.

(* ===================================================================== *)
(** ** A test double for the vendor *)
(* ===================================================================== *)

(** An in-memory vendor that counts nothing itself (the trace does) but
    keeps clusters, node groups, roles and attachments, and that can be
    told to fail a kind of call with a given error. *)
Module Fake.

Inductive api : Type :=
| NewSession | DescribeCluster | CreateCluster | ListClusters
| ListNodegroups | DescribeNodegroup | CreateNodegroup | DeleteCluster
| DeleteNodegroup | GetRole | CreateRole | AttachPolicy | GetKubeConfig.

#[global] Instance api_eq_dec : EqDecision api.
Proof. solve_decision. Defined.

Record world : Type := mkWorld {
  clusters : list Cluster.t;                     (* in listing order *)
  nodegroups : list (string * Nodegroup.t);      (* (cluster, node group) *)
  roles : list Role.t;
  attached : list (string * string);             (* (role, policy) *)
}.

Definition empty : world := mkWorld [] [] [] [].

Definition not_found (what name : string) : error :=
  AwsError "ResourceNotFoundException" ("No " +:+ what +:+ " found for name: " +:+ name +:+ ".").

Definition find_cluster (name : string) (w : world) : option Cluster.t :=
  find (fun c => String.eqb (Cluster.Name c) name) (clusters w).

Definition find_nodegroup (cluster name : string) (w : world)
  : option Nodegroup.t :=
  snd <$> find (fun cn => String.eqb (fst cn) cluster
                          && String.eqb (Nodegroup.NodegroupName (snd cn)) name)
            (nodegroups w).

Definition find_role (name : string) (w : world) : option Role.t :=
  find (fun r => String.eqb (Role.RoleName r) name) (roles w).

Definition nodegroup_of_input (i : CreateNodegroupInput.t) : Nodegroup.t :=
  {| Nodegroup.NodegroupName := CreateNodegroupInput.NodegroupName i;
     Nodegroup.Status := "CREATING";
     Nodegroup.AmiType := CreateNodegroupInput.AmiType i;
     Nodegroup.CapacityType := CreateNodegroupInput.CapacityType i;
     Nodegroup.NodeRole := CreateNodegroupInput.NodeRole i;
     Nodegroup.ReleaseVersion := CreateNodegroupInput.ReleaseVersion i;
     Nodegroup.InstanceTypes := Some (CreateNodegroupInput.InstanceTypes i);
     Nodegroup.DiskSize := Some (CreateNodegroupInput.DiskSize i);
     Nodegroup.Labels := map_to_list (CreateNodegroupInput.Labels i);
     Nodegroup.Subnets := CreateNodegroupInput.Subnets i |}.

Section Double.
(** [faults a = Some e]: every call of kind [a] fails with [e]. *)
Context (faults : api -> option error).

(** Answer with the fault set for [a], if any, else as [normal] says. *)
Definition guarded {T} (a : api) (fail : error -> T) (normal : world -> T * world)
    (w : world) : T * world :=
  match faults a with
  | Some e => (fail e, w)
  | None => normal w
  end.

Definition vendor : Vendor world := {|
  v_NewSession _ _ := guarded NewSession Some (fun w => (None, w));
  v_DescribeCluster _ name :=
    guarded DescribeCluster Err (fun w =>
      match find_cluster name w with
      | Some c => (Ok c, w)
      | None => (Err (not_found "cluster" name), w)
      end);
  v_createClusterInternal _ name _ :=
    guarded CreateCluster (fun e => (None, Some e)) (fun w =>
      match find_cluster name w with
      | Some _ =>
          ((None, Some (AwsError "ResourceInUseException"
                          ("Cluster already exists with name: " +:+ name))), w)
      | None =>
          let c := Cluster.mk name "CREATING" [] in
          ((Some c, None),
           mkWorld (clusters w ++ [c]) (nodegroups w) (roles w) (attached w))
      end);
  v_ListClusters _ :=
    guarded ListClusters Err (fun w => (Ok (Cluster.Name <$> clusters w), w));
  v_ListNodegroups _ cluster :=
    guarded ListNodegroups Err (fun w =>
      match find_cluster cluster w with
      | None => (Err (not_found "cluster" cluster), w)
      | Some _ =>
          (Ok ((fun cn => Nodegroup.NodegroupName (snd cn)) <$>
                 filter (fun cn => fst cn = cluster) (nodegroups w)), w)
      end);
  v_DescribeNodegroup _ cluster name :=
    guarded DescribeNodegroup Err (fun w =>
      match find_nodegroup cluster name w with
      | Some ng => (Ok ng, w)
      | None => (Err (not_found "node group" name), w)
      end);
  v_CreateNodegroup _ input :=
    guarded CreateNodegroup Err (fun w =>
      match input with
      | None =>
          (Err (AwsError "InvalidParameter" "3 validation error(s) found."), w)
      | Some i =>
          let ng := nodegroup_of_input i in
          (Ok ng,
           mkWorld (clusters w)
             (nodegroups w ++ [(CreateNodegroupInput.ClusterName i, ng)])
             (roles w) (attached w))
      end);
  v_DeleteCluster _ name :=
    guarded DeleteCluster Err (fun w =>
      match find_cluster name w with
      | None => (Err (not_found "cluster" name), w)
      | Some c =>
          (Ok (Cluster.mk name "DELETING" (Cluster.SubnetIds c)),
           mkWorld (filter (fun c => Cluster.Name c <> name) (clusters w))
             (nodegroups w) (roles w) (attached w))
      end);
  v_DeleteNodegroup _ cluster name :=
    guarded DeleteNodegroup Err (fun w =>
      match find_nodegroup cluster name w with
      | None => (Err (not_found "node group" name), w)
      | Some ng =>
          (Ok ng,
           mkWorld (clusters w)
             (filter (fun cn => ~ (fst cn = cluster
                                   /\ Nodegroup.NodegroupName (snd cn) = name))
                (nodegroups w))
             (roles w) (attached w))
      end);
  v_GetRole _ name :=
    guarded GetRole Err (fun w =>
      match find_role name w with
      | Some r => (Ok r, w)
      | None =>
          (Err (AwsError "NoSuchEntity"
                  ("The role with name " +:+ name +:+ " cannot be found.")), w)
      end);
  v_CreateRole _ name _ _ :=
    guarded CreateRole Err (fun w =>
      let r := Role.mk name (Some ("arn:aws:iam::000000000000:role/" +:+ name)) in
      (Ok r, mkWorld (clusters w) (nodegroups w) (roles w ++ [r]) (attached w)));
  v_attachPolicy _ role arn :=
    guarded AttachPolicy Some (fun w =>
      (None,
       mkWorld (clusters w) (nodegroups w) (roles w) (attached w ++ [(role, arn)])));
  v_getKubeConfig _ cluster :=
    guarded GetKubeConfig (fun e => (None, Some e)) (fun w =>
      match cluster with
      | Some c =>
          ((Some (KubeConfig.mk "token" "ca"
                    ("https://" +:+ Cluster.Name c +:+ ".eks.amazonaws.com")),
            None), w)
      | None => ((None, Some (Errorf "cluster has no endpoint")), w)
      end);
|}.
End Double.

Definition no_faults : api -> option error := fun _ => None.

(** Fail the calls of kind [a] with [e], and no other. *)
Definition failing (a : api) (e : error) : api -> option error :=
  fun b => if decide (b = a) then Some e else None.

End Fake.

(** Modelled from the spec: package [constants] is not part of the source
    at hand; section 3 names the reserved labels creator, node-name,
    node-label-selector and instance-type. These values are used where a
    run is evaluated; the engine itself takes any [Constants]. *)
Definition spec_constants : Constants := {|
  CREATOR_LABEL := "creator";
  SPAWNER_SERVICE_LABEL := "spawner-service";
  NODE_NAME_LABEL := "node-name";
  NODE_LABEL_SELECTOR_LABEL := "node-label-selector";
  INSTANCE_LABEL := "instance-type";
|}.

(** Run an operation against a vendor state, from an empty trace. *)
Definition run {W A} (m : M (state W) A) (w : W) : outcome A * state W :=
  m (mkState w []).

(* ===================================================================== *)
(** ** Reading a trace *)
(* ===================================================================== *)

Definition is_log (ev : event) : bool :=
  match ev with ELog _ _ _ => true | _ => false end.

Definition is_create_cluster (ev : event) : bool :=
  match ev with ECreateCluster _ _ _ _ => true | _ => false end.

Definition is_create_nodegroup (ev : event) : bool :=
  match ev with ECreateNodegroup _ _ _ => true | _ => false end.

Definition is_create_role (ev : event) : bool :=
  match ev with ECreateRole _ _ _ _ _ => true | _ => false end.

Definition is_attach (ev : event) : bool :=
  match ev with EAttachPolicy _ _ _ _ => true | _ => false end.

(** The number of vendor create calls for clusters in a trace. *)
Definition cluster_creates (t : list event) : nat :=
  length (List.filter is_create_cluster t).

(** The policy attachments of a trace, in order: (role, policy). *)
Definition attachments (t : list event) : list (string * string) :=
  omap (fun ev => match ev with
                  | EAttachPolicy _ role arn _ => Some (role, arn)
                  | _ => None
                  end) t.

(** The three managed policies of the node-group role, in the order
    [getNewNodeGroupSpecFromCluster] attaches them. *)
Definition node_policies (role : string) : list (string * string) :=
  [(role, AWS.EKS_WORKER_NODE_POLICY_ARN);
   (role, AWS.EKS_EC2_CONTAINER_RO_POLICY_ARN);
   (role, AWS.EKS_CNI_POLICY_ARN)].

(** The discipline of the node-group role in a run of AddNode:
    (1) a role that the lookup finds is left alone, no role is created
    and no policy attached; (2) a role is created only under the
    node-group role name and only after the lookup answered that no such
    role exists; (3) policies are attached only to a role created in
    this very run, in the order worker-node, registry read-only, CNI,
    none twice; (4) a failed attachment ends the run with that error and
    without a node-group create call; (5) when the role was created and
    the node-group create call is reached, each of the three policies
    was attached exactly once. *)
Definition role_discipline {W}
    (p : outcome (option NodeSpawnResponse.t * option error) * state W)
  : Prop :=
  let r := p.1 in
  let t := trace p.2 in
  (forall s n role,
     EGetRole s n (Ok role) ∈ t ->
     attachments t = [] /\ List.filter is_create_role t = []) /\
  (forall s n d doc r',
     ECreateRole s n d doc r' ∈ t ->
     n = AWS.AWS_NODE_GROUP_ROLE_NAME
     /\ exists e, EGetRole s n (Err e) ∈ t
                  /\ awserr_Code e = Some AWS.ErrCodeNoSuchEntityException) /\
  (attachments t <> [] ->
   exists s d doc role,
     ECreateRole s AWS.AWS_NODE_GROUP_ROLE_NAME d doc (Ok role) ∈ t
     /\ attachments t `prefix_of` node_policies (Role.RoleName role)) /\
  (forall s role arn e,
     EAttachPolicy s role arn (Some e) ∈ t ->
     r = Done (None, Some e) /\ List.filter is_create_nodegroup t = []) /\
  (forall s d doc role s' input r',
     ECreateRole s AWS.AWS_NODE_GROUP_ROLE_NAME d doc (Ok role) ∈ t ->
     ECreateNodegroup s' input r' ∈ t ->
     attachments t = node_policies (Role.RoleName role)).

(* ===================================================================== *)
(** ** Scenarios *)
(* ===================================================================== *)

(** The inputs at which the properties below are exercised. *)
Module Scenario.

(** Section 8: [CreateCluster{provider:aws, region:us-east-1,
    accountName:acme}], no cluster name given. *)
Definition create_request : ClusterRequest.t :=
  ClusterRequest.mk "aws" "us-east-1" "acme" EmptyString.

Definition session : Session.t := Session.mk "us-east-1" "acme".

(** An answer that is not a not-found answer. *)
Definition denied : error :=
  AwsError "AccessDeniedException" "User is not authorized to perform this action".

(** Section 8: a donor with labels a:1, b:2 and a caller with b:9, c:3. *)
Definition donor : Nodegroup.t :=
  {| Nodegroup.NodegroupName := "default";
     Nodegroup.Status := "ACTIVE";
     Nodegroup.AmiType := Some "AL2_x86_64";
     Nodegroup.CapacityType := Some "ON_DEMAND";
     Nodegroup.NodeRole := Some "arn:aws:iam::000000000000:role/nodes";
     Nodegroup.ReleaseVersion := Some "1.21.5-20220123";
     Nodegroup.InstanceTypes := Some ["t3.medium"];
     Nodegroup.DiskSize := Some 20;
     Nodegroup.Labels := [("a", "1"); ("b", "2")];
     Nodegroup.Subnets := ["subnet-1"; "subnet-2"] |}.

(** The caller's node spec, its labels visited as b, c ... *)
Definition gpu_pool : NodeSpec.t :=
  NodeSpec.mk "gpu-pool" "p3.2xlarge" 100 true [("b", "9"); ("c", "3")].

(** ... and visited as c, b. *)
Definition gpu_pool' : NodeSpec.t :=
  NodeSpec.mk "gpu-pool" "p3.2xlarge" 100 true [("c", "3"); ("b", "9")].

(** What section 8 expects for the caller's keys and the donor's. *)
Definition expected_labels : gmap string string :=
  <["c" := "3"]> (<["b" := "9"]> (<["a" := "1"]>
    (<["type" := "nodegroup"]>
       (<["instance-type" := "p3.2xlarge"]>
          (<["node-label-selector" := "gpu-pool"]>
             (<["node-name" := "gpu-pool"]>
                (<["creator" := "spawner-service"]> ∅))))))).

Definition cluster : Cluster.t := Cluster.mk "prod" "ACTIVE" ["subnet-1"; "subnet-2"].

(** One cluster, no node group. *)
Definition bare : Fake.world := Fake.mkWorld [cluster] [] [] [].

(** One cluster with the donor node group. *)
Definition with_donor : Fake.world :=
  Fake.mkWorld [cluster] [("prod", donor)] [] [].

(** One cluster that already has a node group called gpu-pool. *)
Definition with_gpu_pool : Fake.world :=
  Fake.mkWorld [cluster]
    [("prod", donor);
     ("prod", Fake.nodegroup_of_input
                (AWS.getNodeSpecFromDefault spec_constants OnePerLoop
                   donor "prod" gpu_pool))] [] [].

Definition add_request : NodeSpawnRequest.t :=
  NodeSpawnRequest.mk "aws" "us-east-1" "acme" "prod" (Some gpu_pool).

Definition list_request : GetClustersRequest.t :=
  GetClustersRequest.mk "aws" "us-east-1" "acme".

Definition status_request : ClusterStatusRequest.t :=
  ClusterStatusRequest.mk "aws" "us-east-1" "acme" "prod".

Definition delete_request : ClusterDeleteRequest.t :=
  ClusterDeleteRequest.mk "aws" "us-east-1" "acme" "prod".

Definition delete_node_request : NodeDeleteRequest.t :=
  NodeDeleteRequest.mk "aws" "us-east-1" "acme" "prod" "default".

(** A dispatcher whose three controllers answer with their own name. *)
Definition named (name : string) : @Service.Controller unit :=
  fun m _ => ret (None, Some (Errorf name)).

Definition service : @Service.spawnerService unit :=
  {| Service.awsController := named "aws controller";
     Service.azureController := named "azure controller";
     Service.gcpController := named "gcp controller" |}.

End Scenario.

(** In the test double a cluster is visible once it is stored. *)
Definition fake_present (_ : Session.t) (n : string) (w : Fake.world) : Prop :=
  is_Some (Fake.find_cluster n w).

(* ===================================================================== *)
(** ** GetCluster: the nodes of a cluster, read from its API server *)
(* ===================================================================== *)

Module GetClusterRequest.
Record t : Type := mk {
  Provider : string; Region : string; AccountName : string;
  ClusterName : string;
}.
End GetClusterRequest.

(** [v1.NodeAddress] *)
Module NodeAddress.
Record t : Type := mk { Type_ : string; Address : string }.
End NodeAddress.

(** [v1.NodeCondition]: its type (Ready, MemoryPressure, ...) and its
    status (True, False, Unknown). *)
Module NodeCondition.
Record t : Type := mk { Type_ : string; Status : string }.
End NodeCondition.

(** [v1.Node] as far as [GetCluster] reads it. [Name], [UID] and [Labels]
    are those of its [ObjectMeta], [Addresses] and [Conditions] those of
    its [Status]; [StorageEphemeral] is the int64
    [Status.Capacity.StorageEphemeral().Value()], a number of bytes. *)
Module Node.
Record t : Type := mk {
  Name : string;
  UID : string;
  Labels : gmap string string;
  Addresses : list NodeAddress.t;
  Conditions : list NodeCondition.t;
  StorageEphemeral : Z;
}.
End Node.

(** [pb.NodeSpec] as [GetCluster] fills it in: the fields of the message
    that describe a running node ([NodeSpec.t] holds the fields that a
    request carries and that [GetClusters] reports). *)
Module NodeInfo.
Record t : Type := mk {
  Name : string;
  Instance : string;
  DiskSize : Z;
  HostName : string;
  State : string;
  Uuid : string;
  IpAddr : string;
  Labels : gmap string string;
  Availabilityzone : string;
}.
End NodeInfo.

(** [pb.ClusterSpec] with the nodes of [GetCluster]. *)
Module ClusterInfo.
Record t : Type := mk { Name : string; NodeSpec : list NodeInfo.t }.
End ClusterInfo.

(** The API server of a cluster, behind [session.getK8sClient] (a helper
    of package [aws] that lives in another file) and the client it hands
    back: the client is bound to the session and the cluster it was made
    for. *)
Record Kube (W : Type) : Type := {
  k_getK8sClient :                                            (* helper *)
    Session.t -> option Cluster.t -> W -> option error * W;
  k_ListNodes :
    Session.t -> option Cluster.t -> W -> result (list Node.t) * W;
}.
Arguments k_getK8sClient {W} _.
Arguments k_ListNodes {W} _.

(** A call to the API server of a cluster: it acts on the far side, and
    is not one of the vendor calls that the trace keeps. *)
Definition call {W T} (f : W -> T * W) : M (state W) T :=
  fun st =>
    let '(r, w') := f (world st) in
    (Done r, mkState w' (trace st)).

Module AWSNodes.

(** [m[key]] of a [map[string]string]: the empty string when the key is
    missing. *)
Definition index (m : gmap string string) (key : string) : string :=
  default EmptyString (m !! key).

(** Lines 556-566: [ipAddr] and [hostName] after the loop over the
    addresses of a node, from their values before it. *)
Definition node_addresses (addresses : list NodeAddress.t)
    (ipAddr hostName : string) : string * string :=
  foldl (fun '(ipAddr, hostName) address =>
           if String.eqb (NodeAddress.Type_ address) "InternalIP"
           then (NodeAddress.Address address, hostName)
           else if String.eqb (NodeAddress.Type_ address) "HostName"
           then (ipAddr, NodeAddress.Address address)
           else (ipAddr, hostName))
    (ipAddr, hostName) addresses.

(** Lines 568-573: [state] after the loop over the conditions. *)
Definition node_state (conditions : list NodeCondition.t) (state : string)
  : string :=
  foldl (fun state cond =>
           if String.eqb (NodeCondition.Type_ cond) "Ready" then "active"
           else state)
    state conditions.

(** The body of the loop over the nodes (lines 555-590). The two
    divisions are divisions of int64, which round towards zero. *)
Definition node_info (node : Node.t) : NodeInfo.t :=
  let '(ipAddr, hostName) :=
    node_addresses (Node.Addresses node) EmptyString (Node.Name node) in
  let state := node_state (Node.Conditions node) "inactive" in
  let diskSize := Node.StorageEphemeral node ÷ 1024 ÷ 1024 in
  {| NodeInfo.Name := Node.Name node;
     NodeInfo.Instance := index (Node.Labels node) "node.kubernetes.io/instance-type";
     NodeInfo.DiskSize := int32 diskSize;
     NodeInfo.HostName := hostName;
     NodeInfo.State := state;
     NodeInfo.Uuid := Node.UID node;
     NodeInfo.IpAddr := ipAddr;
     NodeInfo.Labels := Node.Labels node;
     NodeInfo.Availabilityzone := index (Node.Labels node) "topology.kubernetes.io/zone" |}.

Section GetCluster.
Context {W : Type} (V : Vendor W) (Kb : Kube W).

Definition GetCluster (req : GetClusterRequest.t)
  : M (state W) (option ClusterInfo.t * option error) :=
  let region := GetClusterRequest.Region req in
  let clusterName := GetClusterRequest.ClusterName req in
  let accountName := GetClusterRequest.AccountName req in
  r <- AWS.NewSession V region accountName;;
  let '(session, err) := r in
  log LDebug "fetching cluster status for '%s', region '%s'"
    [clusterName; region];;
  match err with
  | Some e => ret (None, Some e)
  | None =>
      session <- AWS.deref session;;
      r <- AWS.getClusterSpec V session clusterName;;
      let '(cluster, err) := r in
      match err with
      | Some e =>
          log LError "failed to fetch cluster status" [Go.Error e];;
          ret (None, Some e)
      | None =>
          err <- call (k_getK8sClient Kb session cluster);;
          match err with
          | Some e =>
              log LError " Failed to create kube client " [Go.Error e];;
              ret (None, Some e)
          | None =>
              r <- call (k_ListNodes Kb session cluster);;
              let '(nodeList, err) := pair_of r in
              match err with
              | Some e =>
                  log LError " Failed to query node list " [Go.Error e];;
                  ret (None, Some e)
              | None =>
                  nodeList <- AWS.deref nodeList;;
                  let nodeSpecList :=
                    foldl (fun nodeSpecList node =>
                             nodeSpecList ++ [node_info node])
                      [] nodeList in
                  ret (Some (ClusterInfo.mk clusterName nodeSpecList), None)
              end
          end
      end
  end.

End GetCluster.

End AWSNodes.

(** A test double for the API server of a cluster: the making of the
    client answers [client], the listing of the nodes answers [nodes]. *)
Definition fake_kube (client : option error) (nodes : result (list Node.t))
  : Kube Fake.world := {|
  k_getK8sClient _ _ w := (client, w);
  k_ListNodes _ _ w := (nodes, w);
|}.

(* ===================================================================== *)
(** ** Reading a trace: what a call changes and which cluster it is about *)
(* ===================================================================== *)

(** The calls that ask the vendor to change something. *)
Definition is_mutation (ev : event) : bool :=
  match ev with
  | ECreateCluster _ _ _ _ | ECreateNodegroup _ _ _
  | EDeleteCluster _ _ _ | EDeleteNodegroup _ _ _ _
  | ECreateRole _ _ _ _ _ | EAttachPolicy _ _ _ _ => true
  | _ => false
  end.

(** The cluster that a call to the EKS client names. *)
Definition cluster_of (ev : event) : option string :=
  match ev with
  | EDescribeCluster _ n _ | ECreateCluster _ n _ _ | EDeleteCluster _ n _ => Some n
  | EListNodegroups _ c _ | EDescribeNodegroup _ c _ _
  | EDeleteNodegroup _ c _ _ => Some c
  | ECreateNodegroup _ (Some i) _ => Some (CreateNodegroupInput.ClusterName i)
  | _ => None
  end.

(** The session (region and account) a call is made in. *)
Definition session_of (ev : event) : option Session.t :=
  match ev with
  | ENewSession region accountName _ => Some (Session.mk region accountName)
  | EDescribeCluster s _ _ | ECreateCluster s _ _ _ | EListClusters s _
  | EListNodegroups s _ _ | EDescribeNodegroup s _ _ _
  | ECreateNodegroup s _ _ | EDeleteCluster s _ _ | EDeleteNodegroup s _ _ _
  | EGetRole s _ _ | ECreateRole s _ _ _ _ | EAttachPolicy s _ _ _
  | EGetKubeConfig s _ _ => Some s
  | ELog _ _ _ => None
  end.

(** A call made in the session [s] that, if it names a cluster, names
    [cluster]; a line of the log is neither. *)
Definition within (s : Session.t) (cluster : string) (ev : event) : Prop :=
  (forall s', session_of ev = Some s' -> s' = s)
  /\ (forall c, cluster_of ev = Some c -> c = cluster).

Definition stays_within (s : Session.t) (cluster : string) (t : list event)
  : Prop :=
  Forall (within s cluster) t.

(** What [GetClusters] reports for a node group, given the answer of the
    describe call for it: its name, the first of its instance types (none
    if it has none), its disk size cut to 32 bits (0 if it has none), and
    neither a GPU flag nor labels. *)
Definition reported (name : string) (ng : Nodegroup.t) : NodeSpec.t :=
  NodeSpec.mk name (hd EmptyString (default [] (Nodegroup.InstanceTypes ng)))
    (int32 (default 0 (Nodegroup.DiskSize ng))) false [].

(* ===================================================================== *)
(** ** Label maps without pointers *)
(* ===================================================================== *)

(** The composite literal of lines 766-771 and 807-812 with every
    pointer followed: the five labels every new node group starts from. *)
Definition system_map (K : Constants) (nodeSpec : NodeSpec.t)
  : gmap string string :=
  <["type" := "nodegroup"]>
    (<[INSTANCE_LABEL K := NodeSpec.Instance nodeSpec]>
       (<[NODE_LABEL_SELECTOR_LABEL K := NodeSpec.Name nodeSpec]>
          (<[NODE_NAME_LABEL K := NodeSpec.Name nodeSpec]>
             (<[CREATOR_LABEL K := SPAWNER_SERVICE_LABEL K]> ∅)))).

(** [for k, v := range entries { m[k] = v }] on a map of strings. *)
Definition insert_all (entries : list (string * string))
    (m : gmap string string) : gmap string string :=
  foldl (fun m kv => <[kv.1 := kv.2]> m) m entries.

(** Every address a label map holds is an address of the heap. *)
Definition allocated (h : Cells.heap) (labels : gmap string Cells.loc) : Prop :=
  map_Forall (fun _ p => (p < length h)%nat) labels.

(** More inputs at which the properties are exercised. *)
Module Fixtures.

(** A node that reports a Ready condition with status False. *)
Definition worker : Node.t :=
  {| Node.Name := "ip-10-0-1-17.ec2.internal";
     Node.UID := "0b7a7cf4-2f4b-4c1e-9d1e-5a3c2f6e8d11";
     Node.Labels :=
       <["node.kubernetes.io/instance-type" := "t3.medium"]>
         (<["topology.kubernetes.io/zone" := "us-east-1a"]> ∅);
     Node.Addresses :=
       [NodeAddress.mk "InternalIP" "10.0.1.17";
        NodeAddress.mk "InternalDNS" "ip-10-0-1-17.ec2.internal";
        NodeAddress.mk "InternalIP" "10.0.1.18"];
     Node.Conditions :=
       [NodeCondition.mk "MemoryPressure" "False";
        NodeCondition.mk "Ready" "False"];
     Node.StorageEphemeral := 107361579008 |}.

Definition get_request : GetClusterRequest.t :=
  GetClusterRequest.mk "aws" "us-east-1" "acme" "prod".

Definition token_request : GetTokenRequest.t :=
  GetTokenRequest.mk "aws" "us-east-1" "acme" "prod".

(** A request to add a node that carries no node spec. *)
Definition bare_request : NodeSpawnRequest.t :=
  NodeSpawnRequest.mk "aws" "us-east-1" "acme" "prod" None.

(** A node group described with an empty list of instance types. *)
Definition untyped : Nodegroup.t :=
  {| Nodegroup.NodegroupName := "default";
     Nodegroup.Status := "ACTIVE";
     Nodegroup.AmiType := Some "AL2_x86_64";
     Nodegroup.CapacityType := Some "ON_DEMAND";
     Nodegroup.NodeRole := Some "arn:aws:iam::000000000000:role/nodes";
     Nodegroup.ReleaseVersion := None;
     Nodegroup.InstanceTypes := Some [];
     Nodegroup.DiskSize := Some 20;
     Nodegroup.Labels := [];
     Nodegroup.Subnets := ["subnet-1"] |}.

Definition with_untyped : Fake.world :=
  Fake.mkWorld [Scenario.cluster] [("prod", untyped)] [] [].

Definition node_role : Role.t :=
  Role.mk AWS.AWS_NODE_GROUP_ROLE_NAME
    (Some "arn:aws:iam::000000000000:role/nodes").

(** One cluster, no node group, the node-group role in place. *)
Definition with_role : Fake.world :=
  Fake.mkWorld [Scenario.cluster] [] [node_role] [].

(** A caller with a single label. *)
Definition one_label : NodeSpec.t :=
  NodeSpec.mk "gpu-pool" "p3.2xlarge" 100 true [("b", "9")].

End Fixtures.

(** A node-group create call that the vendor carried out. *)
Definition is_nodegroup_created (ev : event) : bool :=
  match ev with
  | ECreateNodegroup _ _ (Ok _) => true
  | _ => false
  end.

(** In the test double a node group is there once it is stored. *)
Definition fake_has_nodegroup (_ : Session.t) (cluster name : string)
    (w : Fake.world) : Prop :=
  exists ng, (cluster, ng) ∈ Fake.nodegroups w
             /\ Nodegroup.NodegroupName ng = name.

(* ===================================================================== *)
(** ** Proof tools *)
(* ===================================================================== *)

#[local] Arguments AWS.name_listed : simpl never.

Ltac unfold_engine :=
  unfold run, AWS.CreateCluster, AWS.GetClusters, AWS.ClusterStatus,
    AWS.AddNode, AWS.DeleteCluster, AWS.DeleteNode, AWS.GetToken,
    AWS.choose_input, AWS.getDefaultNode, AWS.getNewNodeGroupSpecFromCluster,
    AWS.attach_node_policies, AWS.attachPolicy, AWS.createRoleOrGetExisting,
    AWS.createClusterInternal, AWS.getClusterSpec, AWS.NewSession, AWS.deref,
    bind, invoke, log, ret, panic in *.

(** Use the answer [H] of the next call. *)
Ltac answer H := unfold_engine; simpl in *; rewrite H; simpl.

(** Split on the answer to the next call, or on what the code tests. *)
Ltac case_next :=
  match goal with
  | |- context [v_NewSession ?V ?a ?b ?w] =>
      destruct (v_NewSession V a b w) as [[?|] ?] eqn:?
  | |- context [v_DescribeCluster ?V ?s ?n ?w] =>
      destruct (v_DescribeCluster V s n w) as [[?|?] ?] eqn:?
  | |- context [v_createClusterInternal ?V ?s ?n ?r ?w] =>
      destruct (v_createClusterInternal V s n r w) as [[[?|] [?|]] ?] eqn:?
  | |- context [v_ListClusters ?V ?s ?w] =>
      destruct (v_ListClusters V s w) as [[?|?] ?] eqn:?
  | |- context [v_ListNodegroups ?V ?s ?c ?w] =>
      destruct (v_ListNodegroups V s c w) as [[[|? ?]|?] ?] eqn:?
  | |- context [v_DescribeNodegroup ?V ?s ?c ?n ?w] =>
      destruct (v_DescribeNodegroup V s c n w) as [[?|?] ?] eqn:?
  | |- context [v_CreateNodegroup ?V ?s ?i ?w] =>
      destruct (v_CreateNodegroup V s i w) as [[?|?] ?] eqn:?
  | |- context [v_DeleteCluster ?V ?s ?n ?w] =>
      destruct (v_DeleteCluster V s n w) as [[?|?] ?] eqn:?
  | |- context [v_DeleteNodegroup ?V ?s ?c ?n ?w] =>
      destruct (v_DeleteNodegroup V s c n w) as [[?|?] ?] eqn:?
  | |- context [v_GetRole ?V ?s ?n ?w] =>
      destruct (v_GetRole V s n w) as [[?|?] ?] eqn:?
  | |- context [v_CreateRole ?V ?s ?n ?d ?p ?w] =>
      destruct (v_CreateRole V s n d p w) as [[?|?] ?] eqn:?
  | |- context [v_attachPolicy ?V ?s ?r ?a ?w] =>
      destruct (v_attachPolicy V s r a w) as [[?|] ?] eqn:?
  | |- context [v_getKubeConfig ?V ?s ?c ?w] =>
      destruct (v_getKubeConfig V s c w) as [[[?|] [?|]] ?] eqn:?
  | |- context [AWS.name_listed ?n ?l] => destruct (AWS.name_listed n l) eqn:?
  | |- context [Is ?e ?t] => destruct (Is e t) eqn:?
  | |- context [bool_decide ?P] => destruct (bool_decide P) eqn:?
  | |- context [awserr_Code ?e] => destruct (awserr_Code e) eqn:?
  | |- context [String.eqb ?a ?b] => destruct (String.eqb a b) eqn:?
  | |- context [NodeSpawnRequest.NodeSpec ?r] =>
      destruct (NodeSpawnRequest.NodeSpec r) eqn:?
  end; simpl.

(** Follow a run through every answer the vendor may give. *)
Ltac run_all := unfold_engine; simpl; repeat case_next.

(** Go through the entries of a trace that is known entry by entry. *)
Ltac in_trace :=
  match goal with
  | H : _ ∈ [] |- _ => by apply elem_of_nil in H
  | H : _ ∈ _ :: _ |- _ =>
      apply elem_of_cons in H as [H | H]; [try discriminate H |]
  end.

Ltac pick_event :=
  repeat first [apply list_elem_of_here | apply list_elem_of_further].

Lemma append_String (c : ascii) (s t : string) :
  String c s +:+ t = String c (s +:+ t).
Proof. reflexivity. Qed.

Lemma append_empty_l (s : string) : EmptyString +:+ s = s.
Proof. reflexivity. Qed.

Lemma append_empty_r (s : string) : s +:+ EmptyString = s.
Proof.
  induction s as [|c s IH]; [done |].
  by rewrite append_String, IH.
Qed.

Lemma Sprintf_name (provider region : string) :
  Sprintf "%s-%s" [provider; region] = provider +:+ "-" +:+ region.
Proof.
  simpl. by rewrite append_empty_r, append_String, append_empty_l.
Qed.

Lemma Sprintf_ProviderNotFound (provider : string) :
  Sprintf Service.ProviderNotFound [provider]
  = "provider not found, must be one of ['aws', 'azure'], got " +:+ provider.
Proof.
  simpl. rewrite append_empty_r.
  by rewrite !append_String, append_empty_l.
Qed.

Lemma name_listed_elem (name : string) (names : list string) :
  name ∈ names -> AWS.name_listed name names = true.
Proof.
  induction 1 as [n l | n m l _ IH]; unfold AWS.name_listed; fold AWS.name_listed.
  - by rewrite String.eqb_refl.
  - rewrite IH. by destruct (String.eqb m n).
Qed.

(* ===================================================================== *)
(** ** The dispatcher *)
(* ===================================================================== *)

Section Dispatcher.
Context {S : Type}.
Import Service.

(** C8: for every dispatched operation the provider strings aws, azure
    and gcp select their own controller, whose answer is the answer of
    the operation; any other provider string makes the operation fail
    with the ProviderNotFound message for that string, the same for
    every operation, whatever the controllers are, and leaves the state
    as it was: no controller is reached. *)
Theorem dispatch_by_provider (s : @spawnerService S) (m : method)
    (req : Request m) :
  (Provider req = "aws" -> serve s m req = awsController s m req) /\
  (Provider req = "azure" -> serve s m req = azureController s m req) /\
  (Provider req = "gcp" -> serve s m req = gcpController s m req) /\
  (Provider req <> "aws" -> Provider req <> "azure" -> Provider req <> "gcp" ->
   forall st,
     serve s m req st
     = (Done (None,
              Some (Errorf ("provider not found, must be one of ['aws', 'azure'], got "
                            +:+ Provider req))), st)).
Proof.
  unfold serve, controller.
  repeat split.
  - intros ->. reflexivity.
  - intros ->. reflexivity.
  - intros ->. reflexivity.
  - intros Ha Hz Hg st.
    apply String.eqb_neq in Ha, Hz, Hg. rewrite Ha, Hz, Hg.
    by rewrite Sprintf_ProviderNotFound.
Qed.

End Dispatcher.

Lemma dispatch_by_provider_witness :
  Service.serve Scenario.service Service.CreateCluster Scenario.create_request
  = Scenario.named "aws controller" Service.CreateCluster Scenario.create_request
  /\ Service.serve Scenario.service Service.CreateVolume
       (OtherRequest.mk "azure" "disk") ()
     = (Done (None, Some (Errorf "azure controller")), ())
  /\ Service.serve Scenario.service Service.GetClusters
       (GetClustersRequest.mk "gcp" "europe-west1" "acme") ()
     = (Done (None, Some (Errorf "gcp controller")), ())
  /\ Service.serve Scenario.service Service.DeleteNode
       (NodeDeleteRequest.mk "digitalocean" "ams3" "acme" "prod" "default") ()
     = (Done (None,
              Some (Errorf "provider not found, must be one of ['aws', 'azure'], got digitalocean")),
        ()).
Proof.
  split; [| split; [| split]].
  - apply (proj1 (dispatch_by_provider Scenario.service Service.CreateCluster
                    Scenario.create_request)).
    reflexivity.
  - rewrite (proj1 (proj2 (dispatch_by_provider Scenario.service
                             Service.CreateVolume (OtherRequest.mk "azure" "disk")))).
    + reflexivity.
    + reflexivity.
  - rewrite (proj1 (proj2 (proj2 (dispatch_by_provider Scenario.service
                                    Service.GetClusters
                                    (GetClustersRequest.mk "gcp" "europe-west1" "acme"))))).
    + reflexivity.
    + reflexivity.
  - apply (proj2 (proj2 (proj2 (dispatch_by_provider Scenario.service
                                  Service.DeleteNode
                                  (NodeDeleteRequest.mk "digitalocean" "ams3"
                                     "acme" "prod" "default")))));
      simpl; discriminate.
Defined.

(* ===================================================================== *)
(** ** CreateCluster *)
(* ===================================================================== *)

Section CreateCluster.
Context {W : Type} (V : Vendor W).

(** C10: the descriptor read for the response is absent after a describe
    call that failed with anything but resource-not-found: the code
    falls through to [*cluster.Name] with [cluster] nil, and panics. *)
Theorem CreateCluster_reads_absent_descriptor (req : ClusterRequest.t)
    (w w1 w2 : W) (code message : string) :
  v_NewSession V (ClusterRequest.Region req) (ClusterRequest.AccountName req) w
  = (None, w1) ->
  v_DescribeCluster V
    (Session.mk (ClusterRequest.Region req) (ClusterRequest.AccountName req))
    (AWS.cluster_name_of req) w1
  = (Err (AwsError code message), w2) ->
  code <> AWS.ErrCodeResourceNotFoundException ->
  (run (AWS.CreateCluster V req) w).1 = Panic nil_dereference.
Proof.
  intros Hs Hd Hc. answer Hs. rewrite Hd. simpl.
  apply String.eqb_neq in Hc. by rewrite Hc.
Qed.

(** C7: a request without a cluster name is served under the name
    provider-region: when the vendor has no cluster of that name the
    create call is issued under it, once, and the response carries it. *)
Theorem CreateCluster_default_name (req : ClusterRequest.t) (w w1 w2 w3 : W)
    (e : error) (c : Cluster.t) :
  let name := ClusterRequest.Provider req +:+ "-" +:+ ClusterRequest.Region req in
  let s := Session.mk (ClusterRequest.Region req)
             (ClusterRequest.AccountName req) in
  ClusterRequest.ClusterName req = EmptyString ->
  v_NewSession V (ClusterRequest.Region req) (ClusterRequest.AccountName req) w
  = (None, w1) ->
  v_DescribeCluster V s name w1 = (Err e, w2) ->
  awserr_Code e = Some AWS.ErrCodeResourceNotFoundException ->
  v_createClusterInternal V s name req w2 = ((Some c, None), w3) ->
  Cluster.Name c = name ->
  exists st,
    run (AWS.CreateCluster V req) w
    = (Done (Some (ClusterResponse.mk name), None), st)
    /\ List.filter is_create_cluster (trace st)
       = [ECreateCluster s name req (Some c, None)]
    /\ world st = w3.
Proof.
  intros name s Hempty Hs Hd Hcode Hc Hname.
  assert (Hn : AWS.cluster_name_of req = name).
  { unfold AWS.cluster_name_of. rewrite Hempty. apply Sprintf_name. }
  subst s. unfold_engine. rewrite Hn. simpl in *.
  rewrite Hs. simpl. rewrite Hd. simpl.
  destruct e as [code msg| | |]; simplify_eq/=.
  rewrite Hc. simpl.
  eexists. split; [by rewrite Hname |]. done.
Qed.

End CreateCluster.

Lemma CreateCluster_reads_absent_descriptor_witness :
  (run (AWS.CreateCluster
          (Fake.vendor (Fake.failing Fake.DescribeCluster Scenario.denied))
          Scenario.create_request) Fake.empty).1
  = Panic nil_dereference.
Proof.
  apply (CreateCluster_reads_absent_descriptor
           (Fake.vendor (Fake.failing Fake.DescribeCluster Scenario.denied))
           Scenario.create_request Fake.empty Fake.empty Fake.empty
           "AccessDeniedException"
           "User is not authorized to perform this action").
  - reflexivity.
  - reflexivity.
  - discriminate.
Defined.

Lemma CreateCluster_default_name_witness :
  exists st,
    run (AWS.CreateCluster (Fake.vendor Fake.no_faults) Scenario.create_request)
      Fake.empty
    = (Done (Some (ClusterResponse.mk "aws-us-east-1"), None), st)
    /\ List.filter is_create_cluster (trace st)
       = [ECreateCluster Scenario.session "aws-us-east-1" Scenario.create_request
            (Some (Cluster.mk "aws-us-east-1" "CREATING" []), None)]
    /\ world st
       = Fake.mkWorld [Cluster.mk "aws-us-east-1" "CREATING" []] [] [] [].
Proof.
  apply (CreateCluster_default_name (Fake.vendor Fake.no_faults)
           Scenario.create_request Fake.empty Fake.empty Fake.empty
           (Fake.mkWorld [Cluster.mk "aws-us-east-1" "CREATING" []] [] [] [])
           (Fake.not_found "cluster" "aws-us-east-1")
           (Cluster.mk "aws-us-east-1" "CREATING" []));
    reflexivity.
Defined.

(** What one successful [CreateCluster] did, from any state. *)
Lemma CreateCluster_success {W : Type} (V : Vendor W) (req : ClusterRequest.t)
    (st st' : state W) (r : ClusterResponse.t) :
  let s := Session.mk (ClusterRequest.Region req)
             (ClusterRequest.AccountName req) in
  let n := AWS.cluster_name_of req in
  AWS.CreateCluster V req st = (Done (Some r, None), st') ->
  exists w1,
    v_NewSession V (ClusterRequest.Region req) (ClusterRequest.AccountName req)
      (world st) = (None, w1)
    /\ ((exists c,
           v_DescribeCluster V s n w1 = (Ok c, world st')
           /\ r = ClusterResponse.mk (Cluster.Name c)
           /\ cluster_creates (trace st') = cluster_creates (trace st))
        \/ (exists e w2 c,
              v_DescribeCluster V s n w1 = (Err e, w2)
              /\ awserr_Code e = Some AWS.ErrCodeResourceNotFoundException
              /\ v_createClusterInternal V s n req w2
                 = ((Some c, None), world st')
              /\ r = ClusterResponse.mk (Cluster.Name c)
              /\ cluster_creates (trace st') = Datatypes.S (cluster_creates (trace st)))).
Proof.
  intros s n. subst s n. unfold_engine. simpl.
  destruct (v_NewSession V _ _ (world st)) as [[e|] w1] eqn:Hs; simpl;
    [intros; simplify_eq |].
  exists w1. split; [done |].
  destruct (v_DescribeCluster V _ _ w1) as [[c|e] w2] eqn:Hd; simpl in *.
  - intros; simplify_eq. left. exists c. simpl. repeat split; try done.
    unfold cluster_creates. rewrite !List.filter_app, !length_app. simpl. lia.
  - destruct (awserr_Code e) as [code|] eqn:Hcode; simpl in *;
      [| intros; simplify_eq].
    destruct (String.eqb code _) eqn:Heq; simpl in *; [| intros; simplify_eq].
    apply String.eqb_eq in Heq. subst code.
    destruct (v_createClusterInternal V _ _ req w2) as [[[c|] [e'|]] w3] eqn:Hc;
      simpl in *; intros; simplify_eq.
    right. exists e, w2, c. simpl. repeat split; try done.
    unfold cluster_creates. rewrite !List.filter_app, !length_app. simpl. lia.
Qed.

Section Idempotence.
Context {W : Type} (V : Vendor W).

(** What is asked of the vendor: a describe or create that succeeds
    answers with the cluster of the name it was given, and a cluster
    that was created stays visible ([present]) to later describe calls
    of the same session, which then do not answer with not-found. *)
Variable present : Session.t -> string -> W -> Prop.

Hypothesis describe_names : forall s n w c w',
  v_DescribeCluster V s n w = (Ok c, w') -> Cluster.Name c = n.
Hypothesis create_names : forall s n req w c w',
  v_createClusterInternal V s n req w = ((Some c, None), w') ->
  Cluster.Name c = n.
Hypothesis create_present : forall s n req w c w',
  v_createClusterInternal V s n req w = ((Some c, None), w') -> present s n w'.
Hypothesis session_keeps : forall region account w r w' s n,
  v_NewSession V region account w = (r, w') -> present s n w -> present s n w'.
Hypothesis present_found : forall s n w e w',
  present s n w -> v_DescribeCluster V s n w = (Err e, w') ->
  awserr_Code e <> Some AWS.ErrCodeResourceNotFoundException.

(** C1: when the describe call finds the cluster, in whatever state,
    the call answers with the name of that cluster and issues no create;
    and two calls in a row with the same request that both answer carry
    the same cluster name, with at most one create call between them. *)
Theorem CreateCluster_idempotent (req : ClusterRequest.t) :
  let s := Session.mk (ClusterRequest.Region req)
             (ClusterRequest.AccountName req) in
  (forall (w w1 w2 : W) (c : Cluster.t),
     v_NewSession V (ClusterRequest.Region req)
       (ClusterRequest.AccountName req) w = (None, w1) ->
     v_DescribeCluster V s (AWS.cluster_name_of req) w1 = (Ok c, w2) ->
     exists st,
       run (AWS.CreateCluster V req) w
       = (Done (Some (ClusterResponse.mk (Cluster.Name c)), None), st)
       /\ cluster_creates (trace st) = 0%nat
       /\ world st = w2)
  /\ (forall (w : W) (st1 st2 : state W) (r1 r2 : ClusterResponse.t),
        run (AWS.CreateCluster V req) w = (Done (Some r1, None), st1) ->
        AWS.CreateCluster V req st1 = (Done (Some r2, None), st2) ->
        ClusterResponse.ClusterName r1 = ClusterResponse.ClusterName r2
        /\ (cluster_creates (trace st2) <= 1)%nat).
Proof.
  intros s. split.
  - intros w w1 w2 c Hs Hd. subst s. answer Hs. rewrite Hd. simpl.
    eexists. by repeat split.
  - intros w st1 st2 r1 r2 H1 H2. unfold run in H1.
    apply CreateCluster_success in H1 as (w1 & Hs1 & H1).
    apply CreateCluster_success in H2 as (w1' & Hs2 & H2).
    simpl in *.
    assert (Hr1 : ClusterResponse.ClusterName r1 = AWS.cluster_name_of req).
    { destruct H1 as [(c & Hd & -> & _) | (e & w2 & c & _ & _ & Hc & -> & _)];
        simpl; eauto. }
    assert (Hr2 : ClusterResponse.ClusterName r2 = AWS.cluster_name_of req).
    { destruct H2 as [(c & Hd & -> & _) | (e & w2 & c & _ & _ & Hc & -> & _)];
        simpl; eauto. }
    split; [congruence |].
    destruct H2 as [(c & _ & _ & ->) | (e & w2 & c & Hd & Hcode & _ & _ & ->)].
    + destruct H1 as [(? & _ & _ & ->) | (? & ? & ? & _ & _ & _ & _ & ->)];
        unfold cluster_creates; simpl; lia.
    + destruct H1 as [(? & _ & _ & ->) | (e1 & w21 & c1 & _ & _ & Hc1 & _ & _)];
        [unfold cluster_creates; simpl; lia |].
      exfalso. eapply present_found; [| exact Hd | exact Hcode].
      eapply session_keeps; [exact Hs2 |]. eapply create_present, Hc1.
Qed.

End Idempotence.

(** The test double keeps the laws asked of the vendor. *)

Lemma find_cluster_name (n : string) (w : Fake.world) (c : Cluster.t) :
  Fake.find_cluster n w = Some c -> Cluster.Name c = n.
Proof.
  unfold Fake.find_cluster. intros H. apply List.find_some in H as [_ H].
  by apply String.eqb_eq.
Qed.

Lemma find_cluster_created (n : string) (cs : list Cluster.t) (c : Cluster.t) :
  Cluster.Name c = n ->
  is_Some (find (fun c => String.eqb (Cluster.Name c) n) (cs ++ [c])).
Proof.
  intros Hn. induction cs as [|c' cs IH]; simpl.
  - rewrite Hn, String.eqb_refl. by eexists.
  - destruct (String.eqb (Cluster.Name c') n); [by eexists | done].
Qed.

Lemma fake_describe_names s n w c w' :
  v_DescribeCluster (Fake.vendor Fake.no_faults) s n w = (Ok c, w') ->
  Cluster.Name c = n.
Proof.
  simpl. unfold Fake.guarded. simpl.
  destruct (Fake.find_cluster n w) eqn:Hf; intros; simplify_eq.
  by eapply find_cluster_name.
Qed.

Lemma fake_create_names s n req w c w' :
  v_createClusterInternal (Fake.vendor Fake.no_faults) s n req w
  = ((Some c, None), w') ->
  Cluster.Name c = n.
Proof.
  simpl. unfold Fake.guarded. simpl.
  destruct (Fake.find_cluster n w); intros; by simplify_eq.
Qed.

Lemma fake_create_present s n req w c w' :
  v_createClusterInternal (Fake.vendor Fake.no_faults) s n req w
  = ((Some c, None), w') ->
  fake_present s n w'.
Proof.
  simpl. unfold Fake.guarded, fake_present, Fake.find_cluster. simpl.
  destruct (find _ (Fake.clusters w)); intros; simplify_eq. simpl.
  by apply find_cluster_created.
Qed.

Lemma fake_session_keeps region account w r w' s n :
  v_NewSession (Fake.vendor Fake.no_faults) region account w = (r, w') ->
  fake_present s n w -> fake_present s n w'.
Proof. simpl. unfold Fake.guarded. simpl. intros. by simplify_eq. Qed.

Lemma fake_present_found s n w e w' :
  fake_present s n w ->
  v_DescribeCluster (Fake.vendor Fake.no_faults) s n w = (Err e, w') ->
  awserr_Code e <> Some AWS.ErrCodeResourceNotFoundException.
Proof.
  unfold fake_present. intros [c Hc]. simpl. unfold Fake.guarded. simpl.
  rewrite Hc. intros; simplify_eq.
Qed.

Lemma CreateCluster_idempotent_witness :
  let V := Fake.vendor Fake.no_faults in
  let first := run (AWS.CreateCluster V Scenario.create_request) Fake.empty in
  let second := AWS.CreateCluster V Scenario.create_request first.2 in
  first.1 = Done (Some (ClusterResponse.mk "aws-us-east-1"), None)
  /\ second.1 = Done (Some (ClusterResponse.mk "aws-us-east-1"), None)
  /\ (cluster_creates (trace second.2) <= 1)%nat
  /\ exists st,
       run (AWS.CreateCluster V Scenario.create_request) (world first.2)
       = (Done (Some (ClusterResponse.mk "aws-us-east-1"), None), st)
       /\ cluster_creates (trace st) = 0%nat
       /\ world st = world first.2.
Proof.
  intros V first second.
  pose proof (CreateCluster_idempotent V fake_present fake_describe_names
                fake_create_names fake_create_present fake_session_keeps
                fake_present_found Scenario.create_request) as [Hnoop Htwice].
  split; [reflexivity |]. split; [reflexivity |]. split.
  - apply (Htwice Fake.empty first.2 second.2
             (ClusterResponse.mk "aws-us-east-1")
             (ClusterResponse.mk "aws-us-east-1")); reflexivity.
  - apply (Hnoop (world first.2) (world first.2) (world first.2)
             (Cluster.mk "aws-us-east-1" "CREATING" [])); reflexivity.
Defined.

(* ===================================================================== *)
(** ** GetClusters, AddNode, and the operations that signal twice *)
(* ===================================================================== *)

Section Operations.
Context {W : Type} (V : Vendor W) (K : Constants) (rv : range_variable).

(** C6: a node group whose describe call fails is not left out of the
    listing: after the failure is logged the code reads
    [nodeGroupDetails.Nodegroup.InstanceTypes] with [Nodegroup] nil, and
    the whole call panics, with no cluster returned at all. *)
Theorem GetClusters_detail_failure_panics (req : GetClustersRequest.t)
    (w w1 w2 w3 w4 : W) (cluster nodegroup : string)
    (clusters nodegroups : list string) (e : error) :
  let s := Session.mk (GetClustersRequest.Region req)
             (GetClustersRequest.AccountName req) in
  v_NewSession V (GetClustersRequest.Region req)
    (GetClustersRequest.AccountName req) w = (None, w1) ->
  v_ListClusters V s w1 = (Ok (cluster :: clusters), w2) ->
  v_ListNodegroups V s cluster w2 = (Ok (nodegroup :: nodegroups), w3) ->
  v_DescribeNodegroup V s cluster nodegroup w3 = (Err e, w4) ->
  exists st,
    run (AWS.GetClusters V req) w = (Panic nil_dereference, st)
    /\ last (trace st)
       = Some (ELog LError "failed to fetch nodegroups details " [nodegroup]).
Proof.
  intros s Hs Hl Hn Hd. subst s.
  answer Hs. answer Hl. answer Hn. answer Hd.
  eexists. split; reflexivity.
Qed.

(** C3: when the listing of the cluster's node groups holds the name
    asked for, AddNode fails with the NodeGroupExists error, issues no
    node-group create call, and leaves the vendor as the listing left
    it: nothing is overwritten. *)
Theorem AddNode_existing_name (req : NodeSpawnRequest.t) (nodeSpec : NodeSpec.t)
    (w w1 w2 : W) (names : list string) :
  let s := Session.mk (NodeSpawnRequest.Region req)
             (NodeSpawnRequest.AccountName req) in
  NodeSpawnRequest.NodeSpec req = Some nodeSpec ->
  v_NewSession V (NodeSpawnRequest.Region req)
    (NodeSpawnRequest.AccountName req) w = (None, w1) ->
  v_ListNodegroups V s (NodeSpawnRequest.ClusterName req) w1 = (Ok names, w2) ->
  NodeSpec.Name nodeSpec ∈ names ->
  exists st,
    run (AWS.AddNode V K rv req) w = (Done (None, Some ERR_NODEGROUP_EXIST), st)
    /\ List.filter is_create_nodegroup (trace st) = []
    /\ world st = w2.
Proof.
  intros s Hspec Hs Hl Hin. subst s.
  answer Hs. answer Hspec. answer Hl.
  rewrite (name_listed_elem _ _ Hin).
  destruct names as [|n names]; [by apply elem_of_nil in Hin |]. simpl.
  eexists. split; [reflexivity |]. simpl. done.
Qed.

(** C9: ClusterStatus, DeleteCluster and DeleteNode signal a failed
    vendor call twice, by a response whose error field is the text of
    the error and by that error itself as the Go error; when the call
    succeeds the error field is empty and the Go error is nil. *)
Theorem dual_error_signal :
  (forall (req : ClusterStatusRequest.t) (w w1 w2 : W) (r : result Cluster.t),
     v_NewSession V (ClusterStatusRequest.Region req)
       (ClusterStatusRequest.AccountName req) w = (None, w1) ->
     v_DescribeCluster V
       (Session.mk (ClusterStatusRequest.Region req)
          (ClusterStatusRequest.AccountName req))
       (ClusterStatusRequest.ClusterName req) w1 = (r, w2) ->
     (run (AWS.ClusterStatus V req) w).1
     = Done match r with
            | Err e =>
                (Some (ClusterStatusResponse.mk EmptyString (Error e)), Some e)
            | Ok c =>
                (Some (ClusterStatusResponse.mk (Cluster.Status c) EmptyString),
                 None)
            end) /\
  (forall (req : ClusterDeleteRequest.t) (w w1 w2 : W) (r : result Cluster.t),
     v_NewSession V (ClusterDeleteRequest.Region req)
       (ClusterDeleteRequest.AccountName req) w = (None, w1) ->
     v_DeleteCluster V
       (Session.mk (ClusterDeleteRequest.Region req)
          (ClusterDeleteRequest.AccountName req))
       (ClusterDeleteRequest.ClusterName req) w1 = (r, w2) ->
     (run (AWS.DeleteCluster V req) w).1
     = Done match r with
            | Err e => (Some (ClusterDeleteResponse.mk (Error e)), Some e)
            | Ok _ => (Some (ClusterDeleteResponse.mk EmptyString), None)
            end) /\
  (forall (req : NodeDeleteRequest.t) (w w1 w2 : W) (r : result Nodegroup.t),
     v_NewSession V (NodeDeleteRequest.Region req)
       (NodeDeleteRequest.AccountName req) w = (None, w1) ->
     v_DeleteNodegroup V
       (Session.mk (NodeDeleteRequest.Region req)
          (NodeDeleteRequest.AccountName req))
       (NodeDeleteRequest.ClusterName req)
       (NodeDeleteRequest.NodeGroupName req) w1 = (r, w2) ->
     (run (AWS.DeleteNode V req) w).1
     = Done match r with
            | Err e => (Some (NodeDeleteResponse.mk (Error e)), Some e)
            | Ok _ => (Some (NodeDeleteResponse.mk EmptyString), None)
            end).
Proof.
  repeat split; intros req w w1 w2 r Hs Hr;
    answer Hs; rewrite Hr; by destruct r.
Qed.

End Operations.

Lemma GetClusters_detail_failure_panics_witness :
  exists st,
    run (AWS.GetClusters
           (Fake.vendor (Fake.failing Fake.DescribeNodegroup Scenario.denied))
           Scenario.list_request) Scenario.with_donor
    = (Panic nil_dereference, st)
    /\ last (trace st)
       = Some (ELog LError "failed to fetch nodegroups details " ["default"]).
Proof.
  apply (GetClusters_detail_failure_panics
           (Fake.vendor (Fake.failing Fake.DescribeNodegroup Scenario.denied))
           Scenario.list_request Scenario.with_donor Scenario.with_donor
           Scenario.with_donor Scenario.with_donor Scenario.with_donor
           "prod" "default" [] [] Scenario.denied);
    reflexivity.
Defined.

Lemma AddNode_existing_name_witness :
  exists st,
    run (AWS.AddNode (Fake.vendor Fake.no_faults) spec_constants OnePerLoop
           Scenario.add_request) Scenario.with_gpu_pool
    = (Done (None, Some ERR_NODEGROUP_EXIST), st)
    /\ List.filter is_create_nodegroup (trace st) = []
    /\ world st = Scenario.with_gpu_pool.
Proof.
  apply (AddNode_existing_name (Fake.vendor Fake.no_faults) spec_constants
           OnePerLoop Scenario.add_request Scenario.gpu_pool
           Scenario.with_gpu_pool Scenario.with_gpu_pool Scenario.with_gpu_pool
           ["default"; "gpu-pool"]).
  - reflexivity.
  - reflexivity.
  - reflexivity.
  - apply list_elem_of_further, list_elem_of_here.
Defined.

Lemma dual_error_signal_witness :
  (run (AWS.ClusterStatus
          (Fake.vendor (Fake.failing Fake.DescribeCluster Scenario.denied))
          Scenario.status_request) Scenario.bare).1
  = Done (Some (ClusterStatusResponse.mk EmptyString
                  "AccessDeniedException: User is not authorized to perform this action"),
          Some Scenario.denied)
  /\ (run (AWS.ClusterStatus (Fake.vendor Fake.no_faults)
             Scenario.status_request) Scenario.bare).1
     = Done (Some (ClusterStatusResponse.mk "ACTIVE" EmptyString), None)
  /\ (run (AWS.DeleteCluster
             (Fake.vendor (Fake.failing Fake.DeleteCluster Scenario.denied))
             Scenario.delete_request) Scenario.bare).1
     = Done (Some (ClusterDeleteResponse.mk
                     "AccessDeniedException: User is not authorized to perform this action"),
             Some Scenario.denied)
  /\ (run (AWS.DeleteNode (Fake.vendor Fake.no_faults)
             Scenario.delete_node_request) Scenario.with_donor).1
     = Done (Some (NodeDeleteResponse.mk EmptyString), None).
Proof.
  split; [| split; [| split]].
  - apply (proj1 (dual_error_signal
                    (Fake.vendor (Fake.failing Fake.DescribeCluster Scenario.denied)))
             Scenario.status_request Scenario.bare Scenario.bare Scenario.bare
             (Err Scenario.denied)); reflexivity.
  - apply (proj1 (dual_error_signal (Fake.vendor Fake.no_faults))
             Scenario.status_request Scenario.bare Scenario.bare Scenario.bare
             (Ok Scenario.cluster)); reflexivity.
  - apply (proj1 (proj2 (dual_error_signal
                           (Fake.vendor (Fake.failing Fake.DeleteCluster Scenario.denied))))
             Scenario.delete_request Scenario.bare Scenario.bare Scenario.bare
             (Err Scenario.denied)); reflexivity.
  - apply (proj2 (proj2 (dual_error_signal (Fake.vendor Fake.no_faults)))
             Scenario.delete_node_request Scenario.with_donor Scenario.with_donor
             (Fake.mkWorld [Scenario.cluster] [] [] [])
             (Ok Scenario.donor)); reflexivity.
Defined.

(* ===================================================================== *)
(** ** The node-group role and its policies *)
(* ===================================================================== *)

Section Roles.
Context {W : Type} (V : Vendor W) (K : Constants) (rv : range_variable).

(** C5: every run of AddNode keeps [role_discipline]: (1) a role that the lookup finds is
    left alone: no role is created and no policy attached; (2) a role is
    created only under the node-group role name and only after the
    lookup answered that no such role exists; (3) policies are attached
    only to a role created in this very run, in the order worker-node,
    registry read-only, CNI, none twice; (4) a failed attachment ends
    the run with that error and without a node-group create call;
    (5) when the role was created and the node-group create call is
    reached, each of the three policies was attached exactly once. *)
Theorem AddNode_role_policies (req : NodeSpawnRequest.t) (w : W) :
  role_discipline (run (AWS.AddNode V K rv req) w).
Proof.
  run_all.
  all: unfold role_discipline; simpl.
  all: repeat split; intros.
  all: repeat in_trace.
  all: simplify_eq/=.
  all: try done.
  all: try (eexists _, _, _, _; split; [pick_event | by eexists]).
  all: try (eexists; split; [pick_event | by eapply bool_decide_eq_true_1]).
Qed.

End Roles.

Lemma AddNode_role_policies_witness :
  let created :=
    run (AWS.AddNode (Fake.vendor Fake.no_faults) spec_constants OnePerLoop
           Scenario.add_request) Scenario.bare in
  let reused :=
    run (AWS.AddNode (Fake.vendor Fake.no_faults) spec_constants OnePerLoop
           Scenario.add_request)
      (Fake.mkWorld [Scenario.cluster] []
         [Role.mk AWS.AWS_NODE_GROUP_ROLE_NAME (Some "arn:aws:iam::000000000000:role/nodes")]
         []) in
  let refused :=
    run (AWS.AddNode (Fake.vendor (Fake.failing Fake.AttachPolicy Scenario.denied))
           spec_constants OnePerLoop Scenario.add_request) Scenario.bare in
  attachments (trace created.2) = node_policies AWS.AWS_NODE_GROUP_ROLE_NAME
  /\ (attachments (trace reused.2) = []
      /\ List.filter is_create_role (trace reused.2) = [])
  /\ (refused.1 = Done (None, Some Scenario.denied)
      /\ List.filter is_create_nodegroup (trace refused.2) = []).
Proof.
  intros created reused refused. split; [| split].
  - pose proof (AddNode_role_policies (Fake.vendor Fake.no_faults)
                  spec_constants OnePerLoop Scenario.add_request Scenario.bare)
      as (_ & _ & _ & _ & H).
    eapply (H Scenario.session "node group instance policy role"
              AWS.EC2_ASSUME_ROLE_DOC
              (Role.mk AWS.AWS_NODE_GROUP_ROLE_NAME _) Scenario.session).
    + vm_compute. pick_event.
    + vm_compute. pick_event.
  - pose proof (AddNode_role_policies (Fake.vendor Fake.no_faults)
                  spec_constants OnePerLoop Scenario.add_request
                  (Fake.mkWorld [Scenario.cluster] []
                     [Role.mk AWS.AWS_NODE_GROUP_ROLE_NAME
                        (Some "arn:aws:iam::000000000000:role/nodes")] []))
      as (H & _).
    eapply (H Scenario.session AWS.AWS_NODE_GROUP_ROLE_NAME).
    vm_compute. pick_event.
  - pose proof (AddNode_role_policies
                  (Fake.vendor (Fake.failing Fake.AttachPolicy Scenario.denied))
                  spec_constants OnePerLoop Scenario.add_request Scenario.bare)
      as (_ & _ & _ & H & _).
    eapply (H Scenario.session AWS.AWS_NODE_GROUP_ROLE_NAME
              AWS.EKS_WORKER_NODE_POLICY_ARN Scenario.denied).
    vm_compute. pick_event.
Defined.

(* ===================================================================== *)
(** ** The label map of a new node group *)
(* ===================================================================== *)

Section LabelCells.
Import Cells.

(** After the loop over the caller's labels, with one variable for the
    whole loop, every key of the caller leads to that variable, which
    holds the value visited last; the other keys are as they were. *)
Lemma range_shared_spec (pv : loc) (entries : list (string * string)) :
  forall (labels labels' : gmap string loc) (h h' : heap),
    (pv < length h)%nat ->
    AWS.range_shared pv entries labels h = (labels', h') ->
    (forall k, k ∈ entries.*1 -> labels' !! k = Some pv)
    /\ (forall k, k ∉ entries.*1 -> labels' !! k = labels !! k)
    /\ (forall kl vl, last entries = Some (kl, vl) -> h' !! pv = Some vl).
Proof.
  induction entries as [|[k s] rest IH]; intros labels labels' h h' Hpv Hrun;
    simpl in *.
  - simplify_eq. repeat split; [by intros k ?%elem_of_nil | done].
  - pose proof Hrun as Hrun'.
    apply IH in Hrun as (Hkeys & Hother & Hlast);
      [| unfold store, heap, loc in *; by rewrite length_insert].
    repeat split.
    + intros k' [-> | Hin]%elem_of_cons; [| by apply Hkeys].
      destruct (decide (k ∈ rest.*1)) as [Hin | Hnot]; [by apply Hkeys |].
      by rewrite Hother, lookup_insert_eq.
    + intros k' [Hne Hnot]%not_elem_of_cons.
      by rewrite Hother, lookup_insert_ne.
    + intros kl vl Hl. destruct rest as [|e rest].
      * simpl in *. simplify_eq. unfold store, heap, loc in *.
        by apply list_lookup_insert_eq.
      * apply (Hlast kl). by rewrite last_cons_cons in Hl.
Qed.

End LabelCells.

Section Labels.
Context (K : Constants).
Import Cells.

Lemma set_caller_labels_shared (entries : list (string * string))
    (labels labels' : gmap string loc) (h h' : heap) (k kl vl : string) :
  AWS.set_caller_labels OnePerLoop entries labels h = (labels', h') ->
  last entries = Some (kl, vl) ->
  k ∈ entries.*1 ->
  resolve h' labels' !! k = Some vl.
Proof.
  unfold AWS.set_caller_labels, new. intros Hrun Hlast Hk.
  apply range_shared_spec in Hrun as (Hkeys & _ & Hcell);
    [| unfold heap in *; rewrite length_app; simpl; lia].
  unfold resolve, load. rewrite lookup_omap, (Hkeys _ Hk). simpl.
  by eapply Hcell.
Qed.

(** C2: with one loop variable for the [range] over the caller's labels
    (Go before 1.22), every key the caller supplies ends up with the
    value of the label visited last, in the map copied from a donor and
    in the map built from the cluster alike, so two caller labels with
    different values are never both delivered. *)
Theorem caller_labels_share_one_cell (defaultNode : Nodegroup.t)
    (nodeSpec : NodeSpec.t) (k kl vl : string) :
  last (NodeSpec.Labels nodeSpec) = Some (kl, vl) ->
  k ∈ (NodeSpec.Labels nodeSpec).*1 ->
  AWS.labels_from_default K OnePerLoop defaultNode nodeSpec !! k = Some vl
  /\ AWS.labels_from_cluster K OnePerLoop nodeSpec !! k = Some vl.
Proof.
  intros Hlast Hk. unfold AWS.labels_from_default, AWS.labels_from_cluster.
  destruct (AWS.system_labels K nodeSpec []) as [labels0 h0].
  destruct (AWS.copy_donor_labels _ labels0 h0) as [labels1 h1].
  destruct (AWS.set_caller_labels _ _ labels1 h1) as [labels2 h2] eqn:H2.
  destruct (AWS.set_caller_labels _ _ labels0 h0) as [labels3 h3] eqn:H3.
  split; by eapply set_caller_labels_shared.
Qed.

End Labels.

Lemma caller_labels_share_one_cell_witness :
  (AWS.labels_from_default spec_constants OnePerLoop Scenario.donor
     Scenario.gpu_pool !! "b" = Some "3"
   /\ AWS.labels_from_cluster spec_constants OnePerLoop Scenario.gpu_pool !! "b"
      = Some "3")
  /\ (AWS.labels_from_default spec_constants OnePerLoop Scenario.donor
        Scenario.gpu_pool' !! "c" = Some "9"
      /\ AWS.labels_from_cluster spec_constants OnePerLoop Scenario.gpu_pool' !! "c"
         = Some "9").
Proof.
  split.
  - apply (caller_labels_share_one_cell spec_constants Scenario.donor
             Scenario.gpu_pool "b" "c" "3"); [reflexivity |].
    apply list_elem_of_here.
  - apply (caller_labels_share_one_cell spec_constants Scenario.donor
             Scenario.gpu_pool' "c" "b" "9"); [reflexivity |].
    apply list_elem_of_here.
Defined.

(** The label map of section 8 is delivered in neither order of visit:
    visiting b then c gives b the value 3, visiting c then b gives c the
    value 9; the donor's label a and the system labels are as expected. *)
Lemma label_merge_example_fails :
  AWS.labels_from_default spec_constants OnePerLoop Scenario.donor
    Scenario.gpu_pool
  = <["b" := "3"]> Scenario.expected_labels
  /\ AWS.labels_from_default spec_constants OnePerLoop Scenario.donor
       Scenario.gpu_pool'
     = <["c" := "9"]> Scenario.expected_labels
  /\ <["b" := "3"]> Scenario.expected_labels <> Scenario.expected_labels
  /\ <["c" := "9"]> Scenario.expected_labels <> Scenario.expected_labels.
Proof.
  split; [vm_compute; reflexivity |]. split; [vm_compute; reflexivity |].
  split; intros H.
  - apply (f_equal (fun m => m !! "b")) in H. vm_compute in H. discriminate.
  - apply (f_equal (fun m => m !! "c")) in H. vm_compute in H. discriminate.
Qed.

(** With a loop variable per iteration (Go 1.22 and later) the same
    inputs give the label map of section 8, in either order of visit. *)
Lemma label_merge_example_per_iteration :
  AWS.labels_from_default spec_constants OnePerIteration Scenario.donor
    Scenario.gpu_pool
  = Scenario.expected_labels
  /\ AWS.labels_from_default spec_constants OnePerIteration Scenario.donor
       Scenario.gpu_pool'
     = Scenario.expected_labels.
Proof. split; vm_compute; reflexivity. Qed.

(* ===================================================================== *)
(** ** Failures and what becomes of them *)
(* ===================================================================== *)

Section Failures.
Context {W : Type} (V : Vendor W) (K : Constants) (rv : range_variable).

(** C4: a vendor error that is not a not-found answer is not always
    returned to the caller. (1) CreateCluster, lines 495-515: after a
    describe call that failed with another code no branch returns the
    error, and the run ends in a nil dereference, after no other call.
    (2) AddNode, lines 856-879: a failed listing of the node groups is
    compared with the two error values of the package only; the run goes
    on to the create call with a nil input and answers as that call
    answers, with no error at all if it succeeds. (3) GetToken, lines
    955-957: the error of the describe call is overwritten by the next
    assignment before anything reads it, and the run answers as
    getKubeConfig answers. In none of the three is a call made again. *)
Theorem vendor_errors_not_returned :
  (forall (req : ClusterRequest.t) (w w1 w2 : W) (e : error) (code : string),
     let region := ClusterRequest.Region req in
     let account := ClusterRequest.AccountName req in
     let s := Session.mk region account in
     let name := AWS.cluster_name_of req in
     v_NewSession V region account w = (None, w1) ->
     v_DescribeCluster V s name w1 = (Err e, w2) ->
     awserr_Code e = Some code ->
     code <> AWS.ErrCodeResourceNotFoundException ->
     run (AWS.CreateCluster V req) w
     = (Panic nil_dereference,
        mkState w2
          [ENewSession region account None;
           ELog LDebug "checking cluster status for '%s', region '%s'"
             [name; region];
           EDescribeCluster s name (Err e)])) /\
  (forall (req : NodeSpawnRequest.t) (nodeSpec : NodeSpec.t) (w w1 w2 w3 : W)
          (e : error) (r : result Nodegroup.t),
     let region := NodeSpawnRequest.Region req in
     let account := NodeSpawnRequest.AccountName req in
     let s := Session.mk region account in
     let cluster := NodeSpawnRequest.ClusterName req in
     NodeSpawnRequest.NodeSpec req = Some nodeSpec ->
     v_NewSession V region account w = (None, w1) ->
     v_ListNodegroups V s cluster w1 = (Err e, w2) ->
     e <> ERR_NODEGROUP_EXIST -> e <> ERR_NO_NODEGROUP ->
     v_CreateNodegroup V s None w2 = (r, w3) ->
     exists st,
       run (AWS.AddNode V K rv req) w
       = (Done match r with
               | Ok _ => (Some NodeSpawnResponse.mk, None)
               | Err e' => (None, Some e')
               end, st)
       /\ List.filter (fun ev => negb (is_log ev)) (trace st)
          = [ENewSession region account None;
             EListNodegroups s cluster (Err e);
             ECreateNodegroup s None r]
       /\ world st = w3) /\
  (forall (req : GetTokenRequest.t) (w w1 w2 w3 : W) (e : error)
          (k : option KubeConfig.t * option error),
     let region := GetTokenRequest.Region req in
     let account := GetTokenRequest.AccountName req in
     let s := Session.mk region account in
     let name := GetTokenRequest.ClusterName req in
     v_NewSession V region account w = (None, w1) ->
     v_DescribeCluster V s name w1 = (Err e, w2) ->
     v_getKubeConfig V s None w2 = (k, w3) ->
     exists st,
       run (AWS.GetToken V req) w
       = (match k with
          | (_, Some e') => Done (None, Some e')
          | (Some kc, None) =>
              Done (Some (GetTokenResponse.mk (KubeConfig.BearerToken kc)
                            (KubeConfig.CAData kc) (KubeConfig.Host kc)), None)
          | (None, None) => Panic nil_dereference
          end, st)
       /\ List.filter (fun ev => negb (is_log ev)) (trace st)
          = [ENewSession region account None;
             EDescribeCluster s name (Err e);
             EGetKubeConfig s None k]
       /\ world st = w3).
Proof.
  split; [| split].
  - intros req w w1 w2 e code region account s name Hs Hd Hcode Hne.
    subst region account s name. answer Hs. rewrite Hd. simpl. rewrite Hcode.
    apply String.eqb_neq in Hne. by rewrite Hne.
  - intros req nodeSpec w w1 w2 w3 e r region account s cluster
      Hspec Hs Hl He1 He2 Hc.
    subst region account s cluster. answer Hs. answer Hspec. answer Hl.
    unfold Is. rewrite !bool_decide_eq_false_2 by done. simpl.
    rewrite Hc. destruct r; simpl; eexists; by repeat split.
  - intros req w w1 w2 w3 e k region account s name Hs Hd Hk.
    subst region account s name. answer Hs. rewrite Hd. simpl. rewrite Hk.
    destruct k as [[kc|] [e'|]]; simpl; eexists; by repeat split.
Qed.

End Failures.

Lemma vendor_errors_not_returned_witness :
  let invalid := AwsError "InvalidParameter" "3 validation error(s) found." in
  let no_endpoint := Errorf "cluster has no endpoint" in
  run (AWS.CreateCluster
         (Fake.vendor (Fake.failing Fake.DescribeCluster Scenario.denied))
         Scenario.create_request) Fake.empty
  = (Panic nil_dereference,
     mkState Fake.empty
       [ENewSession "us-east-1" "acme" None;
        ELog LDebug "checking cluster status for '%s', region '%s'"
          ["aws-us-east-1"; "us-east-1"];
        EDescribeCluster Scenario.session "aws-us-east-1" (Err Scenario.denied)])
  /\ (exists st,
        run (AWS.AddNode
               (Fake.vendor (Fake.failing Fake.ListNodegroups Scenario.denied))
               spec_constants OnePerLoop Scenario.add_request) Scenario.with_donor
        = (Done (None, Some invalid), st)
        /\ List.filter (fun ev => negb (is_log ev)) (trace st)
           = [ENewSession "us-east-1" "acme" None;
              EListNodegroups Scenario.session "prod" (Err Scenario.denied);
              ECreateNodegroup Scenario.session None (Err invalid)]
        /\ world st = Scenario.with_donor)
  /\ (exists st,
        run (AWS.GetToken
               (Fake.vendor (Fake.failing Fake.DescribeCluster Scenario.denied))
               (GetTokenRequest.mk "aws" "us-east-1" "acme" "prod")) Scenario.bare
        = (Done (None, Some no_endpoint), st)
        /\ List.filter (fun ev => negb (is_log ev)) (trace st)
           = [ENewSession "us-east-1" "acme" None;
              EDescribeCluster Scenario.session "prod" (Err Scenario.denied);
              EGetKubeConfig Scenario.session None (None, Some no_endpoint)]
        /\ world st = Scenario.bare).
Proof.
  intros invalid no_endpoint. split; [| split].
  - apply (proj1 (vendor_errors_not_returned
                    (Fake.vendor (Fake.failing Fake.DescribeCluster Scenario.denied))
                    spec_constants OnePerLoop)
             Scenario.create_request Fake.empty Fake.empty Fake.empty
             Scenario.denied "AccessDeniedException").
    + reflexivity.
    + reflexivity.
    + reflexivity.
    + discriminate.
  - apply (proj1 (proj2 (vendor_errors_not_returned
                           (Fake.vendor (Fake.failing Fake.ListNodegroups Scenario.denied))
                           spec_constants OnePerLoop))
             Scenario.add_request Scenario.gpu_pool Scenario.with_donor
             Scenario.with_donor Scenario.with_donor Scenario.with_donor
             Scenario.denied (Err invalid)).
    + reflexivity.
    + reflexivity.
    + reflexivity.
    + discriminate.
    + discriminate.
    + reflexivity.
  - apply (proj2 (proj2 (vendor_errors_not_returned
                           (Fake.vendor (Fake.failing Fake.DescribeCluster Scenario.denied))
                           spec_constants OnePerLoop))
             (GetTokenRequest.mk "aws" "us-east-1" "acme" "prod") Scenario.bare
             Scenario.bare Scenario.bare Scenario.bare Scenario.denied
             (None, Some no_endpoint)).
    + reflexivity.
    + reflexivity.
    + reflexivity.
Defined.

(* ===================================================================== *)
(** ** GetCluster *)
(* ===================================================================== *)

Lemma foldl_snoc_map {A B} (f : A -> B) (l : list A) (acc : list B) :
  foldl (fun acc a => acc ++ [f a]) acc l = acc ++ (f <$> l).
Proof.
  revert acc. induction l as [|a l IH]; intros acc; simpl.
  - by rewrite app_nil_r.
  - by rewrite IH, <- app_assoc.
Qed.

Lemma node_state_active (conditions : list NodeCondition.t) (state : string) :
  AWSNodes.node_state conditions state
  = if existsb (fun c => String.eqb (NodeCondition.Type_ c) "Ready") conditions
    then "active" else state.
Proof.
  revert state. induction conditions as [|c cs IH]; intros state; [done |].
  unfold AWSNodes.node_state in *. simpl. rewrite IH.
  destruct (String.eqb (NodeCondition.Type_ c) "Ready"); simpl; [| done].
  by destruct (existsb _ cs).
Qed.

Lemma node_addresses_last (addresses : list NodeAddress.t)
    (ipAddr hostName : string) :
  let of_type t :=
    NodeAddress.Address
      <$> List.filter (fun a => String.eqb (NodeAddress.Type_ a) t) addresses in
  AWSNodes.node_addresses addresses ipAddr hostName
  = (default ipAddr (last (of_type "InternalIP")),
     default hostName (last (of_type "HostName"))).
Proof.
  revert ipAddr hostName.
  induction addresses as [|a l IH]; intros ipAddr hostName; [done |].
  unfold AWSNodes.node_addresses in *. simpl in *.
  destruct (String.eqb (NodeAddress.Type_ a) "InternalIP") eqn:Hip.
  - assert (Hh : String.eqb (NodeAddress.Type_ a) "HostName" = false).
    { apply String.eqb_eq in Hip. by rewrite Hip. }
    rewrite Hh, IH. simpl. f_equal. rewrite last_cons. unfold fmap.
    by match goal with |- context [last ?x] => destruct (last x) end.
  - destruct (String.eqb (NodeAddress.Type_ a) "HostName") eqn:Hh;
      rewrite IH; [| done].
    simpl. f_equal. rewrite last_cons. unfold fmap.
    by match goal with |- context [last ?x] => destruct (last x) end.
Qed.

Section GetCluster.
Context {W : Type} (V : Vendor W) (Kb : Kube W).

(** X1: when the session opens, the cluster is described, the client for
    its API server is made and the nodes are listed, GetCluster answers
    under the cluster name of the request with one entry per node of the
    listing, in the order of the listing, each under the name of its
    node, and issues no create, delete or role call. *)
Theorem GetCluster_lists_nodes (req : GetClusterRequest.t) (w w1 w2 w3 w4 : W)
    (c : Cluster.t) (items : list Node.t) :
  let s := Session.mk (GetClusterRequest.Region req)
             (GetClusterRequest.AccountName req) in
  v_NewSession V (GetClusterRequest.Region req)
    (GetClusterRequest.AccountName req) w = (None, w1) ->
  v_DescribeCluster V s (GetClusterRequest.ClusterName req) w1 = (Ok c, w2) ->
  k_getK8sClient Kb s (Some c) w2 = (None, w3) ->
  k_ListNodes Kb s (Some c) w3 = (Ok items, w4) ->
  exists resp st,
    run (AWSNodes.GetCluster V Kb req) w = (Done (Some resp, None), st)
    /\ ClusterInfo.Name resp = GetClusterRequest.ClusterName req
    /\ ClusterInfo.NodeSpec resp = AWSNodes.node_info <$> items
    /\ NodeInfo.Name <$> ClusterInfo.NodeSpec resp = Node.Name <$> items
    /\ world st = w4.
Proof.
  intros s Hs Hd Hk Hl. subst s.
  unfold AWSNodes.GetCluster, call. answer Hs. rewrite Hd. simpl.
  rewrite Hk. simpl. rewrite Hl. simpl.
  eexists _, _. split; [reflexivity |]. simpl.
  rewrite foldl_snoc_map. simpl.
  repeat split. rewrite <- list_fmap_compose. apply list_fmap_ext.
  intros i n _. simpl. unfold AWSNodes.node_info.
  by destruct (AWSNodes.node_addresses _ _ _).
Qed.

(** X2: GetCluster stops at the first step that fails and returns that
    step's error with no response: a session that cannot be opened (the
    debug line is written all the same), a failed describe call, a client
    for the API server that cannot be made (the nodes are not asked for),
    a failed node listing. *)
Theorem GetCluster_failures (req : GetClusterRequest.t) (w : W) :
  let region := GetClusterRequest.Region req in
  let name := GetClusterRequest.ClusterName req in
  let s := Session.mk region (GetClusterRequest.AccountName req) in
  let opened := ENewSession region (GetClusterRequest.AccountName req) in
  let debug := ELog LDebug "fetching cluster status for '%s', region '%s'"
                 [name; region] in
  (forall e w1,
     v_NewSession V region (GetClusterRequest.AccountName req) w = (Some e, w1) ->
     run (AWSNodes.GetCluster V Kb req) w
     = (Done (None, Some e), mkState w1 [opened (Some e); debug])) /\
  (forall e w1 w2,
     v_NewSession V region (GetClusterRequest.AccountName req) w = (None, w1) ->
     v_DescribeCluster V s name w1 = (Err e, w2) ->
     run (AWSNodes.GetCluster V Kb req) w
     = (Done (None, Some e),
        mkState w2 [opened None; debug; EDescribeCluster s name (Err e);
                    ELog LError "failed to fetch cluster status" [Error e]])) /\
  (forall c e w1 w2 w3,
     v_NewSession V region (GetClusterRequest.AccountName req) w = (None, w1) ->
     v_DescribeCluster V s name w1 = (Ok c, w2) ->
     k_getK8sClient Kb s (Some c) w2 = (Some e, w3) ->
     run (AWSNodes.GetCluster V Kb req) w
     = (Done (None, Some e),
        mkState w3 [opened None; debug; EDescribeCluster s name (Ok c);
                    ELog LError " Failed to create kube client " [Error e]])) /\
  (forall c e w1 w2 w3 w4,
     v_NewSession V region (GetClusterRequest.AccountName req) w = (None, w1) ->
     v_DescribeCluster V s name w1 = (Ok c, w2) ->
     k_getK8sClient Kb s (Some c) w2 = (None, w3) ->
     k_ListNodes Kb s (Some c) w3 = (Err e, w4) ->
     run (AWSNodes.GetCluster V Kb req) w
     = (Done (None, Some e),
        mkState w4 [opened None; debug; EDescribeCluster s name (Ok c);
                    ELog LError " Failed to query node list " [Error e]])).
Proof.
  intros region name s opened debug. subst region name s opened debug.
  unfold AWSNodes.GetCluster, call.
  repeat split.
  - intros e w1 Hs. by answer Hs.
  - intros e w1 w2 Hs Hd. answer Hs. by rewrite Hd.
  - intros c e w1 w2 w3 Hs Hd Hk. answer Hs. rewrite Hd. simpl. by rewrite Hk.
  - intros c e w1 w2 w3 w4 Hs Hd Hk Hl. answer Hs. rewrite Hd. simpl.
    rewrite Hk. simpl. by rewrite Hl.
Qed.

End GetCluster.

(** X3: a node is reported active exactly when it carries a condition of
    type Ready, whatever the status of that condition (True, False or
    Unknown), and inactive otherwise. *)
Theorem node_active_iff_ready_condition (node : Node.t) :
  (NodeInfo.State (AWSNodes.node_info node) = "active"
   <-> exists c, c ∈ Node.Conditions node /\ NodeCondition.Type_ c = "Ready")
  /\ (NodeInfo.State (AWSNodes.node_info node) = "inactive"
      <-> ~ exists c, c ∈ Node.Conditions node /\ NodeCondition.Type_ c = "Ready").
Proof.
  assert (Hst : NodeInfo.State (AWSNodes.node_info node)
                = AWSNodes.node_state (Node.Conditions node) "inactive").
  { unfold AWSNodes.node_info. by destruct (AWSNodes.node_addresses _ _ _). }
  rewrite Hst, node_state_active.
  destruct (existsb _ _) eqn:Hex.
  - apply existsb_exists in Hex as (c & Hin & Hc).
    apply String.eqb_eq in Hc. apply list_elem_of_In in Hin.
    split; split; try done; [by eauto |]. intros H; destruct H; eauto.
  - split; split; try done.
    + intros (c & Hin & Hc). apply list_elem_of_In in Hin.
      assert (existsb (fun c => String.eqb (NodeCondition.Type_ c) "Ready")
                (Node.Conditions node) = true); [| congruence].
      apply existsb_exists. exists c. split; [done |]. by apply String.eqb_eq.
    + intros _ (c & Hin & Hc). apply list_elem_of_In in Hin.
      assert (existsb (fun c => String.eqb (NodeCondition.Type_ c) "Ready")
                (Node.Conditions node) = true); [| congruence].
      apply existsb_exists. exists c. split; [done |]. by apply String.eqb_eq.
Qed.

(** X4: the address reported for a node is the last of its addresses of
    type InternalIP, and the empty string when it has none; the host
    name reported is the last of its addresses of type HostName, and the
    name of the node when it has none. *)
Theorem node_addresses_reported (node : Node.t) :
  let of_type t :=
    NodeAddress.Address
      <$> List.filter (fun a => String.eqb (NodeAddress.Type_ a) t)
            (Node.Addresses node) in
  NodeInfo.IpAddr (AWSNodes.node_info node)
  = default EmptyString (last (of_type "InternalIP"))
  /\ NodeInfo.HostName (AWSNodes.node_info node)
     = default (Node.Name node) (last (of_type "HostName")).
Proof.
  intros of_type. subst of_type. unfold AWSNodes.node_info.
  rewrite node_addresses_last. by split.
Qed.

(** X5: the disk size reported for a node always fits 32 bits; it is the
    node's ephemeral storage in whole MiB, rounded down, as long as that
    storage is below 2 PiB (2^51 bytes), and it wraps around from there:
    a node with exactly 2^51 bytes is reported with a negative size. *)
Theorem node_disk_size_MiB (node : Node.t) :
  (- 2 ^ 31 <= NodeInfo.DiskSize (AWSNodes.node_info node) < 2 ^ 31)
  /\ (0 <= Node.StorageEphemeral node < 2 ^ 51 ->
      NodeInfo.DiskSize (AWSNodes.node_info node)
      = Node.StorageEphemeral node / 2 ^ 20)
  /\ (Node.StorageEphemeral node = 2 ^ 51 ->
      NodeInfo.DiskSize (AWSNodes.node_info node) = - 2 ^ 31).
Proof.
  assert (Hd : NodeInfo.DiskSize (AWSNodes.node_info node)
               = int32 (Node.StorageEphemeral node ÷ 1024 ÷ 1024)).
  { unfold AWSNodes.node_info. by destruct (AWSNodes.node_addresses _ _ _). }
  rewrite Hd. unfold int32. split; [| split].
  - pose proof (Z.mod_pos_bound (Node.StorageEphemeral node ÷ 1024 ÷ 1024 + 2 ^ 31)
                  (2 ^ 32)). lia.
  - intros [Hlo Hhi].
    rewrite (Z.quot_div_nonneg (Node.StorageEphemeral node) 1024) by lia.
    rewrite Z.quot_div_nonneg by (try lia; apply Z.div_pos; lia).
    rewrite Z.div_div by lia. change (1024 * 1024) with (2 ^ 20).
    assert (0 <= Node.StorageEphemeral node / 2 ^ 20 < 2 ^ 31).
    { split; [apply Z.div_pos; lia |].
      apply Z.div_lt_upper_bound; [lia |]. change (2 ^ 20 * 2 ^ 31) with (2 ^ 51).
      lia. }
    rewrite Z.mod_small by lia. lia.
  - intros ->. reflexivity.
Qed.

Lemma GetCluster_lists_nodes_witness :
  exists resp st,
    run (AWSNodes.GetCluster (Fake.vendor Fake.no_faults)
           (fake_kube None (Ok [Fixtures.worker])) Fixtures.get_request)
      Scenario.bare
    = (Done (Some resp, None), st)
    /\ ClusterInfo.Name resp = "prod"
    /\ ClusterInfo.NodeSpec resp = AWSNodes.node_info <$> [Fixtures.worker]
    /\ NodeInfo.Name <$> ClusterInfo.NodeSpec resp
       = Node.Name <$> [Fixtures.worker]
    /\ world st = Scenario.bare.
Proof.
  apply (GetCluster_lists_nodes (Fake.vendor Fake.no_faults)
           (fake_kube None (Ok [Fixtures.worker])) Fixtures.get_request
           Scenario.bare Scenario.bare Scenario.bare Scenario.bare Scenario.bare
           Scenario.cluster [Fixtures.worker]);
    reflexivity.
Defined.

Lemma GetCluster_failures_witness :
  run (AWSNodes.GetCluster (Fake.vendor Fake.no_faults)
         (fake_kube (Some Scenario.denied) (Ok [Fixtures.worker]))
         Fixtures.get_request) Scenario.bare
  = (Done (None, Some Scenario.denied),
     mkState Scenario.bare
       [ENewSession "us-east-1" "acme" None;
        ELog LDebug "fetching cluster status for '%s', region '%s'"
          ["prod"; "us-east-1"];
        EDescribeCluster Scenario.session "prod" (Ok Scenario.cluster);
        ELog LError " Failed to create kube client " [Error Scenario.denied]])
  /\ run (AWSNodes.GetCluster (Fake.vendor Fake.no_faults)
            (fake_kube None (Err Scenario.denied)) Fixtures.get_request)
       Scenario.bare
     = (Done (None, Some Scenario.denied),
        mkState Scenario.bare
          [ENewSession "us-east-1" "acme" None;
           ELog LDebug "fetching cluster status for '%s', region '%s'"
             ["prod"; "us-east-1"];
           EDescribeCluster Scenario.session "prod" (Ok Scenario.cluster);
           ELog LError " Failed to query node list " [Error Scenario.denied]]).
Proof.
  split.
  - apply (proj1 (proj2 (proj2
             (GetCluster_failures (Fake.vendor Fake.no_faults)
                (fake_kube (Some Scenario.denied) (Ok [Fixtures.worker]))
                Fixtures.get_request Scenario.bare)))
             Scenario.cluster Scenario.denied Scenario.bare Scenario.bare
             Scenario.bare); reflexivity.
  - apply (proj2 (proj2 (proj2
             (GetCluster_failures (Fake.vendor Fake.no_faults)
                (fake_kube None (Err Scenario.denied))
                Fixtures.get_request Scenario.bare)))
             Scenario.cluster Scenario.denied Scenario.bare Scenario.bare
             Scenario.bare Scenario.bare); reflexivity.
Defined.

Lemma node_active_iff_ready_condition_witness :
  NodeInfo.State (AWSNodes.node_info Fixtures.worker) = "active".
Proof.
  apply (proj2 (proj1 (node_active_iff_ready_condition Fixtures.worker))).
  exists (NodeCondition.mk "Ready" "False"). split; [| reflexivity].
  apply list_elem_of_further, list_elem_of_here.
Defined.

Lemma node_disk_size_MiB_witness :
  NodeInfo.DiskSize (AWSNodes.node_info Fixtures.worker) = 107361579008 / 2 ^ 20.
Proof.
  apply (proj1 (proj2 (node_disk_size_MiB Fixtures.worker))).
  simpl. lia.
Defined.

(* ===================================================================== *)
(** ** What GetClusters returns *)
(* ===================================================================== *)

Section Listing.
Context {W : Type} (V : Vendor W).

(** The two loops only add to the trace, and what they add asks the
    vendor for no change. *)
Lemma nodegroup_details_reads (s : Session.t) (cluster : string)
    (names : list string) :
  forall (nodes : list NodeSpec.t) (st : state W),
  exists new,
    trace (AWS.nodegroup_details V s cluster names nodes st).2 = trace st ++ new
    /\ Forall (fun ev => is_mutation ev = false) new.
Proof.
  induction names as [|n names IH]; intros nodes st; simpl.
  - exists []. by rewrite app_nil_r.
  - unfold_engine. simpl.
    destruct (v_DescribeNodegroup V s cluster n (world st)) as [[ng|e] w'];
      simpl.
    + destruct (Nodegroup.InstanceTypes ng) as [[|i l]|]; simpl.
      * eexists. split; [reflexivity |]. by repeat constructor.
      * match goal with
        | |- context [AWS.nodegroup_details V s cluster names ?a ?b] =>
            destruct (IH a b) as (new & -> & Hnew)
        end.
        simpl. eexists. rewrite <- app_assoc. split; [reflexivity |].
        by constructor.
      * match goal with
        | |- context [AWS.nodegroup_details V s cluster names ?a ?b] =>
            destruct (IH a b) as (new & -> & Hnew)
        end.
        simpl. eexists. rewrite <- app_assoc. split; [reflexivity |].
        by constructor.
    + eexists. rewrite <- app_assoc. split; [reflexivity |].
      by repeat constructor.
Qed.

Lemma cluster_details_reads (s : Session.t) (clusters : list string) :
  forall (acc : list ClusterSpec.t) (st : state W),
  exists new,
    trace (AWS.cluster_details V s clusters acc st).2 = trace st ++ new
    /\ Forall (fun ev => is_mutation ev = false) new.
Proof.
  induction clusters as [|c clusters IH]; intros acc st; simpl.
  - exists []. by rewrite app_nil_r.
  - unfold_engine. simpl.
    destruct (v_ListNodegroups V s c (world st)) as [[names|e] w']; simpl.
    + match goal with
      | |- context [AWS.nodegroup_details V s c names ?a ?b] =>
          destruct (nodegroup_details_reads s c names a b) as (new & Hnew & Hq);
          destruct (AWS.nodegroup_details V s c names a b) as [[nodes|why] st1]
      end; simpl in *.
      * match goal with
        | |- context [AWS.cluster_details V s clusters ?a ?b] =>
            destruct (IH a b) as (new' & -> & Hq')
        end.
        rewrite Hnew. eexists. rewrite <- !app_assoc. split; [reflexivity |].
        simpl. constructor; [done |]. by apply Forall_app.
      * rewrite Hnew. eexists. rewrite <- !app_assoc. split; [reflexivity |].
        simpl. by constructor.
    + match goal with
      | |- context [AWS.cluster_details V s clusters ?a ?b] =>
          destruct (IH a b) as (new' & -> & Hq')
      end.
      simpl. eexists. rewrite <- !app_assoc. split; [reflexivity |].
      simpl. by repeat constructor.
Qed.

Lemma nodegroup_details_trace (s : Session.t) (cluster : string)
    (names : list string) (nodes : list NodeSpec.t) (st : state W) :
  exists new,
    trace (AWS.nodegroup_details V s cluster names nodes st).2 = trace st ++ new.
Proof.
  destruct (nodegroup_details_reads s cluster names nodes st) as (new & H & _).
  by exists new.
Qed.

Lemma cluster_details_trace (s : Session.t) (clusters : list string)
    (acc : list ClusterSpec.t) (st : state W) :
  exists new,
    trace (AWS.cluster_details V s clusters acc st).2 = trace st ++ new.
Proof.
  destruct (cluster_details_reads s clusters acc st) as (new & H & _).
  by exists new.
Qed.

(** The inner loop reports the node groups it was given, in order. *)
Lemma nodegroup_details_names (s : Session.t) (cluster : string)
    (names : list string) :
  forall (nodes nodes' : list NodeSpec.t) (st st' : state W),
    AWS.nodegroup_details V s cluster names nodes st = (Done nodes', st') ->
    NodeSpec.Name <$> nodes' = (NodeSpec.Name <$> nodes) ++ names.
Proof.
  induction names as [|n names IH]; intros nodes nodes' st st'; simpl.
  - unfold ret. intros; simplify_eq. by rewrite app_nil_r.
  - unfold_engine. simpl.
    destruct (v_DescribeNodegroup V s cluster n (world st)) as [[ng|e] w'];
      simpl; [| done].
    destruct (Nodegroup.InstanceTypes ng) as [[|i l]|]; simpl; [done | |].
    all: intros H; apply IH in H; rewrite H, fmap_app, <- app_assoc; simpl.
    all: by destruct (Nodegroup.DiskSize ng).
Qed.

(** The outer loop reports the clusters it was given, in order, each
    with the node groups of the listing made for it. *)
Lemma cluster_details_spec (s : Session.t) (clusters : list string) :
  forall (acc specs : list ClusterSpec.t) (st st' : state W),
    AWS.cluster_details V s clusters acc st = (Done specs, st') ->
    exists added,
      specs = acc ++ added
      /\ ClusterSpec.Name <$> added = clusters
      /\ Forall (fun spec =>
                   exists r,
                     EListNodegroups s (ClusterSpec.Name spec) r ∈ trace st'
                     /\ NodeSpec.Name <$> ClusterSpec.NodeSpec spec
                        = default [] (pair_of r).1) added.
Proof.
  induction clusters as [|c clusters IH]; intros acc specs st st'; simpl.
  - unfold ret. intros; simplify_eq. exists []. by rewrite app_nil_r.
  - unfold_engine. simpl.
    destruct (v_ListNodegroups V s c (world st)) as [r w'] eqn:Hl.
    assert (Hstep : forall st1 nodes st2,
              trace st1 = trace st ++ [EListNodegroups s c r]
                          \/ (exists l, trace st1
                                        = trace st ++ [EListNodegroups s c r; l]) ->
              AWS.nodegroup_details V s c (default [] (pair_of r).1) [] st1
              = (Done nodes, st2) ->
              AWS.cluster_details V s clusters (acc ++ [ClusterSpec.mk c nodes]) st2
              = (Done specs, st') ->
              exists added,
                specs = acc ++ added
                /\ ClusterSpec.Name <$> added = c :: clusters
                /\ Forall (fun spec =>
                             exists r,
                               EListNodegroups s (ClusterSpec.Name spec) r ∈ trace st'
                               /\ NodeSpec.Name <$> ClusterSpec.NodeSpec spec
                                  = default [] (pair_of r).1) added).
    { intros st1 nodes st2 Ht1 Hn Hc.
      pose proof (nodegroup_details_trace s c (default [] (pair_of r).1) [] st1)
        as (new1 & Hnew1).
      rewrite Hn in Hnew1. simpl in Hnew1.
      pose proof (cluster_details_trace s clusters
                    (acc ++ [ClusterSpec.mk c nodes]) st2) as (new2 & Hnew2).
      rewrite Hc in Hnew2. simpl in Hnew2.
      apply nodegroup_details_names in Hn. simpl in Hn.
      apply IH in Hc as (added & -> & Hnames & Hall).
      exists (ClusterSpec.mk c nodes :: added).
      rewrite <- app_assoc. split; [done |]. split; [by rewrite <- Hnames |].
      constructor; [| done]. exists r. split; [| done]. simpl.
      rewrite Hnew2, Hnew1.
      destruct Ht1 as [-> | (l & ->)]; rewrite <- !app_assoc; simpl.
      all: apply elem_of_app; right; apply list_elem_of_here. }
    destruct r as [names|e]; simpl in *.
    + destruct (AWS.nodegroup_details V s c names [] _) as [[nodes|why] st2] eqn:Hn;
        simpl; [| done].
      intros Hc. eapply Hstep; [| exact Hn | exact Hc]. by left.
    + intros Hc. eapply (Hstep _ [] _); [| reflexivity | exact Hc].
      right. eexists. simpl. by rewrite <- app_assoc.
Qed.

(** X6: when GetClusters answers without an error, the clusters of its
    response are the clusters the vendor listed, each once and in the
    order of the listing, and the nodes of each are, by name and in
    order, the node groups of a listing made for that cluster in this
    call (none where that listing failed). *)
Theorem GetClusters_lists_every_cluster (req : GetClustersRequest.t) (w : W)
    (resp : GetClustersResponse.t) (st : state W) :
  run (AWS.GetClusters V req) w = (Done (Some resp, None), st) ->
  let s := Session.mk (GetClustersRequest.Region req)
             (GetClustersRequest.AccountName req) in
  exists names,
    EListClusters s (Ok names) ∈ trace st
    /\ ClusterSpec.Name <$> GetClustersResponse.Clusters resp = names
    /\ Forall (fun spec =>
                 exists r,
                   EListNodegroups s (ClusterSpec.Name spec) r ∈ trace st
                   /\ NodeSpec.Name <$> ClusterSpec.NodeSpec spec
                      = default [] (pair_of r).1)
         (GetClustersResponse.Clusters resp).
Proof.
  unfold_engine. simpl.
  destruct (v_NewSession V _ _ w) as [[e|] w1]; simpl; [intros; simplify_eq |].
  destruct (v_ListClusters V _ w1) as [[names|e] w2]; simpl;
    [| intros; simplify_eq].
  destruct (AWS.cluster_details V _ names [] _) as [[specs|why] st1] eqn:Hc;
    simpl; [| intros; simplify_eq].
  intros; simplify_eq. simpl.
  match type of Hc with
  | AWS.cluster_details V ?s names [] ?st0 = _ =>
      pose proof (cluster_details_trace s names [] st0) as (new & Hnew)
  end.
  rewrite Hc in Hnew. simpl in Hnew.
  apply cluster_details_spec in Hc as (added & -> & Hnames & Hall).
  exists names. split; [| by split].
  rewrite Hnew. simpl. apply list_elem_of_further, list_elem_of_here.
Qed.

Lemma nodegroup_details_spec (s : Session.t) (cluster : string)
    (names : list string) :
  forall (nodes nodes' : list NodeSpec.t) (st st' : state W),
    AWS.nodegroup_details V s cluster names nodes st = (Done nodes', st') ->
    exists added,
      nodes' = nodes ++ added
      /\ Forall (fun node =>
                   exists ng,
                     EDescribeNodegroup s cluster (NodeSpec.Name node) (Ok ng)
                     ∈ trace st'
                     /\ node = reported (NodeSpec.Name node) ng) added.
Proof.
  induction names as [|n names IH]; intros nodes nodes' st st'; simpl.
  - unfold ret. intros; simplify_eq. exists []. by rewrite app_nil_r.
  - unfold_engine. simpl.
    destruct (v_DescribeNodegroup V s cluster n (world st)) as [[ng|e] w'];
      simpl; [| done].
    assert (Hstep : forall node,
              node = reported n ng ->
              AWS.nodegroup_details V s cluster names (nodes ++ [node])
                (mkState w' (trace st ++ [EDescribeNodegroup s cluster n (Ok ng)]))
              = (Done nodes', st') ->
              exists added,
                nodes' = nodes ++ added
                /\ Forall (fun node =>
                             exists ng,
                               EDescribeNodegroup s cluster (NodeSpec.Name node)
                                 (Ok ng) ∈ trace st'
                               /\ node = reported (NodeSpec.Name node) ng) added).
    { intros node Hnode Hrun.
      pose proof (nodegroup_details_trace s cluster names (nodes ++ [node])
                    (mkState w' (trace st
                                 ++ [EDescribeNodegroup s cluster n (Ok ng)])))
        as (new & Hnew).
      rewrite Hrun in Hnew. simpl in Hnew.
      apply IH in Hrun as (added & -> & Hall).
      exists (node :: added). rewrite <- app_assoc. split; [done |].
      constructor; [| done]. exists ng. subst node. simpl. split; [| done].
      rewrite Hnew, <- app_assoc. apply elem_of_app. right.
      apply list_elem_of_here. }
    destruct (Nodegroup.InstanceTypes ng) as [[|i l]|] eqn:Hi; simpl; [done | |].
    all: apply Hstep; unfold reported; rewrite Hi; simpl.
    all: destruct (Nodegroup.DiskSize ng); simpl; by rewrite ?Z.mod_small.
Qed.

Lemma cluster_details_nodes (s : Session.t) (clusters : list string) :
  forall (acc specs : list ClusterSpec.t) (st st' : state W),
    AWS.cluster_details V s clusters acc st = (Done specs, st') ->
    exists added,
      specs = acc ++ added
      /\ Forall (fun spec =>
                   Forall (fun node =>
                             exists ng,
                               EDescribeNodegroup s (ClusterSpec.Name spec)
                                 (NodeSpec.Name node) (Ok ng) ∈ trace st'
                               /\ node = reported (NodeSpec.Name node) ng)
                     (ClusterSpec.NodeSpec spec)) added.
Proof.
  induction clusters as [|c clusters IH]; intros acc specs st st'; simpl.
  - unfold ret. intros; simplify_eq. exists []. by rewrite app_nil_r.
  - unfold_engine. simpl.
    destruct (v_ListNodegroups V s c (world st)) as [r w'] eqn:Hl.
    assert (Hstep : forall st1 nodes st2,
              AWS.nodegroup_details V s c (default [] (pair_of r).1) [] st1
              = (Done nodes, st2) ->
              AWS.cluster_details V s clusters (acc ++ [ClusterSpec.mk c nodes]) st2
              = (Done specs, st') ->
              exists added,
                specs = acc ++ added
                /\ Forall (fun spec =>
                             Forall (fun node =>
                                       exists ng,
                                         EDescribeNodegroup s (ClusterSpec.Name spec)
                                           (NodeSpec.Name node) (Ok ng) ∈ trace st'
                                         /\ node = reported (NodeSpec.Name node) ng)
                               (ClusterSpec.NodeSpec spec)) added).
    { intros st1 nodes st2 Hn Hc.
      pose proof (cluster_details_trace s clusters
                    (acc ++ [ClusterSpec.mk c nodes]) st2) as (new2 & Hnew2).
      rewrite Hc in Hnew2. simpl in Hnew2.
      apply nodegroup_details_spec in Hn as (added1 & Hadded1 & Hall1).
      simpl in Hadded1. subst added1.
      apply IH in Hc as (added & -> & Hall).
      exists (ClusterSpec.mk c nodes :: added).
      rewrite <- app_assoc. split; [done |].
      constructor; [| done]. simpl.
      eapply Forall_impl; [exact Hall1 |]. simpl.
      intros node (ng & Hin & Hnode). exists ng. split; [| done].
      rewrite Hnew2. apply elem_of_app. by left. }
    destruct r as [names|e]; simpl in *.
    + destruct (AWS.nodegroup_details V s c names [] _) as [[nodes|why] st2] eqn:Hn;
        simpl; [| done].
      intros Hc. eapply Hstep; [exact Hn | exact Hc].
    + intros Hc. eapply (Hstep _ [] _); [reflexivity | exact Hc].
Qed.

(** X7: when GetClusters answers without an error, every node it
    reports stands for a node group that the vendor described, in this
    call and for that cluster, and carries the first instance type of
    that node group (none if it has none) and its disk size cut to 32
    bits (0 if it has none); GetClusters never reports labels or a GPU
    flag for a node. *)
Theorem GetClusters_node_details (req : GetClustersRequest.t) (w : W)
    (resp : GetClustersResponse.t) (st : state W) :
  run (AWS.GetClusters V req) w = (Done (Some resp, None), st) ->
  let s := Session.mk (GetClustersRequest.Region req)
             (GetClustersRequest.AccountName req) in
  Forall (fun spec =>
            Forall (fun node =>
                      (exists ng,
                         EDescribeNodegroup s (ClusterSpec.Name spec)
                           (NodeSpec.Name node) (Ok ng) ∈ trace st
                         /\ node = reported (NodeSpec.Name node) ng)
                      /\ NodeSpec.Labels node = []
                      /\ NodeSpec.GpuEnabled node = false)
              (ClusterSpec.NodeSpec spec))
    (GetClustersResponse.Clusters resp).
Proof.
  unfold_engine. simpl.
  destruct (v_NewSession V _ _ w) as [[e|] w1]; simpl; [intros; simplify_eq |].
  destruct (v_ListClusters V _ w1) as [[names|e] w2]; simpl;
    [| intros; simplify_eq].
  destruct (AWS.cluster_details V _ names [] _) as [[specs|why] st1] eqn:Hc;
    simpl; [| intros; simplify_eq].
  intros; simplify_eq. simpl.
  apply cluster_details_nodes in Hc as (added & -> & Hall). simpl.
  eapply Forall_impl; [exact Hall |]. simpl. intros spec Hspec.
  eapply Forall_impl; [exact Hspec |]. simpl.
  intros node (ng & Hin & Hnode). split; [by exists ng |].
  rewrite Hnode. by split.
Qed.

(** X8: a node group that the vendor describes with a list of instance
    types that is empty, though not nil, makes GetClusters panic with an
    index out of range: the code tests the list for nil only before it
    reads its first entry. *)
Theorem GetClusters_empty_instance_types (req : GetClustersRequest.t)
    (w w1 w2 w3 w4 : W) (cluster nodegroup : string)
    (clusters nodegroups : list string) (ng : Nodegroup.t) :
  let s := Session.mk (GetClustersRequest.Region req)
             (GetClustersRequest.AccountName req) in
  v_NewSession V (GetClustersRequest.Region req)
    (GetClustersRequest.AccountName req) w = (None, w1) ->
  v_ListClusters V s w1 = (Ok (cluster :: clusters), w2) ->
  v_ListNodegroups V s cluster w2 = (Ok (nodegroup :: nodegroups), w3) ->
  v_DescribeNodegroup V s cluster nodegroup w3 = (Ok ng, w4) ->
  Nodegroup.InstanceTypes ng = Some [] ->
  (run (AWS.GetClusters V req) w).1
  = Panic "index out of range [0] with length 0".
Proof.
  intros s Hs Hl Hn Hd Hi. subst s.
  answer Hs. answer Hl. answer Hn. answer Hd. by rewrite Hi.
Qed.

(** X9: a cluster listing that fails makes GetClusters answer with a
    response that is present and empty, together with the error, after
    no other call than a line to the log; every other operation answers
    a failure of its first call with no response at all. *)
Theorem GetClusters_listing_failure (req : GetClustersRequest.t)
    (w w1 w2 : W) (e : error) :
  let s := Session.mk (GetClustersRequest.Region req)
             (GetClustersRequest.AccountName req) in
  v_NewSession V (GetClustersRequest.Region req)
    (GetClustersRequest.AccountName req) w = (None, w1) ->
  v_ListClusters V s w1 = (Err e, w2) ->
  run (AWS.GetClusters V req) w
  = (Done (Some (GetClustersResponse.mk []), Some e),
     mkState w2
       [ENewSession (GetClustersRequest.Region req)
          (GetClustersRequest.AccountName req) None;
        EListClusters s (Err e);
        ELog LError "failed to list clusters" [Error e]]).
Proof.
  intros s Hs Hl. subst s. answer Hs. by rewrite Hl.
Qed.

End Listing.

Lemma GetClusters_lists_every_cluster_witness :
  let r := run (AWS.GetClusters (Fake.vendor Fake.no_faults) Scenario.list_request)
             Scenario.with_donor in
  exists names,
    EListClusters Scenario.session (Ok names) ∈ trace r.2
    /\ ClusterSpec.Name
         <$> [ClusterSpec.mk "prod" [NodeSpec.mk "default" "t3.medium" 20 false []]]
       = names
    /\ Forall (fun spec =>
                 exists r',
                   EListNodegroups Scenario.session (ClusterSpec.Name spec) r'
                   ∈ trace r.2
                   /\ NodeSpec.Name <$> ClusterSpec.NodeSpec spec
                      = default [] (pair_of r').1)
         [ClusterSpec.mk "prod" [NodeSpec.mk "default" "t3.medium" 20 false []]].
Proof.
  intros r.
  apply (GetClusters_lists_every_cluster (Fake.vendor Fake.no_faults)
           Scenario.list_request Scenario.with_donor
           (GetClustersResponse.mk
              [ClusterSpec.mk "prod" [NodeSpec.mk "default" "t3.medium" 20 false []]])
           r.2).
  reflexivity.
Defined.

Lemma GetClusters_empty_instance_types_witness :
  (run (AWS.GetClusters (Fake.vendor Fake.no_faults) Scenario.list_request)
     Fixtures.with_untyped).1
  = Panic "index out of range [0] with length 0".
Proof.
  apply (GetClusters_empty_instance_types (Fake.vendor Fake.no_faults)
           Scenario.list_request Fixtures.with_untyped Fixtures.with_untyped
           Fixtures.with_untyped Fixtures.with_untyped Fixtures.with_untyped
           "prod" "default" [] [] Fixtures.untyped);
    reflexivity.
Defined.

Lemma GetClusters_listing_failure_witness :
  run (AWS.GetClusters
         (Fake.vendor (Fake.failing Fake.ListClusters Scenario.denied))
         Scenario.list_request) Scenario.with_donor
  = (Done (Some (GetClustersResponse.mk []), Some Scenario.denied),
     mkState Scenario.with_donor
       [ENewSession "us-east-1" "acme" None;
        EListClusters Scenario.session (Err Scenario.denied);
        ELog LError "failed to list clusters" [Error Scenario.denied]]).
Proof.
  apply (GetClusters_listing_failure
           (Fake.vendor (Fake.failing Fake.ListClusters Scenario.denied))
           Scenario.list_request Scenario.with_donor Scenario.with_donor
           Scenario.with_donor Scenario.denied);
    reflexivity.
Defined.

Lemma GetClusters_node_details_witness :
  let r := run (AWS.GetClusters (Fake.vendor Fake.no_faults) Scenario.list_request)
             Scenario.with_donor in
  Forall (fun spec =>
            Forall (fun node =>
                      (exists ng,
                         EDescribeNodegroup Scenario.session (ClusterSpec.Name spec)
                           (NodeSpec.Name node) (Ok ng) ∈ trace r.2
                         /\ node = reported (NodeSpec.Name node) ng)
                      /\ NodeSpec.Labels node = []
                      /\ NodeSpec.GpuEnabled node = false)
              (ClusterSpec.NodeSpec spec))
    [ClusterSpec.mk "prod" [NodeSpec.mk "default" "t3.medium" 20 false []]].
Proof.
  intros r.
  apply (GetClusters_node_details (Fake.vendor Fake.no_faults)
           Scenario.list_request Scenario.with_donor
           (GetClustersResponse.mk
              [ClusterSpec.mk "prod" [NodeSpec.mk "default" "t3.medium" 20 false []]])
           r.2).
  reflexivity.
Defined.

(* ===================================================================== *)
(** ** What the operations never do *)
(* ===================================================================== *)

(** Prove a property of every entry of a trace that is known entry by
    entry. *)
Ltac each_event tac :=
  lazymatch goal with
  | |- Forall _ [] => constructor
  | |- Forall _ (_ :: _) => constructor; [simpl; tac | each_event tac]
  | |- stays_within _ _ _ => unfold stays_within; each_event tac
  end.

Section Conduct.
Context {W : Type} (V : Vendor W) (K : Constants) (rv : range_variable).

(** X10: GetClusters, ClusterStatus and GetToken only read: whatever the
    vendor answers, none of them issues a call that creates or deletes a
    cluster or a node group, creates a role or attaches a policy. *)
Theorem read_operations_change_nothing :
  (forall req w,
     Forall (fun ev => is_mutation ev = false)
       (trace (run (AWS.GetClusters V req) w).2)) /\
  (forall req w,
     Forall (fun ev => is_mutation ev = false)
       (trace (run (AWS.ClusterStatus V req) w).2)) /\
  (forall req w,
     Forall (fun ev => is_mutation ev = false)
       (trace (run (AWS.GetToken V req) w).2)).
Proof.
  split; [| split].
  - intros req w. unfold_engine. simpl.
    destruct (v_NewSession V _ _ w) as [[e|] w1]; simpl;
      [by repeat constructor |].
    destruct (v_ListClusters V _ w1) as [[names|e] w2]; simpl;
      [| by repeat constructor].
    match goal with
    | |- context [AWS.cluster_details V ?s names ?a ?b] =>
        destruct (cluster_details_reads V s names a b) as (new & Hnew & Hq);
        destruct (AWS.cluster_details V s names a b) as [[specs|why] st1]
    end; simpl in *; rewrite Hnew; by repeat constructor.
  - intros req w. run_all. all: by repeat constructor.
  - intros req w. run_all. all: by repeat constructor.
Qed.

(** X11: DeleteCluster asks for one deletion at most, that of the
    cluster the request names, and never for the deletion of a node
    group: a cluster that still has node groups is left for the vendor
    to refuse. DeleteNode asks for one deletion at most, that of the
    node group the request names in the cluster it names. Neither
    creates anything. *)
Theorem delete_only_what_is_named :
  (forall req w,
     let s := Session.mk (ClusterDeleteRequest.Region req)
                (ClusterDeleteRequest.AccountName req) in
     let t := trace (run (AWS.DeleteCluster V req) w).2 in
     List.filter is_mutation t = []
     \/ exists r,
          List.filter is_mutation t
          = [EDeleteCluster s (ClusterDeleteRequest.ClusterName req) r]) /\
  (forall req w,
     let s := Session.mk (NodeDeleteRequest.Region req)
                (NodeDeleteRequest.AccountName req) in
     let t := trace (run (AWS.DeleteNode V req) w).2 in
     List.filter is_mutation t = []
     \/ exists r,
          List.filter is_mutation t
          = [EDeleteNodegroup s (NodeDeleteRequest.ClusterName req)
               (NodeDeleteRequest.NodeGroupName req) r]).
Proof.
  split; intros req w; run_all; eauto.
Qed.

(** X12: every call that CreateCluster, ClusterStatus, AddNode,
    DeleteCluster, DeleteNode and GetToken issue is made in the region
    and account of the request, and every call that names a cluster
    names the cluster of the request (for CreateCluster the name given,
    or the default name): no answer of the vendor leads an operation to
    another cluster. *)
Theorem operations_stay_within_the_named_cluster :
  (forall req w,
     stays_within
       (Session.mk (ClusterRequest.Region req) (ClusterRequest.AccountName req))
       (AWS.cluster_name_of req)
       (trace (run (AWS.CreateCluster V req) w).2)) /\
  (forall req w,
     stays_within
       (Session.mk (ClusterStatusRequest.Region req)
          (ClusterStatusRequest.AccountName req))
       (ClusterStatusRequest.ClusterName req)
       (trace (run (AWS.ClusterStatus V req) w).2)) /\
  (forall req w,
     stays_within
       (Session.mk (NodeSpawnRequest.Region req)
          (NodeSpawnRequest.AccountName req))
       (NodeSpawnRequest.ClusterName req)
       (trace (run (AWS.AddNode V K rv req) w).2)) /\
  (forall req w,
     stays_within
       (Session.mk (ClusterDeleteRequest.Region req)
          (ClusterDeleteRequest.AccountName req))
       (ClusterDeleteRequest.ClusterName req)
       (trace (run (AWS.DeleteCluster V req) w).2)) /\
  (forall req w,
     stays_within
       (Session.mk (NodeDeleteRequest.Region req)
          (NodeDeleteRequest.AccountName req))
       (NodeDeleteRequest.ClusterName req)
       (trace (run (AWS.DeleteNode V req) w).2)) /\
  (forall req w,
     stays_within
       (Session.mk (GetTokenRequest.Region req)
          (GetTokenRequest.AccountName req))
       (GetTokenRequest.ClusterName req)
       (trace (run (AWS.GetToken V req) w).2)).
Proof.
  split; [| split; [| split; [| split; [| split]]]]; intros req w.
  all: run_all.
  all: each_event ltac:(split; intros; by simplify_eq/=).
Qed.

(** X13: whatever the vendor answers, AddNode asks for the creation of
    one node group at most; a node group it asks for carries the name,
    the instance type and the disk size of the request and is fixed at
    one node (desired, minimum and maximum size 1); and AddNode never
    asks for the creation of a cluster or for a deletion. *)
Theorem AddNode_asks_for_the_requested_nodegroup (req : NodeSpawnRequest.t)
    (w : W) :
  let t := trace (run (AWS.AddNode V K rv req) w).2 in
  (length (List.filter is_create_nodegroup t) <= 1)%nat
  /\ Forall (fun ev =>
               match ev with
               | ECreateCluster _ _ _ _ | EDeleteCluster _ _ _
               | EDeleteNodegroup _ _ _ _ => False
               | ECreateNodegroup _ (Some i) _ =>
                   exists nodeSpec,
                     NodeSpawnRequest.NodeSpec req = Some nodeSpec
                     /\ CreateNodegroupInput.NodegroupName i
                        = NodeSpec.Name nodeSpec
                     /\ CreateNodegroupInput.InstanceTypes i
                        = [NodeSpec.Instance nodeSpec]
                     /\ CreateNodegroupInput.DiskSize i
                        = NodeSpec.DiskSize nodeSpec
                     /\ CreateNodegroupInput.ScalingConfig i
                        = NodegroupScalingConfig.mk 1 1 1
               | _ => True
               end) t.
Proof.
  run_all.
  all: split; [simpl; lia |].
  all: each_event ltac:(first [exact I | by eexists]).
Qed.

End Conduct.

(* ===================================================================== *)
(** ** CreateCluster: when it creates, and what it cannot read *)
(* ===================================================================== *)

Section Creation.
Context {W : Type} (V : Vendor W).

(** X14: whatever the vendor answers, CreateCluster changes nothing but
    by one create call at most, for the cluster of the request, and it
    issues that call only after the describe call for that cluster
    failed with the code ResourceNotFoundException. *)
Theorem CreateCluster_creates_only_when_not_found (req : ClusterRequest.t)
    (w : W) :
  let s := Session.mk (ClusterRequest.Region req)
             (ClusterRequest.AccountName req) in
  let name := AWS.cluster_name_of req in
  let t := trace (run (AWS.CreateCluster V req) w).2 in
  (List.filter is_mutation t = []
   \/ exists r, List.filter is_mutation t = [ECreateCluster s name req r])
  /\ (forall s' n' req' r,
        ECreateCluster s' n' req' r ∈ t ->
        exists e,
          EDescribeCluster s name (Err e) ∈ t
          /\ awserr_Code e = Some AWS.ErrCodeResourceNotFoundException).
Proof.
  intros s name t. subst s name t. run_all.
  all: split; [eauto |].
  all: intros s' n' req' r' Hin; repeat in_trace.
  all: eexists; split; [pick_event |].
  all: match goal with
       | H : String.eqb _ _ = true |- _ => apply String.eqb_eq in H; by subst
       end.
Qed.

(** X15: an error of the describe call that carries no AWS error code
    makes CreateCluster panic: the code asserts that the error is an
    [awserr.Error] without testing it. No create call is made. *)
Theorem CreateCluster_error_without_code (req : ClusterRequest.t)
    (w w1 w2 : W) (e : error) :
  v_NewSession V (ClusterRequest.Region req) (ClusterRequest.AccountName req) w
  = (None, w1) ->
  v_DescribeCluster V
    (Session.mk (ClusterRequest.Region req) (ClusterRequest.AccountName req))
    (AWS.cluster_name_of req) w1
  = (Err e, w2) ->
  awserr_Code e = None ->
  exists why st,
    run (AWS.CreateCluster V req) w = (Panic why, st)
    /\ why <> nil_dereference
    /\ cluster_creates (trace st) = 0%nat
    /\ world st = w2.
Proof.
  intros Hs Hd Hc. answer Hs. rewrite Hd. simpl. rewrite Hc.
  eexists _, _. split; [reflexivity |]. by repeat split.
Qed.

End Creation.

Lemma CreateCluster_error_without_code_witness :
  let timeout := Errorf "context deadline exceeded" in
  exists why st,
    run (AWS.CreateCluster
           (Fake.vendor (Fake.failing Fake.DescribeCluster timeout))
           Scenario.create_request) Fake.empty
    = (Panic why, st)
    /\ why <> nil_dereference
    /\ cluster_creates (trace st) = 0%nat
    /\ world st = Fake.empty.
Proof.
  intros timeout.
  apply (CreateCluster_error_without_code
           (Fake.vendor (Fake.failing Fake.DescribeCluster timeout))
           Scenario.create_request Fake.empty Fake.empty Fake.empty timeout);
    reflexivity.
Defined.

(* ===================================================================== *)
(** ** The paths of AddNode and GetToken *)
(* ===================================================================== *)

Lemma name_listed_not_elem (name : string) (names : list string) :
  name ∉ names -> AWS.name_listed name names = false.
Proof.
  induction names as [|n names IH]; unfold AWS.name_listed; fold AWS.name_listed;
    [done |].
  intros [Hne Hnot]%not_elem_of_cons.
  rewrite IH by done.
  destruct (String.eqb n name) eqn:Heq; [| done].
  apply String.eqb_eq in Heq. by subst.
Qed.

Section Paths.
Context {W : Type} (V : Vendor W) (K : Constants) (rv : range_variable).

(** X16: a request that carries no node spec makes AddNode panic on a
    nil pointer, once the session is open and the first line is logged,
    before any call to the vendor's clusters; when the session cannot be
    opened the error of the session is returned instead. *)
Theorem AddNode_without_node_spec (req : NodeSpawnRequest.t) (w w1 : W)
    (r : option error) :
  let region := NodeSpawnRequest.Region req in
  let account := NodeSpawnRequest.AccountName req in
  NodeSpawnRequest.NodeSpec req = None ->
  v_NewSession V region account w = (r, w1) ->
  run (AWS.AddNode V K rv req) w
  = match r with
    | Some e => (Done (None, Some e), mkState w1 [ENewSession region account r])
    | None =>
        (Panic nil_dereference,
         mkState w1
           [ENewSession region account None;
            ELog LInfo "querying default nodes on cluster '%s' in region '%s'"
              [NodeSpawnRequest.ClusterName req; region]])
    end.
Proof.
  intros region account Hspec Hs. subst region account.
  answer Hs. destruct r; [done |]. simpl. by rewrite Hspec.
Qed.

(** X17: when the search for a node group to copy fails with an error of
    the vendor (the listing of the node groups fails, or the describe
    call for the first node group listed), AddNode does not return that
    error: it goes on to the create call with a nil input, and answers
    as that call answers. The error of the search is lost. *)
Theorem AddNode_search_failure_falls_through (req : NodeSpawnRequest.t)
    (nodeSpec : NodeSpec.t) (w w1 : W) :
  let s := Session.mk (NodeSpawnRequest.Region req)
             (NodeSpawnRequest.AccountName req) in
  let cluster := NodeSpawnRequest.ClusterName req in
  let answer_of (r : result Nodegroup.t)
    : option NodeSpawnResponse.t * option error :=
    match r with
    | Ok _ => (Some NodeSpawnResponse.mk, None)
    | Err e => (None, Some e)
    end in
  NodeSpawnRequest.NodeSpec req = Some nodeSpec ->
  v_NewSession V (NodeSpawnRequest.Region req)
    (NodeSpawnRequest.AccountName req) w = (None, w1) ->
  (forall e w2 r w3,
     v_ListNodegroups V s cluster w1 = (Err e, w2) ->
     e <> ERR_NODEGROUP_EXIST -> e <> ERR_NO_NODEGROUP ->
     v_CreateNodegroup V s None w2 = (r, w3) ->
     exists st,
       run (AWS.AddNode V K rv req) w = (Done (answer_of r), st)
       /\ List.filter is_create_nodegroup (trace st) = [ECreateNodegroup s None r]
       /\ world st = w3) /\
  (forall first rest e w2 w3 r w4,
     v_ListNodegroups V s cluster w1 = (Ok (first :: rest), w2) ->
     NodeSpec.Name nodeSpec ∉ first :: rest ->
     v_DescribeNodegroup V s cluster first w2 = (Err e, w3) ->
     e <> ERR_NODEGROUP_EXIST -> e <> ERR_NO_NODEGROUP ->
     v_CreateNodegroup V s None w3 = (r, w4) ->
     exists st,
       run (AWS.AddNode V K rv req) w = (Done (answer_of r), st)
       /\ List.filter is_create_nodegroup (trace st) = [ECreateNodegroup s None r]
       /\ world st = w4).
Proof.
  intros s cluster answer_of Hspec Hs. subst s cluster answer_of. split.
  - intros e w2 r w3 Hl He1 He2 Hc.
    answer Hs. answer Hspec. answer Hl.
    unfold Is. rewrite !bool_decide_eq_false_2 by done. simpl.
    rewrite Hc. destruct r; simpl; eexists; by repeat split.
  - intros first rest e w2 w3 r w4 Hl Hnot Hd He1 He2 Hc.
    answer Hs. answer Hspec. answer Hl.
    rewrite (name_listed_not_elem _ _ Hnot). simpl. rewrite Hd. simpl.
    unfold Is. rewrite !bool_decide_eq_false_2 by done. simpl.
    rewrite Hc. destruct r; simpl; eexists; by repeat split.
Qed.

(** X18: when the cluster has node groups and none has the name asked
    for, AddNode copies the first node group of the listing: it
    describes that one and no other, asks no role and no cluster
    description, and creates the node group with the AMI type, capacity
    type, node role, release version and subnets of the one it copied,
    whether or not the request asks for a GPU. *)
Theorem AddNode_copies_first_nodegroup (req : NodeSpawnRequest.t)
    (nodeSpec : NodeSpec.t) (w w1 w2 w3 w4 : W) (first : string)
    (rest : list string) (donor : Nodegroup.t) (r : result Nodegroup.t) :
  let s := Session.mk (NodeSpawnRequest.Region req)
             (NodeSpawnRequest.AccountName req) in
  let cluster := NodeSpawnRequest.ClusterName req in
  let input := AWS.getNodeSpecFromDefault K rv donor cluster nodeSpec in
  NodeSpawnRequest.NodeSpec req = Some nodeSpec ->
  v_NewSession V (NodeSpawnRequest.Region req)
    (NodeSpawnRequest.AccountName req) w = (None, w1) ->
  v_ListNodegroups V s cluster w1 = (Ok (first :: rest), w2) ->
  NodeSpec.Name nodeSpec ∉ first :: rest ->
  v_DescribeNodegroup V s cluster first w2 = (Ok donor, w3) ->
  v_CreateNodegroup V s (Some input) w3 = (r, w4) ->
  exists st,
    run (AWS.AddNode V K rv req) w
    = (Done match r with
            | Ok _ => (Some NodeSpawnResponse.mk, None)
            | Err e => (None, Some e)
            end, st)
    /\ List.filter (fun ev => negb (is_log ev)) (trace st)
       = [ENewSession (NodeSpawnRequest.Region req)
            (NodeSpawnRequest.AccountName req) None;
          EListNodegroups s cluster (Ok (first :: rest));
          EDescribeNodegroup s cluster first (Ok donor);
          ECreateNodegroup s (Some input) r]
    /\ world st = w4
    /\ CreateNodegroupInput.AmiType input = Nodegroup.AmiType donor
    /\ CreateNodegroupInput.CapacityType input = Nodegroup.CapacityType donor
    /\ CreateNodegroupInput.NodeRole input = Nodegroup.NodeRole donor
    /\ CreateNodegroupInput.ReleaseVersion input = Nodegroup.ReleaseVersion donor
    /\ CreateNodegroupInput.Subnets input = Nodegroup.Subnets donor.
Proof.
  intros s cluster input Hspec Hs Hl Hnot Hd Hc. subst s cluster input.
  answer Hs. answer Hspec. answer Hl.
  rewrite (name_listed_not_elem _ _ Hnot). simpl. rewrite Hd. simpl.
  rewrite Hc. destruct r; simpl; eexists; by repeat split.
Qed.

(** X19: when the cluster has no node group, AddNode builds the request
    from the cluster: with the node-group role in place it creates the
    node group on the subnets of the cluster, under the ARN of that
    role, at capacity type ON_DEMAND, with no release version, and with
    the AMI type AL2_x86_64_GPU if the request asks for a GPU and
    AL2_x86_64 if it does not. *)
Theorem AddNode_from_cluster_config (req : NodeSpawnRequest.t)
    (nodeSpec : NodeSpec.t) (w w1 w2 w3 w4 w5 : W) (c : Cluster.t)
    (role : Role.t) (r : result Nodegroup.t) :
  let s := Session.mk (NodeSpawnRequest.Region req)
             (NodeSpawnRequest.AccountName req) in
  let cluster := NodeSpawnRequest.ClusterName req in
  let input :=
    {| CreateNodegroupInput.AmiType :=
         Some (if NodeSpec.GpuEnabled nodeSpec then "AL2_x86_64_GPU"
               else "AL2_x86_64");
       CreateNodegroupInput.CapacityType := Some "ON_DEMAND";
       CreateNodegroupInput.NodeRole := Role.Arn role;
       CreateNodegroupInput.InstanceTypes := [NodeSpec.Instance nodeSpec];
       CreateNodegroupInput.ClusterName := cluster;
       CreateNodegroupInput.DiskSize := NodeSpec.DiskSize nodeSpec;
       CreateNodegroupInput.NodegroupName := NodeSpec.Name nodeSpec;
       CreateNodegroupInput.ReleaseVersion := None;
       CreateNodegroupInput.Labels := AWS.labels_from_cluster K rv nodeSpec;
       CreateNodegroupInput.Subnets := Cluster.SubnetIds c;
       CreateNodegroupInput.ScalingConfig := NodegroupScalingConfig.mk 1 1 1 |} in
  NodeSpawnRequest.NodeSpec req = Some nodeSpec ->
  v_NewSession V (NodeSpawnRequest.Region req)
    (NodeSpawnRequest.AccountName req) w = (None, w1) ->
  v_ListNodegroups V s cluster w1 = (Ok [], w2) ->
  v_DescribeCluster V s cluster w2 = (Ok c, w3) ->
  v_GetRole V s AWS.AWS_NODE_GROUP_ROLE_NAME w3 = (Ok role, w4) ->
  v_CreateNodegroup V s (Some input) w4 = (r, w5) ->
  exists st,
    run (AWS.AddNode V K rv req) w
    = (Done match r with
            | Ok _ => (Some NodeSpawnResponse.mk, None)
            | Err e => (None, Some e)
            end, st)
    /\ List.filter (fun ev => negb (is_log ev)) (trace st)
       = [ENewSession (NodeSpawnRequest.Region req)
            (NodeSpawnRequest.AccountName req) None;
          EListNodegroups s cluster (Ok []);
          EDescribeCluster s cluster (Ok c);
          EGetRole s AWS.AWS_NODE_GROUP_ROLE_NAME (Ok role);
          ECreateNodegroup s (Some input) r]
    /\ world st = w5.
Proof.
  intros s cluster input Hspec Hs Hl Hd Hr Hc. subst s cluster input.
  answer Hs. answer Hspec. answer Hl. rewrite Hd. simpl. rewrite Hr. simpl.
  unfold AWS.fixed_scaling. rewrite Hc.
  destruct r; simpl; eexists; by repeat split.
Qed.

(** X20: GetToken answers from the kubeconfig alone. The describe call
    is made, but its error is never returned: the cluster of its answer,
    nil when it failed, is handed to getKubeConfig, and GetToken returns
    the token, CA data and host of the kubeconfig that comes back, or
    the error of getKubeConfig. *)
Theorem GetToken_answers_from_kubeconfig (req : GetTokenRequest.t)
    (w w1 w2 w3 : W) (d : result Cluster.t)
    (k : option KubeConfig.t * option error) :
  let s := Session.mk (GetTokenRequest.Region req)
             (GetTokenRequest.AccountName req) in
  v_NewSession V (GetTokenRequest.Region req)
    (GetTokenRequest.AccountName req) w = (None, w1) ->
  v_DescribeCluster V s (GetTokenRequest.ClusterName req) w1 = (d, w2) ->
  v_getKubeConfig V s (pair_of d).1 w2 = (k, w3) ->
  (run (AWS.GetToken V req) w).1
  = match k with
    | (_, Some e) => Done (None, Some e)
    | (Some kc, None) =>
        Done (Some (GetTokenResponse.mk (KubeConfig.BearerToken kc)
                      (KubeConfig.CAData kc) (KubeConfig.Host kc)), None)
    | (None, None) => Panic nil_dereference
    end
  /\ EGetKubeConfig s (pair_of d).1 k ∈ trace (run (AWS.GetToken V req) w).2.
Proof.
  intros s Hs Hd Hk. subst s.
  answer Hs. rewrite Hd. destruct d as [c|e]; simpl in *; rewrite Hk.
  all: destruct k as [[kc|] [e'|]]; simpl; split; try done.
  all: pick_event.
Qed.

End Paths.

Lemma AddNode_without_node_spec_witness :
  run (AWS.AddNode (Fake.vendor Fake.no_faults) spec_constants OnePerLoop
         Fixtures.bare_request) Scenario.with_donor
  = (Panic nil_dereference,
     mkState Scenario.with_donor
       [ENewSession "us-east-1" "acme" None;
        ELog LInfo "querying default nodes on cluster '%s' in region '%s'"
          ["prod"; "us-east-1"]]).
Proof.
  apply (AddNode_without_node_spec (Fake.vendor Fake.no_faults) spec_constants
           OnePerLoop Fixtures.bare_request Scenario.with_donor
           Scenario.with_donor None);
    reflexivity.
Defined.

Lemma AddNode_search_failure_falls_through_witness :
  let invalid := AwsError "InvalidParameter" "3 validation error(s) found." in
  exists st,
    run (AWS.AddNode
           (Fake.vendor (Fake.failing Fake.ListNodegroups Scenario.denied))
           spec_constants OnePerLoop Scenario.add_request) Scenario.with_donor
    = (Done (None, Some invalid), st)
    /\ List.filter is_create_nodegroup (trace st)
       = [ECreateNodegroup Scenario.session None (Err invalid)]
    /\ world st = Scenario.with_donor.
Proof.
  intros invalid.
  apply (proj1 (AddNode_search_failure_falls_through
                  (Fake.vendor (Fake.failing Fake.ListNodegroups Scenario.denied))
                  spec_constants OnePerLoop Scenario.add_request
                  Scenario.gpu_pool Scenario.with_donor Scenario.with_donor
                  eq_refl eq_refl)
           Scenario.denied Scenario.with_donor (Err invalid) Scenario.with_donor).
  - reflexivity.
  - discriminate.
  - discriminate.
  - reflexivity.
Defined.

Lemma AddNode_copies_first_nodegroup_witness :
  let input :=
    AWS.getNodeSpecFromDefault spec_constants OnePerLoop Scenario.donor "prod"
      Scenario.gpu_pool in
  let created := Ok (Fake.nodegroup_of_input input) in
  exists st,
    run (AWS.AddNode (Fake.vendor Fake.no_faults) spec_constants OnePerLoop
           Scenario.add_request) Scenario.with_donor
    = (Done (Some NodeSpawnResponse.mk, None), st)
    /\ List.filter (fun ev => negb (is_log ev)) (trace st)
       = [ENewSession "us-east-1" "acme" None;
          EListNodegroups Scenario.session "prod" (Ok ["default"]);
          EDescribeNodegroup Scenario.session "prod" "default" (Ok Scenario.donor);
          ECreateNodegroup Scenario.session (Some input) created]
    /\ world st
       = Fake.mkWorld [Scenario.cluster]
           [("prod", Scenario.donor); ("prod", Fake.nodegroup_of_input input)]
           [] []
    /\ CreateNodegroupInput.AmiType input = Some "AL2_x86_64"
    /\ CreateNodegroupInput.CapacityType input = Some "ON_DEMAND"
    /\ CreateNodegroupInput.NodeRole input
       = Some "arn:aws:iam::000000000000:role/nodes"
    /\ CreateNodegroupInput.ReleaseVersion input = Some "1.21.5-20220123"
    /\ CreateNodegroupInput.Subnets input = ["subnet-1"; "subnet-2"].
Proof.
  intros input created.
  apply (AddNode_copies_first_nodegroup (Fake.vendor Fake.no_faults)
           spec_constants OnePerLoop Scenario.add_request Scenario.gpu_pool
           Scenario.with_donor Scenario.with_donor Scenario.with_donor
           Scenario.with_donor
           (Fake.mkWorld [Scenario.cluster]
              [("prod", Scenario.donor); ("prod", Fake.nodegroup_of_input input)]
              [] [])
           "default" [] Scenario.donor created).
  - reflexivity.
  - reflexivity.
  - reflexivity.
  - intros H. repeat in_trace.
  - reflexivity.
  - reflexivity.
Defined.

Lemma AddNode_from_cluster_config_witness :
  let input :=
    {| CreateNodegroupInput.AmiType := Some "AL2_x86_64_GPU";
       CreateNodegroupInput.CapacityType := Some "ON_DEMAND";
       CreateNodegroupInput.NodeRole := Some "arn:aws:iam::000000000000:role/nodes";
       CreateNodegroupInput.InstanceTypes := ["p3.2xlarge"];
       CreateNodegroupInput.ClusterName := "prod";
       CreateNodegroupInput.DiskSize := 100;
       CreateNodegroupInput.NodegroupName := "gpu-pool";
       CreateNodegroupInput.ReleaseVersion := None;
       CreateNodegroupInput.Labels :=
         AWS.labels_from_cluster spec_constants OnePerLoop Scenario.gpu_pool;
       CreateNodegroupInput.Subnets := ["subnet-1"; "subnet-2"];
       CreateNodegroupInput.ScalingConfig := NodegroupScalingConfig.mk 1 1 1 |} in
  let created := Ok (Fake.nodegroup_of_input input) in
  exists st,
    run (AWS.AddNode (Fake.vendor Fake.no_faults) spec_constants OnePerLoop
           Scenario.add_request) Fixtures.with_role
    = (Done (Some NodeSpawnResponse.mk, None), st)
    /\ List.filter (fun ev => negb (is_log ev)) (trace st)
       = [ENewSession "us-east-1" "acme" None;
          EListNodegroups Scenario.session "prod" (Ok []);
          EDescribeCluster Scenario.session "prod" (Ok Scenario.cluster);
          EGetRole Scenario.session AWS.AWS_NODE_GROUP_ROLE_NAME
            (Ok Fixtures.node_role);
          ECreateNodegroup Scenario.session (Some input) created]
    /\ world st
       = Fake.mkWorld [Scenario.cluster]
           [("prod", Fake.nodegroup_of_input input)] [Fixtures.node_role] [].
Proof.
  intros input created.
  apply (AddNode_from_cluster_config (Fake.vendor Fake.no_faults)
           spec_constants OnePerLoop Scenario.add_request Scenario.gpu_pool
           Fixtures.with_role Fixtures.with_role Fixtures.with_role
           Fixtures.with_role Fixtures.with_role
           (Fake.mkWorld [Scenario.cluster]
              [("prod", Fake.nodegroup_of_input input)] [Fixtures.node_role] [])
           Scenario.cluster Fixtures.node_role created);
    reflexivity.
Defined.

Lemma GetToken_answers_from_kubeconfig_witness :
  let V := Fake.vendor (Fake.failing Fake.DescribeCluster Scenario.denied) in
  (run (AWS.GetToken V Fixtures.token_request) Scenario.bare).1
  = Done (None, Some (Errorf "cluster has no endpoint"))
  /\ EGetKubeConfig Scenario.session None
       (None, Some (Errorf "cluster has no endpoint"))
     ∈ trace (run (AWS.GetToken V Fixtures.token_request) Scenario.bare).2.
Proof.
  intros V.
  apply (GetToken_answers_from_kubeconfig V Fixtures.token_request
           Scenario.bare Scenario.bare Scenario.bare Scenario.bare
           (Err Scenario.denied)
           (None, Some (Errorf "cluster has no endpoint")));
    reflexivity.
Defined.

(* ===================================================================== *)
(** ** AddNode, twice *)
(* ===================================================================== *)

(** What a successful [AddNode] did, from any state: its last call was a
    node-group create call that the vendor carried out, for the node
    spec of the request. *)
Lemma AddNode_success {W : Type} (V : Vendor W) (K : Constants)
    (rv : range_variable) (req : NodeSpawnRequest.t) (st st' : state W)
    (resp : NodeSpawnResponse.t) :
  let s := Session.mk (NodeSpawnRequest.Region req)
             (NodeSpawnRequest.AccountName req) in
  AWS.AddNode V K rv req st = (Done (Some resp, None), st') ->
  exists nodeSpec input w0 ng,
    NodeSpawnRequest.NodeSpec req = Some nodeSpec
    /\ v_CreateNodegroup V s input w0 = (Ok ng, world st')
    /\ forall i, input = Some i ->
         CreateNodegroupInput.ClusterName i = NodeSpawnRequest.ClusterName req
         /\ CreateNodegroupInput.NodegroupName i = NodeSpec.Name nodeSpec.
Proof.
  intros s. subst s. run_all.
  all: intros H; simplify_eq.
  all: eexists _, _, _, _; split; [reflexivity |]; split; [eassumption |].
  all: intros i Hi; by simplify_eq.
Qed.

Section Repeat.
Context {W : Type} (V : Vendor W) (K : Constants) (rv : range_variable).

(** What is asked of the vendor: a create call without an input is
    refused; a node group that was created is there ([has_nodegroup])
    for the calls that follow, and is listed with the node groups of its
    cluster; and a failed listing fails with an error of the vendor, not
    with the error value this package keeps for a cluster without node
    groups. *)
Variable has_nodegroup : Session.t -> string -> string -> W -> Prop.

Hypothesis nil_input_refused : forall s w r w',
  v_CreateNodegroup V s None w = (r, w') -> exists e, r = Err e.
Hypothesis created_is_there : forall s i w ng w',
  v_CreateNodegroup V s (Some i) w = (Ok ng, w') ->
  has_nodegroup s (CreateNodegroupInput.ClusterName i)
    (CreateNodegroupInput.NodegroupName i) w'.
Hypothesis session_keeps_nodegroups : forall region account w r w' s c n,
  v_NewSession V region account w = (r, w') ->
  has_nodegroup s c n w -> has_nodegroup s c n w'.
Hypothesis there_is_listed : forall s c n w names w',
  has_nodegroup s c n w -> v_ListNodegroups V s c w = (Ok names, w') ->
  n ∈ names.
Hypothesis listing_fails_with_vendor_error : forall s c w e w',
  v_ListNodegroups V s c w = (Err e, w') -> e <> ERR_NO_NODEGROUP.

(** X21: AddNode is not repeated by accident: after an AddNode that
    succeeded, the same request made again returns an error and no node
    group is created by it; when the vendor answers the listing of the
    node groups, that error is the NodeGroupExists error and the vendor
    is left as the listing left it. *)
Theorem AddNode_twice (req : NodeSpawnRequest.t) (w : W) (st1 : state W)
    (resp : NodeSpawnResponse.t) :
  let s := Session.mk (NodeSpawnRequest.Region req)
             (NodeSpawnRequest.AccountName req) in
  run (AWS.AddNode V K rv req) w = (Done (Some resp, None), st1) ->
  exists e st2,
    AWS.AddNode V K rv req st1 = (Done (None, Some e), st2)
    /\ List.filter is_nodegroup_created (trace st2)
       = List.filter is_nodegroup_created (trace st1)
    /\ forall w1 names w2,
         v_NewSession V (NodeSpawnRequest.Region req)
           (NodeSpawnRequest.AccountName req) (world st1) = (None, w1) ->
         v_ListNodegroups V s (NodeSpawnRequest.ClusterName req) w1
         = (Ok names, w2) ->
         e = ERR_NODEGROUP_EXIST /\ world st2 = w2.
Proof.
  intros s Hfirst. subst s. unfold run in Hfirst.
  apply AddNode_success in Hfirst
    as (nodeSpec & input & w0 & ng & Hspec & Hcreate & Hinput).
  assert (Hthere : has_nodegroup
                     (Session.mk (NodeSpawnRequest.Region req)
                        (NodeSpawnRequest.AccountName req))
                     (NodeSpawnRequest.ClusterName req)
                     (NodeSpec.Name nodeSpec) (world st1)).
  { destruct input as [i|].
    - destruct (Hinput i eq_refl) as [<- <-]. by eapply created_is_there.
    - by apply nil_input_refused in Hcreate as [e He]. }
  unfold_engine. simpl.
  destruct (v_NewSession V _ _ (world st1)) as [[e|] w1] eqn:Hs; simpl.
  { eexists _, _. split; [reflexivity |]. simpl.
    rewrite !List.filter_app; simpl; rewrite ?app_nil_r. split; [done |].
    intros; simplify_eq. }
  eapply session_keeps_nodegroups in Hthere; [| exact Hs].
  rewrite Hspec. simpl.
  destruct (v_ListNodegroups V _ _ w1) as [[names|e] w2] eqn:Hl; simpl.
  - pose proof (there_is_listed _ _ _ _ _ _ Hthere Hl) as Hin.
    rewrite (name_listed_elem _ _ Hin).
    destruct names as [|n names]; [by apply elem_of_nil in Hin |]. simpl.
    eexists _, _. split; [reflexivity |]. simpl.
    rewrite !List.filter_app; simpl; rewrite ?app_nil_r. split; [done |].
    intros w1' names' w2' [= <-] Hl'. rewrite Hl in Hl'. by simplify_eq.
  - pose proof (listing_fails_with_vendor_error _ _ _ _ _ Hl) as Hne.
    unfold Is. destruct (bool_decide (e = ERR_NODEGROUP_EXIST)); simpl.
    { eexists _, _. split; [reflexivity |]. simpl.
      rewrite !List.filter_app; simpl; rewrite ?app_nil_r. split; [done |].
      intros w1' names' w2' [= <-] Hl'. rewrite Hl in Hl'. discriminate. }
    rewrite bool_decide_eq_false_2 by done. simpl.
    destruct (v_CreateNodegroup V _ None w2) as [r w3] eqn:Hc.
    destruct (nil_input_refused _ _ _ _ Hc) as [e' ->]. simpl.
    eexists _, _. split; [reflexivity |]. simpl.
    rewrite !List.filter_app; simpl; rewrite ?app_nil_r. split; [done |].
    intros w1' names' w2' [= <-] Hl'. rewrite Hl in Hl'. discriminate.
Qed.

End Repeat.

(** The test double keeps the laws asked of the vendor. *)

Lemma fake_nil_input_refused s w r w' :
  v_CreateNodegroup (Fake.vendor Fake.no_faults) s None w = (r, w') ->
  exists e, r = Err e.
Proof. simpl. unfold Fake.guarded. simpl. intros; simplify_eq. by eexists. Qed.

Lemma fake_created_is_there s i w ng w' :
  v_CreateNodegroup (Fake.vendor Fake.no_faults) s (Some i) w = (Ok ng, w') ->
  fake_has_nodegroup s (CreateNodegroupInput.ClusterName i)
    (CreateNodegroupInput.NodegroupName i) w'.
Proof.
  simpl. unfold Fake.guarded. simpl. intros; simplify_eq.
  exists (Fake.nodegroup_of_input i). split; [| done]. simpl.
  apply elem_of_app. right. apply list_elem_of_here.
Qed.

Lemma fake_session_keeps_nodegroups region account w r w' s c n :
  v_NewSession (Fake.vendor Fake.no_faults) region account w = (r, w') ->
  fake_has_nodegroup s c n w -> fake_has_nodegroup s c n w'.
Proof. simpl. unfold Fake.guarded. simpl. intros. by simplify_eq. Qed.

Lemma fake_there_is_listed s c n w names w' :
  fake_has_nodegroup s c n w ->
  v_ListNodegroups (Fake.vendor Fake.no_faults) s c w = (Ok names, w') ->
  n ∈ names.
Proof.
  intros (ng & Hin & Hn). simpl. unfold Fake.guarded. simpl.
  destruct (Fake.find_cluster c w); intros; simplify_eq.
  apply list_elem_of_fmap. exists (c, ng). split; [done |].
  by apply list_elem_of_filter.
Qed.

Lemma fake_listing_fails_with_vendor_error s c w e w' :
  v_ListNodegroups (Fake.vendor Fake.no_faults) s c w = (Err e, w') ->
  e <> ERR_NO_NODEGROUP.
Proof.
  simpl. unfold Fake.guarded. simpl.
  destruct (Fake.find_cluster c w); intros; by simplify_eq.
Qed.

Lemma AddNode_twice_witness :
  let V := Fake.vendor Fake.no_faults in
  let first := run (AWS.AddNode V spec_constants OnePerLoop Scenario.add_request)
                 Scenario.with_donor in
  exists e st2,
    AWS.AddNode V spec_constants OnePerLoop Scenario.add_request first.2
    = (Done (None, Some e), st2)
    /\ List.filter is_nodegroup_created (trace st2)
       = List.filter is_nodegroup_created (trace first.2)
    /\ forall w1 names w2,
         v_NewSession V "us-east-1" "acme" (world first.2) = (None, w1) ->
         v_ListNodegroups V Scenario.session "prod" w1 = (Ok names, w2) ->
         e = ERR_NODEGROUP_EXIST /\ world st2 = w2.
Proof.
  intros V first.
  apply (AddNode_twice V spec_constants OnePerLoop fake_has_nodegroup
           fake_nil_input_refused fake_created_is_there
           fake_session_keeps_nodegroups fake_there_is_listed
           fake_listing_fails_with_vendor_error
           Scenario.add_request Scenario.with_donor first.2
           NodeSpawnResponse.mk).
  reflexivity.
Defined.

(* ===================================================================== *)
(** ** The label map, key by key *)
(* ===================================================================== *)

Section LabelMaps.
Import Cells.

Lemma resolve_new (h : heap) (labels : gmap string loc) (k s : string) :
  allocated h labels ->
  resolve (h ++ [s]) (<[k := length h]> labels) = <[k := s]> (resolve h labels)
  /\ allocated (h ++ [s]) (<[k := length h]> labels).
Proof.
  intros Hwf. split.
  - apply map_eq. intros k'. unfold resolve, load.
    rewrite lookup_omap.
    destruct (decide (k = k')) as [-> | Hne].
    + rewrite !lookup_insert_eq. simpl. unfold heap, loc in *.
      by apply list_lookup_middle.
    + rewrite !lookup_insert_ne by done. rewrite lookup_omap.
      destruct (labels !! k') as [p|] eqn:Hp; [| done]. simpl.
      apply Hwf in Hp. unfold heap, loc in *. by rewrite lookup_app_l.
  - apply map_Forall_insert_2.
    + rewrite length_app. simpl. lia.
    + intros k' p Hp. apply Hwf in Hp. rewrite length_app. simpl in *. lia.
Qed.

(** A loop that stores every value in a cell of its own acts on what the
    map resolves to as plain assignment does. *)
Lemma range_fresh_spec (entries : list (string * string)) :
  forall (labels labels' : gmap string loc) (h h' : heap),
    allocated h labels ->
    AWS.range_fresh entries labels h = (labels', h') ->
    resolve h' labels' = insert_all entries (resolve h labels)
    /\ allocated h' labels'.
Proof.
  induction entries as [|[k s] rest IH]; intros labels labels' h h' Hwf Hrun;
    simpl in *.
  - by simplify_eq.
  - unfold new in Hrun.
    destruct (resolve_new h labels k s Hwf) as [Hres Hwf'].
    apply IH in Hrun as [-> Hwf'']; [| done].
    split; [| done]. unfold insert_all. simpl. f_equal. exact Hres.
Qed.

Lemma copy_donor_labels_spec (entries : list (string * string)) :
  forall (labels labels' : gmap string loc) (h h' : heap),
    allocated h labels ->
    AWS.copy_donor_labels entries labels h = (labels', h') ->
    resolve h' labels' = insert_all entries (resolve h labels)
    /\ allocated h' labels'.
Proof.
  induction entries as [|[k s] rest IH]; intros labels labels' h h' Hwf Hrun;
    simpl in *.
  - by simplify_eq.
  - unfold new in Hrun.
    destruct (resolve_new h labels k s Hwf) as [Hres Hwf'].
    apply IH in Hrun as [-> Hwf'']; [| done].
    split; [| done]. unfold insert_all. simpl. f_equal. exact Hres.
Qed.

Lemma system_labels_spec (K : Constants) (nodeSpec : NodeSpec.t)
    (labels : gmap string loc) (h : heap) :
  AWS.system_labels K nodeSpec [] = (labels, h) ->
  resolve h labels = system_map K nodeSpec /\ allocated h labels.
Proof.
  unfold AWS.system_labels, new. simpl. intros; simplify_eq. split.
  - unfold resolve, system_map. rewrite !omap_insert. simpl.
    by rewrite omap_empty.
  - repeat (apply map_Forall_insert_2; [simpl; lia |]).
    apply map_Forall_empty.
Qed.

(** The loop with one variable writes to the cell of that variable only. *)
Lemma range_shared_heap (pv : loc) (entries : list (string * string)) :
  forall (labels labels' : gmap string loc) (h h' : heap) (p : loc),
    AWS.range_shared pv entries labels h = (labels', h') ->
    p <> pv -> h' !! p = h !! p.
Proof.
  induction entries as [|[k s] rest IH]; intros labels labels' h h' p Hrun Hp;
    simpl in *.
  - by simplify_eq.
  - erewrite IH by done. unfold store, heap, loc in *.
    by rewrite list_lookup_insert_ne.
Qed.

Lemma insert_all_lookup_other (entries : list (string * string)) :
  forall (m : gmap string string) (k : string),
    k ∉ entries.*1 -> insert_all entries m !! k = m !! k.
Proof.
  induction entries as [|[k' s] rest IH]; intros m k Hk; [done |].
  apply not_elem_of_cons in Hk as [Hne Hk].
  unfold insert_all in *. simpl. rewrite IH by done.
  by rewrite lookup_insert_ne.
Qed.

(** Whatever the loop variable is, the loop over the caller's labels
    leaves every key that is not the caller's as it was. *)
Lemma set_caller_labels_frame (rv : range_variable)
    (entries : list (string * string)) (labels labels' : gmap string loc)
    (h h' : heap) (k : string) :
  allocated h labels ->
  AWS.set_caller_labels rv entries labels h = (labels', h') ->
  k ∉ entries.*1 ->
  resolve h' labels' !! k = resolve h labels !! k.
Proof.
  intros Hwf Hrun Hk. destruct rv; simpl in Hrun.
  - unfold new in Hrun. pose proof Hrun as Hrun'.
    apply range_shared_spec in Hrun as (_ & Hother & _);
      [| unfold heap in *; rewrite length_app; simpl; lia].
    unfold resolve, load. rewrite !lookup_omap, (Hother _ Hk).
    destruct (labels !! k) as [p|] eqn:Hp; [| done]. simpl.
    apply Hwf in Hp. simpl in Hp.
    erewrite range_shared_heap; [| exact Hrun' | unfold heap, loc in *; lia].
    unfold heap, loc in *. by apply lookup_app_l.
  - apply range_fresh_spec in Hrun as [-> _]; [| done].
    by apply insert_all_lookup_other.
Qed.

Context (K : Constants).

(** X22: with a variable per iteration for the loop over the caller's
    labels (Go 1.22 and later), the label map of a new node group is the
    five system labels, overwritten by the labels of the node group that
    is copied, overwritten by the labels of the caller; without a node
    group to copy, the system labels overwritten by the caller's. *)
Theorem labels_merge_per_iteration (defaultNode : Nodegroup.t)
    (nodeSpec : NodeSpec.t) :
  AWS.labels_from_default K OnePerIteration defaultNode nodeSpec
  = insert_all (NodeSpec.Labels nodeSpec)
      (insert_all (Nodegroup.Labels defaultNode) (system_map K nodeSpec))
  /\ AWS.labels_from_cluster K OnePerIteration nodeSpec
     = insert_all (NodeSpec.Labels nodeSpec) (system_map K nodeSpec).
Proof.
  unfold AWS.labels_from_default, AWS.labels_from_cluster.
  destruct (AWS.system_labels K nodeSpec []) as [labels0 h0] eqn:H0.
  apply system_labels_spec in H0 as [H0 Hwf0].
  destruct (AWS.copy_donor_labels _ labels0 h0) as [labels1 h1] eqn:H1.
  apply copy_donor_labels_spec in H1 as [H1 Hwf1]; [| done].
  destruct (AWS.set_caller_labels _ _ labels1 h1) as [labels2 h2] eqn:H2.
  destruct (AWS.set_caller_labels _ _ labels0 h0) as [labels3 h3] eqn:H3.
  simpl in H2, H3.
  apply range_fresh_spec in H2 as [-> _]; [| done].
  apply range_fresh_spec in H3 as [-> _]; [| done].
  by rewrite H1, H0.
Qed.

(** X23: whichever way the loop variable is declared, a key that the
    caller does not supply is delivered as the merge law has it: with
    the value of the node group that is copied if that one has the key,
    and with the system value otherwise. *)
Theorem labels_of_other_keys (rv : range_variable) (defaultNode : Nodegroup.t)
    (nodeSpec : NodeSpec.t) (k : string) :
  k ∉ (NodeSpec.Labels nodeSpec).*1 ->
  AWS.labels_from_default K rv defaultNode nodeSpec !! k
  = insert_all (Nodegroup.Labels defaultNode) (system_map K nodeSpec) !! k
  /\ AWS.labels_from_cluster K rv nodeSpec !! k = system_map K nodeSpec !! k.
Proof.
  intros Hk. unfold AWS.labels_from_default, AWS.labels_from_cluster.
  destruct (AWS.system_labels K nodeSpec []) as [labels0 h0] eqn:H0.
  apply system_labels_spec in H0 as [H0 Hwf0].
  destruct (AWS.copy_donor_labels _ labels0 h0) as [labels1 h1] eqn:H1.
  apply copy_donor_labels_spec in H1 as [H1 Hwf1]; [| done].
  destruct (AWS.set_caller_labels _ _ labels1 h1) as [labels2 h2] eqn:H2.
  destruct (AWS.set_caller_labels _ _ labels0 h0) as [labels3 h3] eqn:H3.
  split.
  - rewrite (set_caller_labels_frame rv _ _ _ _ _ k Hwf1 H2 Hk).
    by rewrite H1, H0.
  - rewrite (set_caller_labels_frame rv _ _ _ _ _ k Hwf0 H3 Hk).
    by rewrite H0.
Qed.

Lemma insert_all_lookup_in (entries : list (string * string)) :
  forall (m : gmap string string) (k : string),
    k ∈ entries.*1 ->
    exists v, (k, v) ∈ entries /\ insert_all entries m !! k = Some v.
Proof.
  induction entries as [|[k' s] rest IH]; intros m k Hk;
    [by apply elem_of_nil in Hk |].
  destruct (decide (k ∈ rest.*1)) as [Hin | Hnot].
  - destruct (IH (<[k' := s]> m) k Hin) as (v & Hv & Hl).
    exists v. split; [by apply list_elem_of_further | exact Hl].
  - apply elem_of_cons in Hk as [-> | Hk]; [| done].
    exists s. split; [apply list_elem_of_here |].
    unfold insert_all. simpl.
    change (insert_all rest (<[k' := s]> m) !! k' = Some s).
    rewrite insert_all_lookup_other by done. apply lookup_insert_eq.
Qed.

(** X24: with one variable for the whole loop (Go before 1.22) the label
    map is still the one the merge law gives whenever all labels of the
    caller carry the same value, a single label in particular: the
    shared cell then holds the value of each of them. *)
Theorem labels_merge_one_value (defaultNode : Nodegroup.t)
    (nodeSpec : NodeSpec.t) (v : string) :
  (forall k v', (k, v') ∈ NodeSpec.Labels nodeSpec -> v' = v) ->
  AWS.labels_from_default K OnePerLoop defaultNode nodeSpec
  = insert_all (NodeSpec.Labels nodeSpec)
      (insert_all (Nodegroup.Labels defaultNode) (system_map K nodeSpec))
  /\ AWS.labels_from_cluster K OnePerLoop nodeSpec
     = insert_all (NodeSpec.Labels nodeSpec) (system_map K nodeSpec).
Proof.
  intros Hv. unfold AWS.labels_from_default, AWS.labels_from_cluster.
  destruct (AWS.system_labels K nodeSpec []) as [labels0 h0] eqn:H0.
  apply system_labels_spec in H0 as [H0 Hwf0].
  destruct (AWS.copy_donor_labels _ labels0 h0) as [labels1 h1] eqn:H1.
  apply copy_donor_labels_spec in H1 as [H1 Hwf1]; [| done].
  destruct (AWS.set_caller_labels _ _ labels1 h1) as [labels2 h2] eqn:H2.
  destruct (AWS.set_caller_labels _ _ labels0 h0) as [labels3 h3] eqn:H3.
  assert (Hin : forall k m, k ∈ (NodeSpec.Labels nodeSpec).*1 ->
                  insert_all (NodeSpec.Labels nodeSpec) m !! k = Some v
                  /\ exists kl, last (NodeSpec.Labels nodeSpec) = Some (kl, v)).
  { intros k m Hk. destruct (insert_all_lookup_in _ m k Hk) as (v' & Hv' & ->).
    rewrite (Hv _ _ Hv'). split; [done |].
    destruct (last (NodeSpec.Labels nodeSpec)) as [[kl vl]|] eqn:Hl.
    - exists kl. by rewrite (Hv kl vl (last_Some_elem_of _ _ Hl)).
    - apply last_None in Hl. rewrite Hl in Hv'. by apply elem_of_nil in Hv'. }
  split; apply map_eq; intros k.
  - destruct (decide (k ∈ (NodeSpec.Labels nodeSpec).*1)) as [Hk | Hk].
    + destruct (Hin k (insert_all (Nodegroup.Labels defaultNode)
                         (system_map K nodeSpec)) Hk) as [-> [kl Hl]].
      by eapply set_caller_labels_shared.
    + rewrite (set_caller_labels_frame _ _ _ _ _ _ k Hwf1 H2 Hk).
      rewrite insert_all_lookup_other by done. by rewrite H1, H0.
  - destruct (decide (k ∈ (NodeSpec.Labels nodeSpec).*1)) as [Hk | Hk].
    + destruct (Hin k (system_map K nodeSpec) Hk) as [-> [kl Hl]].
      by eapply set_caller_labels_shared.
    + rewrite (set_caller_labels_frame _ _ _ _ _ _ k Hwf0 H3 Hk).
      rewrite insert_all_lookup_other by done. by rewrite H0.
Qed.

End LabelMaps.

Lemma labels_of_other_keys_witness :
  AWS.labels_from_default spec_constants OnePerLoop Scenario.donor
    Scenario.gpu_pool !! "a"
  = insert_all (Nodegroup.Labels Scenario.donor)
      (system_map spec_constants Scenario.gpu_pool) !! "a"
  /\ AWS.labels_from_cluster spec_constants OnePerLoop Scenario.gpu_pool !! "a"
     = system_map spec_constants Scenario.gpu_pool !! "a".
Proof.
  apply (labels_of_other_keys spec_constants OnePerLoop Scenario.donor
           Scenario.gpu_pool "a").
  intros H. simpl in H. repeat in_trace.
Defined.

Lemma labels_merge_one_value_witness :
  AWS.labels_from_default spec_constants OnePerLoop Scenario.donor
    Fixtures.one_label
  = insert_all (NodeSpec.Labels Fixtures.one_label)
      (insert_all (Nodegroup.Labels Scenario.donor)
         (system_map spec_constants Fixtures.one_label))
  /\ AWS.labels_from_cluster spec_constants OnePerLoop Fixtures.one_label
     = insert_all (NodeSpec.Labels Fixtures.one_label)
         (system_map spec_constants Fixtures.one_label).
Proof.
  apply (labels_merge_one_value spec_constants Scenario.donor
           Fixtures.one_label "9").
  intros k v' H. simpl in H. repeat in_trace. by simplify_eq.
Defined.

Section LabelKeys.
Context (K : Constants).
Import Cells.

Lemma insert_all_is_Some (entries : list (string * string)) :
  forall (m : gmap string string) (k : string),
    is_Some (insert_all entries m !! k) <-> k ∈ entries.*1 \/ is_Some (m !! k).
Proof.
  intros m k. destruct (decide (k ∈ entries.*1)) as [Hin | Hnot].
  - destruct (insert_all_lookup_in entries m k Hin) as (v & _ & ->).
    split; [by left | by eexists].
  - rewrite insert_all_lookup_other by done. split; [by right |].
    by intros [? | ?].
Qed.

Lemma set_caller_labels_keys (rv : range_variable)
    (entries : list (string * string)) (labels labels' : gmap string loc)
    (h h' : heap) (k : string) :
  allocated h labels ->
  AWS.set_caller_labels rv entries labels h = (labels', h') ->
  k ∈ entries.*1 ->
  is_Some (resolve h' labels' !! k).
Proof.
  intros Hwf Hrun Hk. destruct rv.
  - destruct (last entries) as [[kl vl]|] eqn:Hl.
    + exists vl. by eapply set_caller_labels_shared.
    + apply last_None in Hl. subst. by apply elem_of_nil in Hk.
  - simpl in Hrun. apply range_fresh_spec in Hrun as [-> _]; [| done].
    apply insert_all_is_Some. by left.
Qed.

(** X25: however the loop variable is declared, the label map of a new
    node group has exactly the keys of the caller, the keys of the node
    group that is copied and the five system keys: no label is dropped,
    and none is made up. *)
Theorem labels_keys (rv : range_variable) (defaultNode : Nodegroup.t)
    (nodeSpec : NodeSpec.t) (k : string) :
  (is_Some (AWS.labels_from_default K rv defaultNode nodeSpec !! k)
   <-> k ∈ (NodeSpec.Labels nodeSpec).*1
       \/ k ∈ (Nodegroup.Labels defaultNode).*1
       \/ is_Some (system_map K nodeSpec !! k))
  /\ (is_Some (AWS.labels_from_cluster K rv nodeSpec !! k)
      <-> k ∈ (NodeSpec.Labels nodeSpec).*1
          \/ is_Some (system_map K nodeSpec !! k)).
Proof.
  unfold AWS.labels_from_default, AWS.labels_from_cluster.
  destruct (AWS.system_labels K nodeSpec []) as [labels0 h0] eqn:H0.
  apply system_labels_spec in H0 as [H0 Hwf0].
  destruct (AWS.copy_donor_labels _ labels0 h0) as [labels1 h1] eqn:H1.
  apply copy_donor_labels_spec in H1 as [H1 Hwf1]; [| done].
  destruct (AWS.set_caller_labels _ _ labels1 h1) as [labels2 h2] eqn:H2.
  destruct (AWS.set_caller_labels _ _ labels0 h0) as [labels3 h3] eqn:H3.
  destruct (decide (k ∈ (NodeSpec.Labels nodeSpec).*1)) as [Hk | Hk].
  - split; (split; [by left |]); intros _.
    + exact (set_caller_labels_keys rv _ _ _ _ _ k Hwf1 H2 Hk).
    + exact (set_caller_labels_keys rv _ _ _ _ _ k Hwf0 H3 Hk).
  - rewrite (set_caller_labels_frame rv _ _ _ _ _ k Hwf1 H2 Hk).
    rewrite (set_caller_labels_frame rv _ _ _ _ _ k Hwf0 H3 Hk).
    rewrite H1, H0, insert_all_is_Some. split; split.
    + by right.
    + by intros [? | ?].
    + by right.
    + by intros [? | ?].
Qed.

End LabelKeys.

Lemma labels_keys_witness :
  is_Some (AWS.labels_from_default spec_constants OnePerLoop Scenario.donor
             Scenario.gpu_pool !! "a")
  /\ is_Some (AWS.labels_from_cluster spec_constants OnePerLoop
                Scenario.gpu_pool !! "c").
Proof.
  split.
  - apply (proj2 (proj1 (labels_keys spec_constants OnePerLoop Scenario.donor
                           Scenario.gpu_pool "a"))).
    right. left. apply list_elem_of_here.
  - apply (proj2 (proj2 (labels_keys spec_constants OnePerLoop Scenario.donor
                           Scenario.gpu_pool "c"))).
    left. apply list_elem_of_further, list_elem_of_here.
Defined.
